(** * Tenant resource lifecycle and job orchestration of the RAG admin backend

    A shallow embedding of the scrape controller (startScrape, runUpdater and
    their helpers), of the user and auth controllers (getMe, updateMe,
    createUser, getUserById, getUserResources, updateUser, deleteUser,
    registerUser, loginUser), of the User schema and of the rename plan of
    the duplicate-username script, together with the properties the
    specification states about them and further properties of the code.

    JavaScript strings are sequences of UTF-16 code units, request bodies and
    option bags are objects (ordered lists of own properties), numbers are
    IEEE 754 binary64 values.  Collaborators that live outside these files
    (the job runner, the HTTP client, the provisioning service, bcrypt, the
    MongoDB driver's verdict on a write) are fields of an environment record
    that every theorem quantifies over. *)

From Stdlib Require Import ZArith NArith List Bool PrimFloat DecimalString DecimalPos
  DecimalN Sorted.
From stdpp Require Import gmap strings list.

Set Warnings "-register-all,-clear-no-such-hyp".
Local Open Scope N_scope.

(** ** JavaScript strings *)

(** A JavaScript string: its UTF-16 code units. *)
Abbreviation jsstring := (list N).

(** The code units of an ASCII literal of the source. *)
Definition ustr (s : string) : jsstring :=
  map Ascii.N_of_ascii (String.list_ascii_of_string s).

(** WhiteSpace and LineTerminator code units, the ones
    String.prototype.trim strips. *)
Definition isWhiteSpace (c : N) : bool :=
  (c =? 0x9) || (c =? 0xA) || (c =? 0xB) || (c =? 0xC) || (c =? 0xD)
  || (c =? 0x20) || (c =? 0xA0) || (c =? 0x1680)
  || ((0x2000 <=? c) && (c <=? 0x200A))
  || (c =? 0x2028) || (c =? 0x2029) || (c =? 0x202F) || (c =? 0x205F)
  || (c =? 0x3000) || (c =? 0xFEFF).

Fixpoint trimStart (s : jsstring) : jsstring :=
  match s with
  | c :: s' => if isWhiteSpace c then trimStart s' else s
  | [] => []
  end.

Definition trimEnd (s : jsstring) : jsstring := rev (trimStart (rev s)).

(** String.prototype.trim *)
Definition trim (s : jsstring) : jsstring := trimEnd (trimStart s).

(** The decimal rendering of a non-negative integer inside a template
    literal. *)
Definition decimal (n : N) : jsstring :=
  ustr (NilZero.string_of_uint (N.to_uint n)).

(** [s.length] *)
Definition jslength (s : jsstring) : N := N.of_nat (length s).

(** [s.slice(0, n)] for a non-negative [n]. *)
Definition slice0 (n : N) (s : jsstring) : jsstring := take (N.to_nat n) s.

(** ** JavaScript values *)

Inductive JsValue : Type :=
| JUndefined
| JNull
| JBool (b : bool)
| JNum (x : float)
| JStr (s : jsstring)
| JObj (fields : list (string * JsValue)).

Inductive JsType := TUndefined | TObject | TBoolean | TNumber | TString.

Definition typeof (v : JsValue) : JsType :=
  match v with
  | JUndefined => TUndefined
  | JNull | JObj _ => TObject
  | JBool _ => TBoolean
  | JNum _ => TNumber
  | JStr _ => TString
  end.

(** ToBoolean: the values on which [!v] is false. *)
Definition truthy (v : JsValue) : bool :=
  match v with
  | JUndefined | JNull => false
  | JBool b => b
  | JNum x => negb (PrimFloat.eqb x 0%float || PrimFloat.is_nan x)
  | JStr s => match s with [] => false | _ => true end
  | JObj _ => true
  end.

(** Own-property lookup in an object literal or a parsed JSON object. *)
Fixpoint assoc (k : string) (fields : list (string * JsValue)) : JsValue :=
  match fields with
  | [] => JUndefined
  | (k', v) :: rest => if String.eqb k k' then v else assoc k rest
  end.

(** A string-or-absent field as a value. *)
Definition ofOpt (o : option jsstring) : JsValue :=
  match o with Some s => JStr s | None => JUndefined end.

(** [a || b] on values. *)
Definition jsOr (a b : JsValue) : JsValue := if truthy a then a else b.

(** ** Errors, responses, completions *)

(** A thrown Error object, as the properties a catch block can read off it
    (message, name, code, statusCode, summary, errors, keyPattern, ...).
    Everything thrown in these files and by their collaborators is an
    object. *)
Record JsError := mkError { errFields : list (string * JsValue) }.

Definition errProp (e : JsError) (k : string) : JsValue := assoc k (errFields e).

Definition TypeError (msg : string) : JsError :=
  mkError [("name", JStr (ustr "TypeError")); ("message", JStr (ustr msg))].

(** What the handler sent: [res.status(s).json(body)]; [res.json(body)]
    sends status 200. *)
Record HttpResponse := mkResponse { status : JsValue; body : JsValue }.

(** How a piece of code completes: normally with a value, by throwing, or by
    a [return] of the enclosing handler after it has sent a response. *)
Inductive Completion (A : Type) : Type :=
| Normal (a : A)
| Throw (e : JsError)
| Return (r : HttpResponse).
Arguments Normal {A} a.
Arguments Throw {A} e.
Arguments Return {A} r.

(** ** Built-ins of the runtime that the handlers call *)

Class JsRuntime := {
  (** String.prototype.toLowerCase *)
  toLowerCase : jsstring -> jsstring;
  (** String.prototype.toUpperCase *)
  toUpperCase : jsstring -> jsstring;
  (** parseInt(value, 10) *)
  parseInt10 : JsValue -> float;
  (** parseInt(value) *)
  parseIntAuto : JsValue -> float;
  (** ToNumber on a string *)
  stringToNumber : jsstring -> float;
  (** ToString, as Array.prototype.join and template literals apply it to a
      value that is neither undefined nor null *)
  toStringJs : JsValue -> jsstring
}.

(** A runtime for closed examples: changes the case of the letters A to Z
    and a to z only, parses nothing, and renders strings only. It agrees
    with the built-ins on ASCII strings and on the requests of the examples,
    which carry no numbers. *)
Definition asciiLower (c : N) : N :=
  if (0x41 <=? c) && (c <=? 0x5A) then c + 0x20 else c.

Definition asciiUpper (c : N) : N :=
  if (0x61 <=? c) && (c <=? 0x7A) then c - 0x20 else c.

Definition exampleRuntime : JsRuntime :=
  {| toLowerCase := map asciiLower;
     toUpperCase := map asciiUpper;
     parseInt10 := fun _ => PrimFloat.nan;
     parseIntAuto := fun _ => PrimFloat.nan;
     stringToNumber := fun _ => PrimFloat.nan;
     toStringJs := fun v => match v with JStr s => s | _ => [] end |}.

(** ** Helpers of the scrape controller *)

Section Helpers.
Context `{JsRuntime}.

Definition maxLength : N := 8192.

(** [len <= maxLength] for the [length] property of a value that is not a
    string: the abstract relational comparison after ToNumber. *)
Definition withinMaxLength (len : JsValue) : bool :=
  match len with
  | JNum x => PrimFloat.leb x 8192
  | JBool _ | JNull => true
  | JStr s => PrimFloat.leb (stringToNumber s) 8192
  | JUndefined | JObj _ => false
  end.

(** truncateLog. Booleans and numbers have no [length] and no [slice]; a
    plain object has the [length] it carries and no callable [slice]. *)
Definition truncateLog (value : JsValue) : Completion JsValue :=
  if negb (truthy value) then Normal value
  else match value with
       | JStr s =>
           if jslength s <=? maxLength then Normal value
           else Normal (JStr (slice0 maxLength s ++ [0xA] ++ ustr "... [truncated "
                              ++ decimal (jslength s - maxLength) ++ ustr " chars]"))
       | JObj fields =>
           if withinMaxLength (assoc "length" fields) then Normal value
           else Throw (TypeError "value.slice is not a function")
       | _ => Throw (TypeError "value.slice is not a function")
       end.

Definition positiveForms : list jsstring :=
  [ustr "true"; ustr "1"; ustr "yes"; ustr "on"].
Definition negativeForms : list jsstring :=
  [ustr "false"; ustr "0"; ustr "no"; ustr "off"].

(** [list.includes(s)] *)
Definition includes (l : list jsstring) (s : jsstring) : bool :=
  bool_decide (s ∈ l).

(** toBooleanOrUndefined *)
Definition toBooleanOrUndefined (value : JsValue) : JsValue :=
  match value with
  | JUndefined | JNull => JUndefined
  | JBool b => JBool b
  | JStr s =>
      let normalized := toLowerCase (trim s) in
      if includes positiveForms normalized then JBool true
      else if includes negativeForms normalized then JBool false
      else JUndefined
  | _ => JUndefined
  end.

(** parseIntegerOrUndefined *)
Definition parseIntegerOrUndefined (value : JsValue) : JsValue :=
  match value with
  | JUndefined | JNull | JStr [] => JUndefined
  | _ => let parsed := parseInt10 value in
         if PrimFloat.is_nan parsed then JUndefined else JNum parsed
  end.

End Helpers.

(** ** Tenant contexts, job results *)

(** The resolved runtime context of a tenant, as the context service hands
    it out. Every field is a string of the tenant record or absent. *)
Module Ctx.
Record t := mk {
  userId : option jsstring;
  resourceId : option jsstring;
  databaseUri : option jsstring;
  vectorStorePath : option jsstring;
  botEndpoint : option jsstring;
  schedulerEndpoint : option jsstring;
  scraperEndpoint : option jsstring
}.
End Ctx.

(** What a finished job resolves to. *)
Module Job.
Record t := mk { summary : JsValue; stdout : JsValue; stderr : JsValue }.
End Job.

(** A user document of the users collection (models/User.js): the paths of
    UserSchema and the two timestamps. A path that is not set is absent.
    Object ids are the strings they print as. *)
Module Doc.
Record t := mk {
  name : option jsstring;
  email : option jsstring;
  username : option jsstring;
  password : option jsstring;
  adminId : option jsstring;
  resourceId : option jsstring;
  databaseUri : option jsstring;
  botEndpoint : option jsstring;
  schedulerEndpoint : option jsstring;
  scraperEndpoint : option jsstring;
  vectorStorePath : option jsstring;
  role : option jsstring;
  isActive : bool;
  createdAt : JsValue;
  updatedAt : JsValue
}.
End Doc.

(** A filter passed to User.findOne: each constraint is optional. *)
Record Query := mkQuery {
  qEmail : option jsstring;
  qUsername : option jsstring;
  qAdminId : option (option jsstring);
  qRole : option jsstring;
  qNotId : option jsstring
}.

(** ** Effects *)

(** What the handlers do to the outside, in order. Console output is not
    recorded. *)
Inductive Event :=
| EvGetContext (userId : jsstring) (forceRefresh : bool)
| EvRunScrape (options : JsValue)
| EvRunUpdater (options : JsValue)
| EvPost (url : jsstring) (params headers : JsValue) (timeout : Z)
| EvFindById (id : jsstring)
| EvFindOne (q : Query)
| EvFindByIdAndUpdate (id : jsstring) (updates : list (string * JsValue))
| EvDeleteOne (id : jsstring)
| EvSave (id : jsstring)
| EvInvalidate (id : jsstring)
| EvStoreRead (id : jsstring)
| EvProvision (userId username : jsstring)
| EvFind (q : Query)
| EvGenSalt
| EvHash (password saltOrRounds : JsValue)
| EvCompare (password : JsValue) (hash : JsValue)
| EvEnsureResources (id : jsstring)
| EvSign (payload : JsValue).

(** The users collection, the tenant-context cache of the process, and the
    effects so far. *)
Record World := mkWorld {
  users : gmap jsstring Doc.t;
  cache : gmap jsstring Ctx.t;
  trace : list Event
}.

(** A computation of a handler. *)
Definition M (A : Type) : Type := World -> Completion A * World.

#[global] Instance M_ret : MRet M := fun A a w => (Normal a, w).
#[global] Instance M_bind : MBind M := fun A B k m w =>
  match m w with
  | (Normal a, w') => k a w'
  | (Throw e, w') => (Throw e, w')
  | (Return r, w') => (Return r, w')
  end.

Definition throw {A} (e : JsError) : M A := fun w => (Throw e, w).

(** [return res.status(s).json(b)] *)
Definition returnWith {A} (r : HttpResponse) : M A := fun w => (Return r, w).

(** [try { body } catch (err) { handler err }] *)
Definition tryCatch {A} (body : M A) (handler : JsError -> M A) : M A :=
  fun w => match body w with
           | (Throw e, w') => handler e w'
           | other => other
           end.

Definition liftC {A} (c : Completion A) : M A := fun w => (c, w).

Definition emit (ev : Event) : M unit :=
  fun w => (Normal tt, mkWorld (users w) (cache w) (trace w ++ [ev])).

(** A call to a collaborator: the call is recorded, then it resolves or
    rejects. *)
Definition call {A} (ev : Event) (outcome : JsError + A) : M A :=
  _ ← emit ev;
  match outcome with inl e => throw e | inr a => mret a end.

(** [if (c) return res...] *)
Definition returnIf (c : bool) (r : HttpResponse) : M unit :=
  if c then returnWith r else mret tt.

(** How a handler ends: it has sent a response, or its promise rejects. *)
Inductive HandlerResult := Responded (r : HttpResponse) | Rejected (e : JsError).

Definition runHandler (h : M HttpResponse) (w : World) : HandlerResult * World :=
  match h w with
  | (Normal r, w') | (Return r, w') => (Responded r, w')
  | (Throw e, w') => (Rejected e, w')
  end.

(** ** Requests *)

(** The parts of an Express request the handlers read: the JSON body, the
    tenant the route was resolved for, the authenticated caller and the
    [:id] route parameter. *)
Record Request := mkRequest {
  reqBody : list (string * JsValue);
  tenantUserId : option jsstring;
  callerId : jsstring;
  callerRole : jsstring;
  paramId : jsstring
}.

(** Truthiness of a string-or-absent value. *)
Definition present (o : option jsstring) : bool :=
  match o with Some (_ :: _) => true | _ => false end.

(** [a || b] where [b] is a string. *)
Definition orElse (a : option jsstring) (b : jsstring) : jsstring :=
  match a with Some (c :: s) => c :: s | _ => b end.

(** [a === b] on strings. *)
Definition strEq (a b : jsstring) : bool := bool_decide (a = b).

(** ** Collaborators *)

(** Everything the controllers reach outside their own files: environment
    variables, randomness, the tenant-context service as the scrape
    controller sees it, the job runner, the HTTP client, bcrypt, the
    provisioning service, token signing, fresh document ids, the clock, and
    the driver's verdict on a database operation in the state it is issued
    in (a validation, cast, duplicate key or connection error, or none). *)
Record Env := mkEnv {
  processEnv : string -> option jsstring;
  randomToken : jsstring;
  getUserTenantContext : jsstring -> bool -> JsError + Ctx.t;
  runTenantScrape : JsValue -> JsError + Job.t;
  runTenantUpdater : JsValue -> JsError + Job.t;
  axiosPost : jsstring -> JsValue -> JsValue -> Z -> JsError + JsValue;
  dbFault : World -> Event -> option JsError;
  newObjectId : jsstring;
  now : JsValue;
  bcryptGenSalt : JsError + jsstring;
  bcryptHash : JsValue -> JsValue -> JsError + jsstring;
  bcryptCompare : JsValue -> JsValue -> JsError + bool;
  provisionResourcesForUser : jsstring -> jsstring -> JsError + list (string * JsValue);
  ensureUserResources : jsstring -> Doc.t -> JsError + Doc.t;
  jwtSign : JsValue -> JsValue -> JsValue -> JsError + jsstring
}.

(** ** The scrape controller *)

Section ScrapeController.
Context `{JsRuntime} (env : Env).

(** buildJobId *)
Definition buildJobId (prefix : string) (resourceId : option jsstring) : jsstring :=
  ustr prefix ++ ustr "_" ++ orElse resourceId (ustr "tenant") ++ ustr "_" ++ randomToken env.

(** The request refreshBotCache sends. *)
Definition refreshUrl (tenantContext : Ctx.t) : jsstring :=
  let botEndpoint :=
    orElse (Ctx.botEndpoint tenantContext)
      (orElse (processEnv env "FASTAPI_BOT_URL") (ustr "http://localhost:8000")) in
  botEndpoint ++ ustr "/mark-data-updated".

Definition refreshParams (tenantContext : Ctx.t) : JsValue :=
  JObj [("resource_id", ofOpt (Ctx.resourceId tenantContext));
        ("vector_store_path", ofOpt (Ctx.vectorStorePath tenantContext));
        ("database_uri", ofOpt (Ctx.databaseUri tenantContext))].

Definition refreshHeaders : JsValue :=
  let sharedSecret := processEnv env "FASTAPI_SHARED_SECRET" in
  if present sharedSecret then JObj [("X-Service-Secret", ofOpt sharedSecret)]
  else JObj [].

(** Property read on a value that is known not to be undefined or null. *)
Definition prop (v : JsValue) (k : string) : JsValue :=
  match v with JObj fields => assoc k fields | _ => JUndefined end.

(** [response.data && response.data.status === 'success'] *)
Definition isSuccessData (data : JsValue) : bool :=
  truthy data &&
  match prop data "status" with
  | JStr s => strEq s (ustr "success")
  | _ => false
  end.

(** refreshBotCache *)
Definition refreshBotCache (tenantContext : Ctx.t) : M (list (string * JsValue)) :=
  tryCatch
    (let url := refreshUrl tenantContext in
     let params := refreshParams tenantContext in
     data ← call (EvPost url params refreshHeaders 5000)
                 (axiosPost env url params refreshHeaders 5000);
     if isSuccessData data
     then mret [("success", JBool true); ("message", prop data "message")]
     else mret [("success", JBool false);
                ("error", JStr (ustr "Unexpected response from bot service"))])
    (fun err => mret [("success", JBool false); ("error", errProp err "message")]).

(** ensureTenantResources *)
Definition ensureTenantResources (tenantContext : Ctx.t) : Completion unit :=
  if negb (present (Ctx.vectorStorePath tenantContext))
     || negb (present (Ctx.resourceId tenantContext))
  then Throw (mkError
         [("name", JStr (ustr "Error"));
          ("message", JStr (ustr "Tenant resources are incomplete. Re-provision before running scrape."));
          ("statusCode", JNum 503)])
  else Normal tt.

(** [typeof v === 'string' ? v.trim() : undefined] *)
Definition trimmedOrUndefined (v : JsValue) : JsValue :=
  match v with JStr s => JStr (trim s) | _ => JUndefined end.

(** [typeof v === 'string' ? v.trim() : ''] *)
Definition trimmedOrEmpty (v : JsValue) : JsValue :=
  match v with JStr s => JStr (trim s) | _ => JStr [] end.

(** [req.tenantUserId || req.user.userId] *)
Definition targetUserId (req : Request) : jsstring :=
  orElse (tenantUserId req) (callerId req).

(** [userRole === 'user' && req.tenantUserId && req.tenantUserId !== req.user.userId] *)
Definition foreignTenant (req : Request) : bool :=
  strEq (callerRole req) (ustr "user")
  && present (tenantUserId req)
  && negb (bool_decide (tenantUserId req = Some (callerId req))).

(** The option bag of a scrape job. *)
Definition scrapeOptions (req : Request) (tenantContext : Ctx.t) (jobId : jsstring) : JsValue :=
  let b := reqBody req in
  JObj [("startUrl", trimmedOrEmpty (assoc "startUrl" b));
        ("sitemapUrl", trimmedOrUndefined (assoc "sitemapUrl" b));
        ("resourceId", ofOpt (Ctx.resourceId tenantContext));
        ("userId", ofOpt (Ctx.userId tenantContext));
        ("vectorStorePath", ofOpt (Ctx.vectorStorePath tenantContext));
        ("collectionName", trimmedOrUndefined (assoc "collectionName" b));
        ("embeddingModelName", trimmedOrUndefined (assoc "embeddingModelName" b));
        ("domain", trimmedOrUndefined (assoc "domain" b));
        ("maxDepth", parseIntegerOrUndefined (assoc "maxDepth" b));
        ("maxLinksPerPage", parseIntegerOrUndefined (assoc "maxLinksPerPage" b));
        ("respectRobots", toBooleanOrUndefined (assoc "respectRobots" b));
        ("aggressiveDiscovery", toBooleanOrUndefined (assoc "aggressiveDiscovery" b));
        ("jobId", JStr jobId);
        ("logLevel", JStr (orElse (processEnv env "SCRAPER_LOG_LEVEL") (ustr "INFO")))].

(** [mongoUriOverride || tenantContext.databaseUri] *)
Definition effectiveMongoUri (req : Request) (tenantContext : Ctx.t) : JsValue :=
  let mongoUriOverride := trimmedOrUndefined (assoc "mongoUri" (reqBody req)) in
  jsOr mongoUriOverride (ofOpt (Ctx.databaseUri tenantContext)).

(** The option bag of an update job. *)
Definition updaterOptions (req : Request) (tenantContext : Ctx.t) (jobId : jsstring) : JsValue :=
  let b := reqBody req in
  JObj [("startUrl", trimmedOrEmpty (assoc "startUrl" b));
        ("sitemapUrl", trimmedOrUndefined (assoc "sitemapUrl" b));
        ("resourceId", ofOpt (Ctx.resourceId tenantContext));
        ("userId", ofOpt (Ctx.userId tenantContext));
        ("vectorStorePath", ofOpt (Ctx.vectorStorePath tenantContext));
        ("collectionName", trimmedOrUndefined (assoc "collectionName" b));
        ("embeddingModelName", trimmedOrUndefined (assoc "embeddingModelName" b));
        ("domain", trimmedOrUndefined (assoc "domain" b));
        ("maxDepth", parseIntegerOrUndefined (assoc "maxDepth" b));
        ("maxLinksPerPage", parseIntegerOrUndefined (assoc "maxLinksPerPage" b));
        ("respectRobots", toBooleanOrUndefined (assoc "respectRobots" b));
        ("aggressiveDiscovery", toBooleanOrUndefined (assoc "aggressiveDiscovery" b));
        ("mongoUri", effectiveMongoUri req tenantContext);
        ("jobId", JStr jobId);
        ("logLevel", JStr (orElse (processEnv env "UPDATER_LOG_LEVEL") (ustr "INFO")))].

(** The body of a successful job response. *)
Definition jobSuccess (jobId : jsstring) (tenantContext : Ctx.t) (summary stdout stderr : JsValue)
    (cacheRefresh : list (string * JsValue)) : HttpResponse :=
  mkResponse (JNum 200)
    (JObj [("success", JBool true);
           ("jobId", JStr jobId);
           ("resourceId", ofOpt (Ctx.resourceId tenantContext));
           ("summary", summary);
           ("stdout", stdout);
           ("stderr", stderr);
           ("cacheRefreshed", assoc "success" cacheRefresh);
           ("documentCount", assoc "documentCount" cacheRefresh)]).

(** The response of the catch block of both handlers. *)
Definition jobFailure (err : JsError) : HttpResponse :=
  mkResponse (jsOr (errProp err "statusCode") (JNum 500))
    (JObj [("success", JBool false);
           ("error", errProp err "message");
           ("code", errProp err "code");
           ("summary", jsOr (errProp err "summary") JNull)]).

Definition accessDenied (what : string) : HttpResponse :=
  mkResponse (JNum 403)
    (JObj [("success", JBool false);
           ("error", JStr (ustr "Access denied: You can only " ++ ustr what ++ ustr " your own data"))]).

(** exports.startScrape *)
Definition startScrape (req : Request) : M HttpResponse :=
  tryCatch
    (let userId := targetUserId req in
     _ ← returnIf (foreignTenant req) (accessDenied "scrape");
     tenantContext ← call (EvGetContext userId false) (getUserTenantContext env userId false);
     _ ← liftC (ensureTenantResources tenantContext);
     let jobId := buildJobId "scrape" (Ctx.resourceId tenantContext) in
     let options := scrapeOptions req tenantContext jobId in
     result ← call (EvRunScrape options) (runTenantScrape env options);
     cacheRefresh ← refreshBotCache tenantContext;
     stdout ← liftC (truncateLog (Job.stdout result));
     stderr ← liftC (truncateLog (Job.stderr result));
     mret (jobSuccess jobId tenantContext (Job.summary result) stdout stderr cacheRefresh))
    (fun err => mret (jobFailure err)).

(** exports.runUpdater *)
Definition runUpdater (req : Request) : M HttpResponse :=
  tryCatch
    (let userId := targetUserId req in
     _ ← returnIf (foreignTenant req) (accessDenied "update");
     tenantContext ← call (EvGetContext userId false) (getUserTenantContext env userId false);
     _ ← liftC (ensureTenantResources tenantContext);
     let jobId := buildJobId "update" (Ctx.resourceId tenantContext) in
     let options := updaterOptions req tenantContext jobId in
     result ← call (EvRunUpdater options) (runTenantUpdater env options);
     cacheRefresh ← refreshBotCache tenantContext;
     stdout ← liftC (truncateLog (Job.stdout result));
     stderr ← liftC (truncateLog (Job.stderr result));
     mret (jobSuccess jobId tenantContext (Job.summary result) stdout stderr cacheRefresh))
    (fun err => mret (jobFailure err)).

End ScrapeController.

(** ** Objects and errors in the user and auth controllers *)

#[global] Instance Completion_ret : MRet Completion := fun A a => Normal a.
#[global] Instance Completion_bind : MBind Completion := fun A B k c =>
  match c with
  | Normal a => k a
  | Throw e => Throw e
  | Return r => Return r
  end.

(** [f] on every element, left to right, stopping at the first that throws. *)
Fixpoint mapC {A B} (f : A -> Completion B) (l : list A) : Completion (list B) :=
  match l with
  | [] => Normal []
  | a :: rest => b ← f a; bs ← mapC f rest; Normal (b :: bs)
  end.

(** [obj.k = v]: replaces the property in place or adds it last. *)
Fixpoint setProp (k : string) (v : JsValue) (fields : list (string * JsValue))
    : list (string * JsValue) :=
  match fields with
  | [] => [(k, v)]
  | (k', v') :: rest =>
      if String.eqb k k' then (k, v) :: rest else (k', v') :: setProp k v rest
  end.

(** [delete obj.k] *)
Definition deleteKey (k : string) (fields : list (string * JsValue))
    : list (string * JsValue) :=
  List.filter (fun kv => negb (String.eqb k (fst kv))) fields.

(** The keys of an object. *)
Definition keys (fields : list (string * JsValue)) : list string := map fst fields.

Definition json (st : float) (fields : list (string * JsValue)) : HttpResponse :=
  mkResponse (JNum st) (JObj fields).

Definition errorBody (msg : string) : list (string * JsValue) :=
  [("error", JStr (ustr msg))].

Section Coercions.
Context `{JsRuntime}.

(** ToString of a value that is neither undefined nor null. *)
Definition jsString (v : JsValue) : jsstring :=
  match v with JStr s => s | _ => toStringJs v end.

(** [value.trim()] *)
Definition callTrim (v : JsValue) : Completion jsstring :=
  match v with
  | JStr s => Normal (trim s)
  | JUndefined | JNull =>
      Throw (TypeError "Cannot read properties of undefined (reading 'trim')")
  | _ => Throw (TypeError "trim is not a function")
  end.

(** [value.toLowerCase().trim()] *)
Definition callLowerTrim (v : JsValue) : Completion jsstring :=
  match v with
  | JStr s => Normal (trim (toLowerCase s))
  | JUndefined | JNull =>
      Throw (TypeError "Cannot read properties of undefined (reading 'toLowerCase')")
  | _ => Throw (TypeError "toLowerCase is not a function")
  end.

(** [Object.values(v)] *)
Definition objectValues (v : JsValue) : Completion (list JsValue) :=
  match v with
  | JUndefined | JNull =>
      Throw (TypeError "Cannot convert undefined or null to object")
  | JObj fields => Normal (map snd fields)
  | JStr s => Normal (map (fun c => JStr [c]) s)
  | JBool _ | JNum _ => Normal []
  end.

(** [Object.keys(v)] *)
Definition objectKeys (v : JsValue) : Completion (list jsstring) :=
  match v with
  | JUndefined | JNull =>
      Throw (TypeError "Cannot convert undefined or null to object")
  | JObj fields => Normal (map ustr (keys fields))
  | JStr s => Normal (map (fun i => decimal (N.of_nat i)) (seq 0 (length s)))
  | JBool _ | JNum _ => Normal []
  end.

(** [e.message] *)
Definition readMessage (e : JsValue) : Completion JsValue :=
  match e with
  | JUndefined | JNull =>
      Throw (TypeError "Cannot read properties of undefined (reading 'message')")
  | JObj fields => Normal (assoc "message" fields)
  | _ => Normal JUndefined
  end.

(** [messages.join(', ')] *)
Definition joinItem (v : JsValue) : jsstring :=
  match v with JUndefined | JNull => [] | _ => jsString v end.

Fixpoint join (sep : jsstring) (l : list JsValue) : jsstring :=
  match l with
  | [] => []
  | [v] => joinItem v
  | v :: rest => joinItem v ++ sep ++ join sep rest
  end.

(** [err.name === 'ValidationError'] *)
Definition isValidationError (err : JsError) : bool :=
  match errProp err "name" with
  | JStr s => strEq s (ustr "ValidationError")
  | _ => false
  end.

(** [err.code === 11000] *)
Definition isDuplicateKey (err : JsError) : bool :=
  match errProp err "code" with
  | JNum x => PrimFloat.eqb x 11000
  | _ => false
  end.

(** The 400 response for a mongoose validation error. *)
Definition validationFailure (err : JsError) : Completion HttpResponse :=
  errors ← objectValues (errProp err "errors");
  messages ← mapC readMessage errors;
  Normal (json 400 [("error", JStr (join (ustr ", ") messages))]).

(** The 400 response for a duplicate key error. *)
Definition duplicateKeyFailure (err : JsError) : Completion HttpResponse :=
  fields ← objectKeys (errProp err "keyPattern");
  match fields with
  | [] => Throw (TypeError "Cannot read properties of undefined (reading 'charAt')")
  | field :: _ =>
      Normal (json 400
        [("error", JStr (toUpperCase (take 1 field) ++ drop 1 field ++ ustr " already in use"));
         ("field", JStr field)])
  end.

(** The catch block of a writing handler: [duplicates] tells whether it
    has the branch for duplicate key errors. *)
Definition writeFailure (duplicates : bool) (fallback : string) (err : JsError)
    : Completion HttpResponse :=
  if isValidationError err then validationFailure err
  else if duplicates && isDuplicateKey err then duplicateKeyFailure err
  else Normal (json 500 (errorBody fallback)).

(** normalizeBoolean *)
Definition defaulted (defaultValue : JsValue) : bool :=
  match defaultValue with JUndefined => true | _ => truthy defaultValue end.

Definition normalizeBoolean (value defaultValue : JsValue) : bool :=
  match value with
  | JUndefined => defaulted defaultValue
  | JBool b => b
  | JStr s =>
      let normalized := toLowerCase (trim s) in
      if includes positiveForms normalized then true
      else if includes negativeForms normalized then false
      else defaulted defaultValue
  | JNum x => negb (PrimFloat.eqb x 0)
  | _ => defaulted defaultValue
  end.

End Coercions.

(** ** The User model *)

Section UserModel.
Context `{JsRuntime} (env : Env).

(** Casting a value to a String path: strings stay, numbers and booleans
    are rendered, undefined and null unset the path, objects are refused. *)
Definition castString (v : JsValue) : option (option jsstring) :=
  match v with
  | JStr s => Some (Some s)
  | JUndefined | JNull => Some None
  | JBool _ | JNum _ => Some (Some (toStringJs v))
  | JObj _ => None
  end.

(** The setters UserSchema declares for a String path: [trim], and
    [lowercase] where declared (email, role); mongoose runs the setter of the
    option declared last first. *)
Definition schemaSetter (k : string) (s : jsstring) : jsstring :=
  if String.eqb k "email" || String.eqb k "role" then toLowerCase (trim s)
  else if String.eqb k "password" || String.eqb k "adminId" then s
  else trim s.

Definition setString (k : string) (v : option jsstring) (d : Doc.t) : Doc.t :=
  let 'Doc.mk na em us pa ad re da bo sc sr ve ro ia ca ua := d in
  if String.eqb k "name" then Doc.mk v em us pa ad re da bo sc sr ve ro ia ca ua
  else if String.eqb k "email" then Doc.mk na v us pa ad re da bo sc sr ve ro ia ca ua
  else if String.eqb k "username" then Doc.mk na em v pa ad re da bo sc sr ve ro ia ca ua
  else if String.eqb k "password" then Doc.mk na em us v ad re da bo sc sr ve ro ia ca ua
  else if String.eqb k "adminId" then Doc.mk na em us pa v re da bo sc sr ve ro ia ca ua
  else if String.eqb k "resourceId" then Doc.mk na em us pa ad v da bo sc sr ve ro ia ca ua
  else if String.eqb k "databaseUri" then Doc.mk na em us pa ad re v bo sc sr ve ro ia ca ua
  else if String.eqb k "botEndpoint" then Doc.mk na em us pa ad re da v sc sr ve ro ia ca ua
  else if String.eqb k "schedulerEndpoint" then Doc.mk na em us pa ad re da bo v sr ve ro ia ca ua
  else if String.eqb k "scraperEndpoint" then Doc.mk na em us pa ad re da bo sc v ve ro ia ca ua
  else if String.eqb k "vectorStorePath" then Doc.mk na em us pa ad re da bo sc sr v ro ia ca ua
  else if String.eqb k "role" then Doc.mk na em us pa ad re da bo sc sr ve v ia ca ua
  else d.

Definition setIsActive (b : bool) (d : Doc.t) : Doc.t :=
  let 'Doc.mk na em us pa ad re da bo sc sr ve ro _ ca ua := d in
  Doc.mk na em us pa ad re da bo sc sr ve ro b ca ua.

Definition setTimestamps (created updated : JsValue) (d : Doc.t) : Doc.t :=
  let 'Doc.mk na em us pa ad re da bo sc sr ve ro ia _ _ := d in
  Doc.mk na em us pa ad re da bo sc sr ve ro ia created updated.

(** Setting one path of the schema to a value; [None] is a cast error.
    Keys the schema does not declare are dropped (strict mode). The handlers
    pass booleans only for isActive; anything else is refused here. *)
Definition setPath (k : string) (v : JsValue) (d : Doc.t) : option Doc.t :=
  if String.eqb k "isActive"
  then match v with JBool b => Some (setIsActive b d) | _ => None end
  else s ← castString v; Some (setString k (schemaSetter k <$> s) d).

(** [immutable: true] *)
Definition immutablePath (k : string) : bool := String.eqb k "resourceId".

(** What [{ $set: updates }] does to a stored document: immutable paths are
    taken out of the update, the others are cast and set. *)
Fixpoint applySet (updates : list (string * JsValue)) (d : Doc.t) : option Doc.t :=
  match updates with
  | [] => Some d
  | (k, v) :: rest =>
      if immutablePath k then applySet rest d
      else d' ← setPath k v d; applySet rest d'
  end.

(** [doc.set(obj)] and [new User(obj)] on a document not yet saved: a value
    that does not cast leaves its path as it was (the error surfaces when
    the document is validated). *)
Fixpoint docSet (fields : list (string * JsValue)) (d : Doc.t) : Doc.t :=
  match fields with
  | [] => d
  | (k, v) :: rest => docSet rest (default d (setPath k v d))
  end.

(** A document with the schema defaults only. *)
Definition blank : Doc.t :=
  Doc.mk None None None None None None None None None None None
         (Some (ustr "user")) true JUndefined JUndefined.

(** [new User(fields)] *)
Definition newUser (fields : list (string * JsValue)) : Doc.t := docSet fields blank.

Definition optEq (c : option jsstring) (actual : option jsstring) : bool :=
  match c with None => true | Some s => bool_decide (actual = Some s) end.

(** Whether a stored document satisfies a filter. *)
Definition matches (q : Query) (id : jsstring) (d : Doc.t) : bool :=
  optEq (qEmail q) (Doc.email d)
  && optEq (qUsername q) (Doc.username d)
  && match qAdminId q with None => true | Some a => bool_decide (Doc.adminId d = a) end
  && optEq (qRole q) (Doc.role d)
  && match qNotId q with None => true | Some i => negb (strEq id i) end.

Definition findAll (q : Query) (us : gmap jsstring Doc.t) : list (jsstring * Doc.t) :=
  List.filter (fun x => matches q (fst x) (snd x)) (map_to_list us).

Definition withUsers (us : gmap jsstring Doc.t) (w : World) : World :=
  mkWorld us (cache w) (trace w).

(** A driver operation: it is recorded, then the driver refuses it or
    carries it out. *)
Definition dbOp {A} (ev : Event) (k : M A) : M A :=
  _ ← emit ev;
  ((fun w => match dbFault env w ev with Some e => (Throw e, w) | None => k w end) : M A).

(** User.findById *)
Definition findById (id : jsstring) : M (option Doc.t) :=
  dbOp (EvFindById id) (fun w => (Normal (users w !! id), w)).

(** User.findOne. The handlers only test whether a match exists, or filter
    on the unique username. *)
Definition findOne (q : Query) : M (option (jsstring * Doc.t)) :=
  dbOp (EvFindOne q) (fun w => (Normal (head (findAll q (users w))), w)).

(** [Promise.all([User.findOne(q1), User.findOne(q2)])]: both queries are
    issued before either settles. *)
Definition findOneBoth (q1 q2 : Query)
    : M (option (jsstring * Doc.t) * option (jsstring * Doc.t)) :=
  _ ← emit (EvFindOne q1);
  _ ← emit (EvFindOne q2);
  ((fun w => match dbFault env w (EvFindOne q1), dbFault env w (EvFindOne q2) with
            | Some e, _ | None, Some e => (Throw e, w)
            | None, None =>
                (Normal (head (findAll q1 (users w)), head (findAll q2 (users w))), w)
            end) : M _).

Definition CastError : JsError :=
  mkError [("name", JStr (ustr "CastError")); ("message", JStr (ustr "Cast failed"))].

(** [User.findByIdAndUpdate(id, { $set: updates }, { new: true, runValidators: true })] *)
Definition findByIdAndUpdate (id : jsstring) (updates : list (string * JsValue))
    : M (option Doc.t) :=
  dbOp (EvFindByIdAndUpdate id updates) (fun w =>
    match users w !! id with
    | None => (Normal None, w)
    | Some d =>
        match applySet updates d with
        | None => (Throw CastError, w)
        | Some d' =>
            let d'' := setTimestamps (Doc.createdAt d') (now env) d' in
            (Normal (Some d''), withUsers (<[id := d'']> (users w)) w)
        end
    end).

(** [user.deleteOne()] *)
Definition deleteOne (id : jsstring) : M unit :=
  dbOp (EvDeleteOne id) (fun w => (Normal tt, withUsers (delete id (users w)) w)).

(** [user.save()] of a new document; resolves to the document as stored. *)
Definition save (id : jsstring) (d : Doc.t) : M Doc.t :=
  dbOp (EvSave id) (fun w =>
    let d' := setTimestamps (now env) (now env) d in
    (Normal d', withUsers (<[id := d']> (users w)) w)).

End UserModel.

(** ** The tenant-context cache *)

(** Modelled from the spec: invalidate(identity) removes the cached entry for
    identity, so that the next get is forced to re-read. The service
    (services/userContextService) is not among the source files; the call is
    recorded as the controllers make it. *)
Definition invalidateUserTenantContext (id : jsstring) : M unit :=
  _ ← emit (EvInvalidate id);
  ((fun w => (Normal tt, mkWorld (users w) (delete id (cache w)) (trace w))) : M unit).

(** Modelled from the spec: the context derived from a tenant record. *)
Definition contextOf (id : jsstring) (d : Doc.t) : Ctx.t :=
  Ctx.mk (Some id) (Doc.resourceId d) (Doc.databaseUri d) (Doc.vectorStorePath d)
         (Doc.botEndpoint d) (Doc.schedulerEndpoint d) (Doc.scraperEndpoint d).

Definition ResourceIncomplete : JsError :=
  mkError [("name", JStr (ustr "Error"));
           ("message", JStr (ustr "Tenant resources are incomplete"));
           ("statusCode", JNum 503)].

Definition TenantNotFound : JsError :=
  mkError [("name", JStr (ustr "Error"));
           ("message", JStr (ustr "User not found"));
           ("statusCode", JNum 404)].

(** Modelled from the spec: get(identity, forceRefresh) returns the cached
    entry when there is one and forceRefresh is false; otherwise it reads
    the tenant record, checks that resourceId and the index path are
    present, stores the fresh context under identity and returns it. *)
Definition cachedTenantContext (id : jsstring) (forceRefresh : bool) : M Ctx.t :=
  fun w =>
    match cache w !! id, forceRefresh with
    | Some c, false => (Normal c, w)
    | _, _ =>
        let w1 := mkWorld (users w) (cache w) (trace w ++ [EvStoreRead id]) in
        match users w !! id with
        | None => (Throw TenantNotFound, w1)
        | Some d =>
            if present (Doc.resourceId d) && present (Doc.vectorStorePath d)
            then (Normal (contextOf id d),
                  mkWorld (users w) (<[id := contextOf id d]> (cache w)) (trace w1))
            else (Throw ResourceIncomplete, w1)
        end
    end.

(** ** The user controller *)

Section UserController.
Context `{JsRuntime} (env : Env).

(** [SALT_ROUNDS = parseInt(process.env.BCRYPT_SALT_ROUNDS, 10) || 10] *)
Definition SALT_ROUNDS : JsValue :=
  jsOr (JNum (parseInt10 (ofOpt (processEnv env "BCRYPT_SALT_ROUNDS")))) (JNum 10).

Definition optField (k : string) (o : option jsstring) : list (string * JsValue) :=
  match o with Some s => [(k, JStr s)] | None => [] end.

Definition valField (k : string) (v : JsValue) : list (string * JsValue) :=
  match v with JUndefined => [] | _ => [(k, v)] end.

(** [userDoc.toObject({ versionKey: false })]: the paths that are set. *)
Definition toObject (id : jsstring) (d : Doc.t) : list (string * JsValue) :=
  [("_id", JStr id)]
  ++ optField "name" (Doc.name d)
  ++ optField "email" (Doc.email d)
  ++ optField "username" (Doc.username d)
  ++ optField "password" (Doc.password d)
  ++ optField "adminId" (Doc.adminId d)
  ++ optField "resourceId" (Doc.resourceId d)
  ++ optField "databaseUri" (Doc.databaseUri d)
  ++ optField "botEndpoint" (Doc.botEndpoint d)
  ++ optField "schedulerEndpoint" (Doc.schedulerEndpoint d)
  ++ optField "scraperEndpoint" (Doc.scraperEndpoint d)
  ++ optField "vectorStorePath" (Doc.vectorStorePath d)
  ++ optField "role" (Doc.role d)
  ++ [("isActive", JBool (Doc.isActive d))]
  ++ valField "createdAt" (Doc.createdAt d)
  ++ valField "updatedAt" (Doc.updatedAt d).

(** toSafeUser *)
Definition toSafeUser (userDoc : option (jsstring * Doc.t)) (includeVectorStore : bool)
    : JsValue :=
  match userDoc with
  | None => JNull
  | Some (id, d) =>
      let safeUser := deleteKey "password" (toObject id d) in
      let safeUser :=
        if negb includeVectorStore then deleteKey "vectorStorePath" safeUser
        else safeUser in
      JObj (setProp "id" (assoc "_id" safeUser) safeUser)
  end.

(** [currentUserRole === 'admin' && user.adminId && user.adminId.toString() !== currentUserId] *)
Definition notOwnedBy (req : Request) (d : Doc.t) : bool :=
  strEq (callerRole req) (ustr "admin")
  && match Doc.adminId d with
     | Some a => negb (strEq a (callerId req))
     | None => false
     end.

(** [currentUserRole === 'user' && user._id.toString() !== currentUserId] *)
Definition notSelf (req : Request) (id : jsstring) : bool :=
  strEq (callerRole req) (ustr "user") && negb (strEq id (callerId req)).

Definition roleIs (d : Doc.t) (r : string) : bool :=
  bool_decide (Doc.role d = Some (ustr r)).

(** exports.getMe *)
Definition getMe (req : Request) : M HttpResponse :=
  tryCatch
    (user ← findById env (callerId req);
     match user with
     | None => returnWith (json 404 (errorBody "User not found"))
     | Some d => mret (mkResponse (JNum 200) (toSafeUser (Some (callerId req, d)) true))
     end)
    (fun _ => mret (json 500 (errorBody "Server error fetching profile"))).

(** The three assignments [if (name) updates.name = name.trim()], and so on
    for email and username. *)
Definition profileUpdates (name email username : JsValue)
    (updates : list (string * JsValue)) : Completion (list (string * JsValue)) :=
  updates ← (if truthy name
             then s ← callTrim name; Normal (setProp "name" (JStr s) updates)
             else Normal updates);
  updates ← (if truthy email
             then s ← callLowerTrim email; Normal (setProp "email" (JStr s) updates)
             else Normal updates);
  if truthy username
  then s ← callTrim username; Normal (setProp "username" (JStr s) updates)
  else Normal updates.

(** The filter of updateMe's email check. *)
Definition emailQuery (req : Request) (currentUser : Doc.t) (email : jsstring) : Query :=
  if roleIs currentUser "user" && bool_decide (is_Some (Doc.adminId currentUser))
  then mkQuery (Some email) None (Some (Doc.adminId currentUser)) None (Some (callerId req))
  else if roleIs currentUser "admin"
  then mkQuery (Some email) None None (Some (ustr "admin")) (Some (callerId req))
  else mkQuery (Some email) None None None (Some (callerId req)).

(** exports.updateMe. The update set is built, and the password hashed,
    before the try block that holds the database work. *)
Definition updateMe (req : Request) : M HttpResponse :=
  let b := reqBody req in
  let name := assoc "name" b in
  let email := assoc "email" b in
  let username := assoc "username" b in
  let password := assoc "password" b in
  updates ← liftC (profileUpdates name email username []);
  updates ← (if truthy password
             then tryCatch
                    (salt ← call EvGenSalt (bcryptGenSalt env);
                     hash ← call (EvHash password (JStr salt))
                                 (bcryptHash env password (JStr salt));
                     mret (setProp "password" (JStr hash) updates))
                    (fun _ => returnWith (json 500 (errorBody "Error updating password")))
             else mret updates);
  tryCatch
    (currentUser ← findById env (callerId req);
     match currentUser with
     | None => returnWith (json 404 (errorBody "User not found"))
     | Some currentUser =>
         _ ← (if truthy email
              then e ← liftC (callLowerTrim email);
                   existingEmail ← findOne env (emailQuery req currentUser e);
                   returnIf (bool_decide (is_Some existingEmail))
                     (json 400 [("error", JStr (ustr "Email already in use by another user"));
                                ("field", JStr (ustr "email"))])
              else mret tt);
         _ ← (if truthy username
              then u ← liftC (callTrim username);
                   existingUsername ←
                     findOne env (mkQuery None (Some u) None None (Some (callerId req)));
                   returnIf (bool_decide (is_Some existingUsername))
                     (json 400 [("error", JStr (ustr "Username already taken. Please choose a different username."));
                                ("field", JStr (ustr "username"))])
              else mret tt);
         user ← findByIdAndUpdate env (callerId req) updates;
         match user with
         | None => returnWith (json 404 (errorBody "User not found"))
         | Some user =>
             _ ← invalidateUserTenantContext (callerId req);
             let responseUser := deleteKey "password" (toObject (callerId req) user) in
             let responseUser :=
               if negb (roleIs user "admin") then deleteKey "vectorStorePath" responseUser
               else responseUser in
             mret (json 200 [("message", JStr (ustr "Profile updated successfully"));
                             ("user", JObj responseUser)])
         end
     end)
    (fun err => liftC (writeFailure true "Update failed" err)).

(** The response body for a tenant context. *)
Definition contextObject (c : Ctx.t) : JsValue :=
  JObj (optField "userId" (Ctx.userId c)
        ++ optField "resourceId" (Ctx.resourceId c)
        ++ optField "databaseUri" (Ctx.databaseUri c)
        ++ optField "vectorStorePath" (Ctx.vectorStorePath c)
        ++ optField "botEndpoint" (Ctx.botEndpoint c)
        ++ optField "schedulerEndpoint" (Ctx.schedulerEndpoint c)
        ++ optField "scraperEndpoint" (Ctx.scraperEndpoint c)).

(** The fields createUser passes to [new User]. *)
Definition createFields (req : Request) (name email username hashedPassword : jsstring)
    (isActive : bool) : list (string * JsValue) :=
  [("name", JStr name); ("email", JStr email); ("username", JStr username);
   ("password", JStr hashedPassword); ("role", JStr (ustr "user"));
   ("isActive", JBool isActive); ("adminId", JStr (callerId req))].

(** [try { resources = provisionResourcesForUser({ userId, username });
    user.set(resources) } catch { return res.status(500)... }] *)
Definition provisioned (id username : jsstring) (user : Doc.t) : M Doc.t :=
  tryCatch
    (resources ← call (EvProvision id username) (provisionResourcesForUser env id username);
     mret (docSet resources user))
    (fun _ => returnWith (json 500 (errorBody "Failed to provision user resources"))).

(** exports.createUser *)
Definition createUser (req : Request) : M HttpResponse :=
  let b := reqBody req in
  tryCatch
    (_ ← returnIf (negb (strEq (callerRole req) (ustr "admin")))
           (json 403 (errorBody "Only administrators can create users"));
     sanitizedEmail ← liftC (callLowerTrim (assoc "email" b));
     sanitizedUsername ← liftC (callTrim (assoc "username" b));
     sanitizedName ← liftC (callTrim (assoc "name" b));
     let isActive := normalizeBoolean (assoc "isActive" b) (JBool true) in
     existing ← findOneBoth env
       (mkQuery (Some sanitizedEmail) None (Some (Some (callerId req))) None None)
       (mkQuery None (Some sanitizedUsername) None None None);
     _ ← returnIf (bool_decide (is_Some (fst existing)))
           (json 400 [("error", JStr (ustr "Email already in use by another user under your account"));
                      ("field", JStr (ustr "email"))]);
     _ ← returnIf (bool_decide (is_Some (snd existing)))
           (json 400 [("error", JStr (ustr "Username already taken. Please choose a different username."));
                      ("field", JStr (ustr "username"))]);
     hashedPassword ← call (EvHash (assoc "password" b) SALT_ROUNDS)
                           (bcryptHash env (assoc "password" b) SALT_ROUNDS);
     let id := newObjectId env in
     let user := newUser (createFields req sanitizedName sanitizedEmail sanitizedUsername
                            hashedPassword isActive) in
     user ← provisioned id sanitizedUsername user;
     user ← save env id user;
     mret (json 201 [("message", JStr (ustr "User created successfully"));
                     ("user", toSafeUser (Some (id, user)) true)]))
    (fun err => liftC (writeFailure true "Failed to create user" err)).

(** exports.getUserById *)
Definition getUserById (req : Request) : M HttpResponse :=
  let id := paramId req in
  tryCatch
    (user ← findById env id;
     match user with
     | None => returnWith (json 404 (errorBody "User not found"))
     | Some d =>
         _ ← returnIf (notOwnedBy req d)
               (json 403 (errorBody "Access denied: You can only view users you created"));
         _ ← returnIf (notSelf req id)
               (json 403 (errorBody "Access denied: You can only view your own profile"));
         mret (json 200 [("user", toSafeUser (Some (id, d)) true)])
     end)
    (fun _ => mret (json 500 (errorBody "Failed to fetch user"))).

(** exports.getUserResources *)
Definition getUserResources (req : Request) : M HttpResponse :=
  let id := paramId req in
  tryCatch
    (tenantContext ← call (EvGetContext id true) (getUserTenantContext env id true);
     mret (json 200 [("tenant", contextObject tenantContext)]))
    (fun err =>
       mret (mkResponse (jsOr (errProp err "statusCode") (JNum 500))
               (JObj [("error", jsOr (errProp err "message")
                                     (JStr (ustr "Failed to load tenant resources")))]))).

(** The string a value is when [if (v)] holds of a string-or-undefined
    property such as [updates.email]. *)
Definition nonEmptyString (v : JsValue) : option jsstring :=
  match v with JStr (c :: s) => Some (c :: s) | _ => None end.

(** The update set of updateUser before the password is hashed. *)
Definition adminUpdates (b : list (string * JsValue)) : Completion (list (string * JsValue)) :=
  updates ← profileUpdates (assoc "name" b) (assoc "email" b) (assoc "username" b) [];
  match assoc "isActive" b with
  | JUndefined => Normal updates
  | isActive => Normal (setProp "isActive" (JBool (normalizeBoolean isActive (JBool true))) updates)
  end.

(** exports.updateUser *)
Definition updateUser (req : Request) : M HttpResponse :=
  let id := paramId req in
  let b := reqBody req in
  let password := assoc "password" b in
  updates ← liftC (adminUpdates b);
  tryCatch
    (userToUpdate ← findById env id;
     match userToUpdate with
     | None => returnWith (json 404 (errorBody "User not found"))
     | Some userToUpdate =>
         _ ← returnIf (notOwnedBy req userToUpdate)
               (json 403 (errorBody "Access denied: You can only update users you created"));
         _ ← returnIf (notSelf req id)
               (json 403 (errorBody "Access denied: You can only update your own profile"));
         let adminIdForCheck :=
           if strEq (callerRole req) (ustr "admin") then Some (callerId req)
           else Doc.adminId userToUpdate in
         _ ← match nonEmptyString (assoc "email" updates) with
             | Some email =>
                 existingEmail ←
                   findOne env (mkQuery (Some email) None (Some adminIdForCheck) None (Some id));
                 returnIf (bool_decide (is_Some existingEmail))
                   (json 400 [("error", JStr (ustr "Email already in use by another user under this admin"));
                              ("field", JStr (ustr "email"))])
             | None => mret tt
             end;
         _ ← match nonEmptyString (assoc "username" updates) with
             | Some username =>
                 existingUsername ←
                   findOne env (mkQuery None (Some username) None None (Some id));
                 returnIf (bool_decide (is_Some existingUsername))
                   (json 400 [("error", JStr (ustr "Username already taken. Please choose a different username."));
                              ("field", JStr (ustr "username"))])
             | None => mret tt
             end;
         updates ← (if truthy password
                    then hash ← call (EvHash password SALT_ROUNDS)
                                     (bcryptHash env password SALT_ROUNDS);
                         mret (setProp "password" (JStr hash) updates)
                    else mret updates);
         updatedUser ← findByIdAndUpdate env id updates;
         match updatedUser with
         | None => returnWith (json 404 (errorBody "User not found"))
         | Some updatedUser =>
             _ ← invalidateUserTenantContext id;
             mret (json 200 [("message", JStr (ustr "User updated successfully"));
                             ("user", toSafeUser (Some (id, updatedUser)) true)])
         end
     end)
    (fun err => liftC (writeFailure false "Failed to update user" err)).

(** exports.deleteUser. The self-deletion check comes before the try
    block. *)
Definition deleteUser (req : Request) : M HttpResponse :=
  let id := paramId req in
  _ ← returnIf (strEq (callerId req) id)
        (json 400 (errorBody "You cannot delete your own account while signed in"));
  tryCatch
    (user ← findById env id;
     match user with
     | None => returnWith (json 404 (errorBody "User not found"))
     | Some user =>
         _ ← returnIf (notOwnedBy req user)
               (json 403 (errorBody "Access denied: You can only delete users you created"));
         _ ← returnIf (strEq (callerRole req) (ustr "user"))
               (json 403 (errorBody "Access denied: Users cannot delete accounts"));
         _ ← deleteOne env id;
         _ ← invalidateUserTenantContext id;
         mret (json 200 [("message", JStr (ustr "User deleted successfully"))])
     end)
    (fun _ => mret (json 500 (errorBody "Failed to delete user"))).

End UserController.

(** ** The auth controller *)

Section AuthController.
Context `{JsRuntime} (env : Env).


(** The fields registerUser passes to [new User]. *)
Definition registerFields (name email username hashedPassword : jsstring)
    : list (string * JsValue) :=
  [("name", JStr name); ("email", JStr email); ("username", JStr username);
   ("password", JStr hashedPassword); ("role", JStr (ustr "admin"));
   ("isActive", JBool true)].

Definition signOptions : JsValue :=
  JObj [("expiresIn", JStr (orElse (processEnv env "JWT_EXPIRATION") (ustr "1d")));
        ("algorithm", JStr (ustr "HS256"))].

(** The [user] object of the register and login responses. *)
Definition sessionUser (id : jsstring) (user : Doc.t) : list (string * JsValue) :=
  [("id", JStr id);
   ("name", ofOpt (Doc.name user));
   ("username", ofOpt (Doc.username user));
   ("email", ofOpt (Doc.email user));
   ("role", ofOpt (Doc.role user));
   ("isActive", JBool (Doc.isActive user));
   ("resourceId", ofOpt (Doc.resourceId user));
   ("databaseUri", ofOpt (Doc.databaseUri user));
   ("botEndpoint", ofOpt (Doc.botEndpoint user));
   ("schedulerEndpoint", ofOpt (Doc.schedulerEndpoint user));
   ("scraperEndpoint", ofOpt (Doc.scraperEndpoint user))].


Definition tokenPayload (id : jsstring) (user : Doc.t) : list (string * JsValue) :=
  [("userId", JStr id);
   ("username", ofOpt (Doc.username user));
   ("email", ofOpt (Doc.email user));
   ("role", ofOpt (Doc.role user))].

(** exports.registerUser *)
Definition registerUser (req : Request) : M HttpResponse :=
  let b := reqBody req in
  tryCatch
    (sanitizedEmail ← liftC (callLowerTrim (assoc "email" b));
     sanitizedUsername ← liftC (callTrim (assoc "username" b));
     sanitizedName ← liftC (callTrim (assoc "name" b));
     existing ← findOneBoth env
       (mkQuery (Some sanitizedEmail) None None (Some (ustr "admin")) None)
       (mkQuery None (Some sanitizedUsername) None None None);
     _ ← returnIf (bool_decide (is_Some (fst existing)))
           (json 400 [("error", JStr (ustr "Email already in use"));
                      ("field", JStr (ustr "email"))]);
     _ ← returnIf (bool_decide (is_Some (snd existing)))
           (json 400 [("error", JStr (ustr "Username already taken. Please choose a different username."));
                      ("field", JStr (ustr "username"))]);
     let saltRounds :=
       jsOr (JNum (parseIntAuto (ofOpt (processEnv env "BCRYPT_SALT_ROUNDS")))) (JNum 10) in
     hashedPassword ← call (EvHash (assoc "password" b) saltRounds)
                           (bcryptHash env (assoc "password" b) saltRounds);
     let id := newObjectId env in
     let user := newUser (registerFields sanitizedName sanitizedEmail sanitizedUsername
                            hashedPassword) in
     user ← provisioned env id sanitizedUsername user;
     user ← save env id user;
     let payload := JObj (tokenPayload id user) in
     token ← call (EvSign payload)
                  (jwtSign env payload (ofOpt (processEnv env "JWT_SECRET")) signOptions);
     mret (json 201 [("message", JStr (ustr "Admin account registered successfully"));
                     ("token", JStr token);
                     ("user", JObj (sessionUser id user))]))
    (fun err => liftC (writeFailure true "Server error during registration" err)).


End AuthController.

(** ** scripts/resolveDuplicateUsernames.js *)

(** A group of the duplicate-username aggregation: the username the group
    shares (null when the documents have none), and the accounts pushed into
    it, each with its id, its email and its creation time in milliseconds;
    the role, adminId and name pushed with them are only printed. *)
Module Dup.
Record account := mkAccount { id : jsstring; email : JsValue; createdAt : Z }.
Record t := mk { _id : option jsstring; accounts : list account }.
End Dup.

(** An entry of [updates]. *)
Module Rename.
Record t := mk {
  userId : jsstring;
  oldUsername : option jsstring;
  newUsername : jsstring;
  email : JsValue
}.
End Rename.

(** [`${dup._id}`] *)
Definition usernameText (key : option jsstring) : jsstring :=
  match key with Some s => s | None => ustr "null" end.

(** [dup.users.sort((a, b) => new Date(a.createdAt) - new Date(b.createdAt))]:
    the stable ascending order by creation time. *)
Fixpoint insertByDate (u : Dup.account) (l : list Dup.account) : list Dup.account :=
  match l with
  | [] => [u]
  | v :: rest =>
      if (Dup.createdAt v <=? Dup.createdAt u)%Z then v :: insertByDate u rest
      else u :: v :: rest
  end.

Definition sortByDate (l : list Dup.account) : list Dup.account :=
  fold_left (fun sorted u => insertByDate u sorted) l [].

(** The body of [dup.users.forEach((user, index) => ...)] from [index] on:
    every account but the first is given the username [`${dup._id}_${index + 1}`]. *)
Fixpoint renamesFrom (key : option jsstring) (index : nat) (accounts : list Dup.account)
    : list Rename.t :=
  match accounts with
  | [] => []
  | user :: rest =>
      (if (0 <? index)%nat
       then [Rename.mk (Dup.id user) key
                      (usernameText key ++ ustr "_" ++ decimal (N.of_nat (index + 1)))
                      (Dup.email user)]
       else [])
      ++ renamesFrom key (S index) rest
  end.

(** The [updates] resolveDuplicates collects over all groups. *)
Definition planRenames (duplicates : list Dup.t) : list Rename.t :=
  flat_map (fun dup => renamesFrom (Dup._id dup) 0 (sortByDate (Dup.accounts dup))) duplicates.

(** ** Vocabulary of the statements *)

(** The world after further effects. *)
Definition record (w : World) (evs : list Event) : World :=
  mkWorld (users w) (cache w) (trace w ++ evs).

(** The effects of a run: what it added to the trace. *)
Definition effects (w w' : World) (evs : list Event) : Prop :=
  trace w' = trace w ++ evs.

(** A property of the JSON body of a response. *)
Definition bodyProp (r : HttpResponse) (k : string) : JsValue := prop (body r) k.

(** The keys JSON.stringify keeps: those whose value is not undefined. *)
Definition serializedKeys (v : JsValue) : list string :=
  match v with
  | JObj fields =>
      keys (List.filter (fun kv => match snd kv with JUndefined => false | _ => true end) fields)
  | _ => []
  end.

(** A captured output stream: a string, or absent. *)
Definition isStream (v : JsValue) : bool :=
  match v with JStr _ | JNull | JUndefined => true | _ => false end.

(** The request refreshBotCache sends for a context. *)
Definition refreshPost (env : Env) (ctx : Ctx.t) : Event :=
  EvPost (refreshUrl env ctx) (refreshParams ctx) (refreshHeaders env) 5000.

(** The notification of the bot service fails: the request rejects (a
    timeout, a network error, a status outside 2xx), or it resolves with a
    body whose status is not "success". *)
Definition notificationFails (env : Env) (ctx : Ctx.t) : Prop :=
  match axiosPost env (refreshUrl env ctx) (refreshParams ctx) (refreshHeaders env) 5000 with
  | inl _ => True
  | inr data => isSuccessData data = false
  end.

(** An event that dispatches a job. *)
Definition isDispatch (ev : Event) : bool :=
  match ev with EvRunScrape _ | EvRunUpdater _ => true | _ => false end.

(** An event that reads or writes the users collection, or invalidates a
    cached context. *)
Definition touchesStore (ev : Event) : bool :=
  match ev with
  | EvFindById _ | EvFindOne _ | EvFind _ | EvFindByIdAndUpdate _ _
  | EvDeleteOne _ | EvSave _ | EvInvalidate _ | EvStoreRead _ => true
  | _ => false
  end.

(** The runs of a job handler, path by path: [what] is the verb of its
    denial, [prefix] the prefix of its job ids, [mkOptions] its option bag,
    [runJob] the job it awaits and [dispatch] the event of that call. Every
    run ends in a response; the users collection and the cache are left as
    they were. *)
Inductive JobRun `{JsRuntime} (env : Env) (what prefix : string)
    (mkOptions : Ctx.t -> jsstring -> JsValue)
    (runJob : JsValue -> JsError + Job.t) (dispatch : JsValue -> Event)
    (req : Request) (w : World) : Completion HttpResponse -> World -> Prop :=
| run_denied :
    foreignTenant req = true ->
    JobRun env what prefix mkOptions runJob dispatch req w (Return (accessDenied what)) w
| run_no_context e :
    foreignTenant req = false ->
    getUserTenantContext env (targetUserId req) false = inl e ->
    JobRun env what prefix mkOptions runJob dispatch req w (Normal (jobFailure e))
      (record w [EvGetContext (targetUserId req) false])
| run_incomplete ctx e :
    foreignTenant req = false ->
    getUserTenantContext env (targetUserId req) false = inr ctx ->
    ensureTenantResources ctx = Throw e ->
    JobRun env what prefix mkOptions runJob dispatch req w (Normal (jobFailure e))
      (record w [EvGetContext (targetUserId req) false])
| run_job_failed ctx e :
    foreignTenant req = false ->
    getUserTenantContext env (targetUserId req) false = inr ctx ->
    ensureTenantResources ctx = Normal tt ->
    runJob (mkOptions ctx (buildJobId env prefix (Ctx.resourceId ctx))) = inl e ->
    JobRun env what prefix mkOptions runJob dispatch req w (Normal (jobFailure e))
      (record w [EvGetContext (targetUserId req) false;
                 dispatch (mkOptions ctx (buildJobId env prefix (Ctx.resourceId ctx)))])
| run_report_failed ctx job e :
    foreignTenant req = false ->
    getUserTenantContext env (targetUserId req) false = inr ctx ->
    ensureTenantResources ctx = Normal tt ->
    runJob (mkOptions ctx (buildJobId env prefix (Ctx.resourceId ctx))) = inr job ->
    (truncateLog (Job.stdout job) = Throw e \/
     (exists so, truncateLog (Job.stdout job) = Normal so) /\
     truncateLog (Job.stderr job) = Throw e) ->
    JobRun env what prefix mkOptions runJob dispatch req w (Normal (jobFailure e))
      (record w [EvGetContext (targetUserId req) false;
                 dispatch (mkOptions ctx (buildJobId env prefix (Ctx.resourceId ctx)));
                 refreshPost env ctx])
| run_done ctx job res so se w0 :
    foreignTenant req = false ->
    getUserTenantContext env (targetUserId req) false = inr ctx ->
    ensureTenantResources ctx = Normal tt ->
    runJob (mkOptions ctx (buildJobId env prefix (Ctx.resourceId ctx))) = inr job ->
    refreshBotCache env ctx w0 = (Normal res, record w0 [refreshPost env ctx]) ->
    truncateLog (Job.stdout job) = Normal so ->
    truncateLog (Job.stderr job) = Normal se ->
    JobRun env what prefix mkOptions runJob dispatch req w
      (Normal (jobSuccess (buildJobId env prefix (Ctx.resourceId ctx)) ctx
                 (Job.summary job) so se res))
      (record w [EvGetContext (targetUserId req) false;
                 dispatch (mkOptions ctx (buildJobId env prefix (Ctx.resourceId ctx)));
                 refreshPost env ctx]).

(** An event that only looks something up or hashes a password. *)
Definition isLookup (ev : Event) : bool :=
  match ev with
  | EvFindById _ | EvFindOne _ | EvGenSalt | EvHash _ _ => true
  | _ => false
  end.

(** A handler result that is not a response with the given status. *)
Definition notStatus (st : float) (res : HandlerResult) : Prop :=
  forall r, res = Responded r -> status r <> JNum st.

(** The runs of a profile update of the document [target], whose update set
    has keys among [allowed]: the handler ends before it issues the write,
    or the write changes nothing (the driver refuses it, a value does not
    cast, the document is gone), or the write is applied and the cached
    context of [target] is invalidated right after it. *)
Inductive UpdateRun `{JsRuntime} (env : Env) (target : jsstring) (allowed : list string) (w : World)
    : HandlerResult -> World -> Prop :=
| update_rejected res pre :
    Forall (fun ev => isLookup ev = true) pre ->
    notStatus 200 res ->
    UpdateRun env target allowed w res (record w pre)
| update_refused res pre updates :
    Forall (fun ev => isLookup ev = true) pre ->
    keys updates ⊆ allowed ->
    notStatus 200 res ->
    UpdateRun env target allowed w res
      (record w (pre ++ [EvFindByIdAndUpdate target updates]))
| update_applied r pre updates d d' :
    Forall (fun ev => isLookup ev = true) pre ->
    keys updates ⊆ allowed ->
    users w !! target = Some d ->
    applySet updates d = Some d' ->
    status r = JNum 200 ->
    UpdateRun env target allowed w (Responded r)
      (mkWorld (<[target := setTimestamps (Doc.createdAt d') (now env) d']> (users w))
               (delete target (cache w))
               (trace w ++ pre ++ [EvFindByIdAndUpdate target updates; EvInvalidate target])).

(** The runs of an account creation whose new document is built from fields
    of the given [shape]: the handler ends before provisioning; or
    provisioning throws and the handler answers 500 at once; or the save
    changes nothing (the driver refuses it); or the document is saved under
    the fresh id, after which a token may be signed ([post]). *)
Inductive CreateRun `{JsRuntime} (env : Env) (shape : list (string * JsValue) -> Prop)
    (w : World) : HandlerResult -> World -> Prop :=
| create_rejected res pre :
    Forall (fun ev => isLookup ev = true) pre ->
    notStatus 201 res ->
    CreateRun env shape w res (record w pre)
| create_unprovisioned pre username e :
    Forall (fun ev => isLookup ev = true) pre ->
    provisionResourcesForUser env (newObjectId env) username = inl e ->
    CreateRun env shape w
      (Responded (json 500 (errorBody "Failed to provision user resources")))
      (record w (pre ++ [EvProvision (newObjectId env) username]))
| create_refused res pre username resources :
    Forall (fun ev => isLookup ev = true) pre ->
    provisionResourcesForUser env (newObjectId env) username = inr resources ->
    notStatus 201 res ->
    CreateRun env shape w res
      (record w (pre ++ [EvProvision (newObjectId env) username; EvSave (newObjectId env)]))
| create_saved res pre username resources fields post :
    Forall (fun ev => isLookup ev = true) pre ->
    provisionResourcesForUser env (newObjectId env) username = inr resources ->
    shape fields ->
    ((exists r, res = Responded r /\ status r = JNum 201) \/
     (exists payload, post = [EvSign payload]) /\ notStatus 201 res) ->
    (post = [] \/ exists payload, post = [EvSign payload]) ->
    CreateRun env shape w res
      (mkWorld (<[newObjectId env :=
                    setTimestamps (now env) (now env) (docSet resources (newUser fields))]>
                  (users w))
               (cache w)
               (trace w ++ pre ++ [EvProvision (newObjectId env) username;
                                   EvSave (newObjectId env)] ++ post)).

(** The fields of a member created by [req]'s caller, and of a registered
    admin. *)
Definition memberShape (req : Request) (fields : list (string * JsValue)) : Prop :=
  exists name email username hashedPassword isActive,
    fields = createFields req name email username hashedPassword isActive.

Definition adminShape (fields : list (string * JsValue)) : Prop :=
  exists name email username hashedPassword,
    fields = registerFields name email username hashedPassword.

(** The runs of deleteUser on the document [paramId req]: refused at once
    when the caller targets its own account; ended after the lookup; a
    deletion the driver refuses; or the deletion of a document the caller,
    who is not a member, may delete, followed by the invalidation of its
    cached context. *)
Inductive DeleteRun (env : Env) (req : Request) (w : World)
    : HandlerResult -> World -> Prop :=
| delete_self :
    callerId req = paramId req ->
    DeleteRun env req w
      (Responded (json 400 (errorBody "You cannot delete your own account while signed in"))) w
| delete_rejected res :
    callerId req <> paramId req ->
    notStatus 200 res ->
    DeleteRun env req w res (record w [EvFindById (paramId req)])
| delete_refused :
    callerId req <> paramId req ->
    DeleteRun env req w (Responded (json 500 (errorBody "Failed to delete user")))
      (record w [EvFindById (paramId req); EvDeleteOne (paramId req)])
| delete_applied d :
    callerId req <> paramId req ->
    users w !! paramId req = Some d ->
    notOwnedBy req d = false ->
    strEq (callerRole req) (ustr "user") = false ->
    DeleteRun env req w (Responded (json 200 [("message", JStr (ustr "User deleted successfully"))]))
      (mkWorld (delete (paramId req) (users w)) (delete (paramId req) (cache w))
               (trace w ++ [EvFindById (paramId req); EvDeleteOne (paramId req);
                            EvInvalidate (paramId req)])).

(** What an account is bound to: its role, its owner and its resource
    fields. *)
Definition bindings (d : Doc.t) :=
  (Doc.role d, Doc.adminId d, Doc.resourceId d, Doc.databaseUri d,
   Doc.botEndpoint d, Doc.schedulerEndpoint d, Doc.scraperEndpoint d,
   Doc.vectorStorePath d).

(** ** Examples *)

Definition exampleContext : Ctx.t :=
  Ctx.mk (Some (ustr "u1")) (Some (ustr "acme_7f3a")) (Some (ustr "mongodb://db/acme_7f3a"))
         (Some (ustr "/stores/acme_7f3a")) (Some (ustr "http://bot.example")) None None.

(** A context whose index path is missing. *)
Definition incompleteContext : Ctx.t :=
  Ctx.mk (Some (ustr "u1")) (Some (ustr "acme_7f3a")) (Some (ustr "mongodb://db/acme_7f3a"))
         None (Some (ustr "http://bot.example")) None None.

Definition exampleJob : Job.t :=
  Job.mk (JObj [("pagesCrawled", JNum 40)]) (JStr (ustr "crawled 40 pages")) (JStr []).

Definition connectionRefused : JsError :=
  mkError [("name", JStr (ustr "Error")); ("message", JStr (ustr "connect ECONNREFUSED"));
           ("code", JStr (ustr "ECONNREFUSED"))].

Definition exampleResources : list (string * JsValue) :=
  [("resourceId", JStr (ustr "acme_7f3a"));
   ("databaseUri", JStr (ustr "mongodb://db/acme_7f3a"));
   ("botEndpoint", JStr (ustr "http://bot.example"));
   ("schedulerEndpoint", JStr (ustr "http://scheduler.example"));
   ("scraperEndpoint", JStr (ustr "http://scraper.example"));
   ("vectorStorePath", JStr (ustr "/stores/acme_7f3a"))].

(** An environment in which every collaborator succeeds except the ones
    given: the context service hands out [ctx], the bot service answers
    [post], provisioning yields [provision]. *)
Definition exampleEnvWith (ctx : Ctx.t) (post : JsError + JsValue)
    (provision : JsError + list (string * JsValue)) : Env :=
  {| processEnv := fun _ => None;
     randomToken := ustr "0f3c";
     getUserTenantContext := fun _ _ => inr ctx;
     runTenantScrape := fun _ => inr exampleJob;
     runTenantUpdater := fun _ => inr exampleJob;
     axiosPost := fun _ _ _ _ => post;
     dbFault := fun _ _ => None;
     newObjectId := ustr "u9";
     now := JStr (ustr "2024-05-01T10:00:00.000Z");
     bcryptGenSalt := inr (ustr "salt");
     bcryptHash := fun _ _ => inr (ustr "hashed");
     bcryptCompare := fun _ _ => inr true;
     provisionResourcesForUser := fun _ _ => provision;
     ensureUserResources := fun _ d => inr d;
     jwtSign := fun _ _ _ => inr (ustr "token") |}.

Definition exampleEnv : Env :=
  exampleEnvWith exampleContext (inr (JObj [("status", JStr (ustr "success"))]))
    (inr exampleResources).

(** The same with a bot service that refuses the connection. *)
Definition botDownEnv : Env :=
  exampleEnvWith exampleContext (inl connectionRefused) (inr exampleResources).

(** The same with a tenant that was never fully provisioned. *)
Definition unprovisionedEnv : Env :=
  exampleEnvWith incompleteContext (inr (JObj [("status", JStr (ustr "success"))]))
    (inr exampleResources).

(** The same with a provisioning service that throws. *)
Definition provisioningDownEnv : Env :=
  exampleEnvWith exampleContext (inr (JObj [("status", JStr (ustr "success"))]))
    (inl (mkError [("name", JStr (ustr "Error"));
                   ("message", JStr (ustr "Unable to derive resource identifier"))])).

(** The same with a bot service that also reports a document count. *)
Definition countingBotEnv : Env :=
  exampleEnvWith exampleContext
    (inr (JObj [("status", JStr (ustr "success")); ("message", JStr (ustr "marked"));
                ("documentCount", JNum 12)]))
    (inr exampleResources).

(** The admin u1 asks for an update with an override that is blank, and with
    one that is padded. *)
Definition blankOverrideRequest : Request :=
  mkRequest [("startUrl", JStr (ustr "https://acme.example/docs"));
             ("mongoUri", JStr (ustr "   "))]
            None (ustr "u1") (ustr "admin") [].

Definition paddedOverrideRequest : Request :=
  mkRequest [("startUrl", JStr (ustr "https://acme.example/docs"));
             ("mongoUri", JStr (ustr " mongodb://other/db "))]
            None (ustr "u1") (ustr "admin") [].

(** A job that wrote 10000 code units to stdout and nothing to stderr, and
    the example environment with it. *)
Definition chattyJob : Job.t :=
  Job.mk (JObj [("pagesCrawled", JNum 40)]) (JStr (repeat 0x61 (N.to_nat 10000))) JNull.

Definition chattyJobEnv : Env :=
  {| processEnv := processEnv exampleEnv;
     randomToken := randomToken exampleEnv;
     getUserTenantContext := getUserTenantContext exampleEnv;
     runTenantScrape := fun _ => inr chattyJob;
     runTenantUpdater := fun _ => inr chattyJob;
     axiosPost := axiosPost exampleEnv;
     dbFault := dbFault exampleEnv;
     newObjectId := newObjectId exampleEnv;
     now := now exampleEnv;
     bcryptGenSalt := bcryptGenSalt exampleEnv;
     bcryptHash := bcryptHash exampleEnv;
     bcryptCompare := bcryptCompare exampleEnv;
     provisionResourcesForUser := provisionResourcesForUser exampleEnv;
     ensureUserResources := ensureUserResources exampleEnv;
     jwtSign := jwtSign exampleEnv |}.

(** An admin, a member the admin owns, and the collection that holds them. *)
Definition adminDoc : Doc.t :=
  Doc.mk (Some (ustr "Ada")) (Some (ustr "ada@acme.example")) (Some (ustr "ada"))
         (Some (ustr "hashed")) None (Some (ustr "acme_7f3a"))
         (Some (ustr "mongodb://db/acme_7f3a")) (Some (ustr "http://bot.example"))
         (Some (ustr "http://scheduler.example")) (Some (ustr "http://scraper.example"))
         (Some (ustr "/stores/acme_7f3a")) (Some (ustr "admin")) true
         (JStr (ustr "2024-01-01T00:00:00.000Z")) (JStr (ustr "2024-01-01T00:00:00.000Z")).

Definition memberDoc : Doc.t :=
  Doc.mk (Some (ustr "Bob")) (Some (ustr "bob@acme.example")) (Some (ustr "bob"))
         (Some (ustr "hashed")) (Some (ustr "u1")) (Some (ustr "bob_11aa"))
         (Some (ustr "mongodb://db/bob_11aa")) (Some (ustr "http://bot.example"))
         (Some (ustr "http://scheduler.example")) (Some (ustr "http://scraper.example"))
         (Some (ustr "/stores/bob_11aa")) (Some (ustr "user")) true
         (JStr (ustr "2024-02-01T00:00:00.000Z")) (JStr (ustr "2024-02-01T00:00:00.000Z")).

Definition exampleWorld : World :=
  mkWorld (<[ustr "u2" := memberDoc]> (<[ustr "u1" := adminDoc]> ∅))
          (<[ustr "u2" := contextOf (ustr "u2") memberDoc]> ∅) [].

(** The admin u1 asks for a scrape of its own tenant. *)
Definition scrapeRequest : Request :=
  mkRequest [("startUrl", JStr (ustr "https://acme.example/docs"))]
            None (ustr "u1") (ustr "admin") [].

(** The member u2 changes its own email; the admin u1 creates a member; the
    admin u1 asks to delete its own account. *)
Definition emailChangeRequest : Request :=
  mkRequest [("email", JStr (ustr " Bob@Acme.example "))]
            None (ustr "u2") (ustr "user") (ustr "u2").

Definition createRequest : Request :=
  mkRequest [("name", JStr (ustr "Cy")); ("email", JStr (ustr "cy@acme.example"));
             ("username", JStr (ustr "cy")); ("password", JStr (ustr "secret1"))]
            None (ustr "u1") (ustr "admin") [].

(** The admin u1 renames the member u2, and deletes it. *)
Definition renameRequest : Request :=
  mkRequest [("name", JStr (ustr " Robert "))] None (ustr "u1") (ustr "admin") (ustr "u2").

Definition deleteRequest : Request :=
  mkRequest [] None (ustr "u1") (ustr "admin") (ustr "u2").

Definition selfDeleteRequest : Request :=
  mkRequest [] None (ustr "u1") (ustr "admin") (ustr "u1").

(** The member u2 asks for a scrape of the tenant u1. *)
Definition foreignRequest : Request :=
  mkRequest [("startUrl", JStr (ustr "https://acme.example/docs"))]
            (Some (ustr "u1")) (ustr "u2") (ustr "user") [].

(** A crawl that fails with a status of its own, and the example environment
    with it. *)
Definition crawlFailed : JsError :=
  mkError [("name", JStr (ustr "Error")); ("message", JStr (ustr "crawler exited with code 1"));
           ("statusCode", JNum 502)].

Definition failingJobEnv : Env :=
  {| processEnv := processEnv exampleEnv;
     randomToken := randomToken exampleEnv;
     getUserTenantContext := getUserTenantContext exampleEnv;
     runTenantScrape := fun _ => inl crawlFailed;
     runTenantUpdater := fun _ => inl crawlFailed;
     axiosPost := axiosPost exampleEnv;
     dbFault := dbFault exampleEnv;
     newObjectId := newObjectId exampleEnv;
     now := now exampleEnv;
     bcryptGenSalt := bcryptGenSalt exampleEnv;
     bcryptHash := bcryptHash exampleEnv;
     bcryptCompare := bcryptCompare exampleEnv;
     provisionResourcesForUser := provisionResourcesForUser exampleEnv;
     ensureUserResources := ensureUserResources exampleEnv;
     jwtSign := jwtSign exampleEnv |}.

(** The admin u1 asks for the member u2; a member signs in on the user
    page; a new admin registers. *)
Definition memberRequest : Request :=
  mkRequest [] None (ustr "u1") (ustr "admin") (ustr "u2").


Definition registerRequest : Request :=
  mkRequest [("name", JStr (ustr "Dee")); ("email", JStr (ustr " Dee@Corp.example "));
             ("username", JStr (ustr "dee")); ("password", JStr (ustr "secret2"))]
            None [] [] [].

(** The member u2 asks to create an account. *)
Definition memberCreateRequest : Request :=
  mkRequest [("name", JStr (ustr "Cy")); ("email", JStr (ustr "cy@acme.example"));
             ("username", JStr (ustr "cy")); ("password", JStr (ustr "secret1"))]
            None (ustr "u2") (ustr "user") [].

(** The admin u1 asks to create an account under the username the member u2
    has. *)
Definition takenUsernameRequest : Request :=
  mkRequest [("name", JStr (ustr "Bobby")); ("email", JStr (ustr "bobby@acme.example"));
             ("username", JStr (ustr " bob ")); ("password", JStr (ustr "secret3"))]
            None (ustr "u1") (ustr "admin") [].

(** Three accounts that share the username ann, listed out of order, and two
    that share ann_2. *)
Definition annGroup : Dup.t :=
  Dup.mk (Some (ustr "ann"))
         [Dup.mkAccount (ustr "a3") (JStr (ustr "ann@c.example")) 300;
          Dup.mkAccount (ustr "a1") (JStr (ustr "ann@a.example")) 100;
          Dup.mkAccount (ustr "a2") (JStr (ustr "ann@b.example")) 200].

Definition ann2Group : Dup.t :=
  Dup.mk (Some (ustr "ann_2"))
         [Dup.mkAccount (ustr "b1") (JStr (ustr "ann2@a.example")) 150;
          Dup.mkAccount (ustr "b2") (JStr (ustr "ann2@b.example")) 250].

(** * Properties *)

(** ** Output truncation and flag parsing *)

Section HelperFacts.
Context `{JsRuntime}.

Lemma jslength_slice0 (n : N) (s : jsstring) :
  n <= jslength s -> jslength (slice0 n s) = n.
Proof.
  unfold jslength, slice0. intros Hn.
  rewrite length_take. lia.
Qed.

Lemma slice0_prefix (n : N) (s : jsstring) :
  s = slice0 n s ++ drop (N.to_nat n) s.
Proof. unfold slice0. now rewrite take_drop. Qed.

Lemma truncateLog_short (s : jsstring) :
  jslength s <= maxLength -> truncateLog (JStr s) = Normal (JStr s).
Proof.
  intros Hs. unfold truncateLog.
  destruct s as [|c s]; [reflexivity|]. cbn [truthy negb].
  destruct (N.leb_spec (jslength (c :: s)) maxLength); [reflexivity | lia].
Qed.

Lemma truncateLog_long (s : jsstring) :
  maxLength < jslength s ->
  truncateLog (JStr s) =
    Normal (JStr (slice0 maxLength s ++ [0xA] ++ ustr "... [truncated "
                  ++ decimal (jslength s - maxLength) ++ ustr " chars]")).
Proof.
  intros Hs. unfold truncateLog.
  destruct s as [|c s]; [cbv in Hs; discriminate|]. cbn [truthy negb].
  destruct (N.leb_spec (jslength (c :: s)) maxLength); [lia | reflexivity].
Qed.

Example decimal_8 : decimal 8 = ustr "8".
Proof. reflexivity. Qed.

Example decimal_1808 : decimal 1808 = ustr "1808".
Proof. reflexivity. Qed.

(** What truncateLog makes of a stream: one of at most 8192 code units, a
    null, an undefined or an empty one comes back unchanged; a longer one
    comes back as its first 8192 code units followed, on a new line, by the
    marker [... [truncated N chars]] where N is the length of the stream
    minus 8192. *)
Lemma truncateLog_cases (s : jsstring) :
  truncateLog JNull = Normal JNull /\
  truncateLog JUndefined = Normal JUndefined /\
  truncateLog (JStr []) = Normal (JStr []) /\
  (jslength s <= 8192 -> truncateLog (JStr s) = Normal (JStr s)) /\
  (8192 < jslength s ->
     jslength (slice0 8192 s) = 8192 /\
     s = slice0 8192 s ++ drop (N.to_nat 8192) s /\
     truncateLog (JStr s) =
       Normal (JStr (slice0 8192 s ++ [0xA] ++ ustr "... [truncated "
                     ++ decimal (jslength s - 8192) ++ ustr " chars]"))).
Proof.
  repeat split; try reflexivity.
  - apply truncateLog_short.
  - apply jslength_slice0. lia.
  - apply slice0_prefix.
  - now apply truncateLog_long.
Qed.

Lemma positive_negative_disjoint (s : jsstring) :
  s ∈ positiveForms -> s ∈ negativeForms -> False.
Proof.
  unfold positiveForms, negativeForms. intros Hp Hn.
  repeat (apply elem_of_cons in Hp as [-> | Hp]);
    try (apply elem_of_nil in Hp; contradiction);
    repeat (apply elem_of_cons in Hn as [Hn | Hn]; [vm_compute in Hn; discriminate|]);
    apply elem_of_nil in Hn; contradiction.
Qed.

(** C7: the parsed flag is true exactly on boolean true and on strings whose
    trimmed, lower-cased form is "true", "1", "yes" or "on"; false exactly on
    boolean false and on strings whose trimmed, lower-cased form is "false",
    "0", "no" or "off"; and undefined on every other value. *)
Theorem toBooleanOrUndefined_characterised (v : JsValue) :
  (toBooleanOrUndefined v = JBool true <->
     v = JBool true \/
     exists s, v = JStr s /\
       toLowerCase (trim s) ∈ [ustr "true"; ustr "1"; ustr "yes"; ustr "on"]) /\
  (toBooleanOrUndefined v = JBool false <->
     v = JBool false \/
     exists s, v = JStr s /\
       toLowerCase (trim s) ∈ [ustr "false"; ustr "0"; ustr "no"; ustr "off"]) /\
  (toBooleanOrUndefined v = JUndefined <->
     (forall b, v <> JBool b) /\
     (forall s, v = JStr s ->
        (toLowerCase (trim s) ∉ [ustr "true"; ustr "1"; ustr "yes"; ustr "on"]) /\
        (toLowerCase (trim s) ∉ [ustr "false"; ustr "0"; ustr "no"; ustr "off"]))).
Proof.
  fold positiveForms negativeForms.
  destruct v as [| |b|x|s|fields]; cbn [toBooleanOrUndefined].
  1,2,4,6: naive_solver.
  - destruct b; naive_solver.
  - pose proof (positive_negative_disjoint (toLowerCase (trim s))) as Hdisj.
    unfold includes.
    destruct (decide (toLowerCase (trim s) ∈ positiveForms)) as [Hp|Hp];
      [rewrite (bool_decide_eq_true_2 _ Hp) | rewrite (bool_decide_eq_false_2 _ Hp)];
      [|destruct (decide (toLowerCase (trim s) ∈ negativeForms)) as [Hn|Hn];
        [rewrite (bool_decide_eq_true_2 _ Hn) | rewrite (bool_decide_eq_false_2 _ Hn)]];
      naive_solver.
Qed.

End HelperFacts.

Example truncateLog_10000 :
  @truncateLog exampleRuntime (JStr (repeat 0x61 (N.to_nat 10000))) =
    Normal (JStr (repeat 0x61 (N.to_nat 8192) ++ [0xA] ++ ustr "... [truncated 1808 chars]")).
Proof. vm_compute. reflexivity. Qed.

Example toBooleanOrUndefined_yes :
  @toBooleanOrUndefined exampleRuntime (JStr (ustr "  YES ")) = JBool true.
Proof. vm_compute. reflexivity. Qed.

Example toBooleanOrUndefined_off :
  @toBooleanOrUndefined exampleRuntime (JStr (ustr "Off")) = JBool false.
Proof. vm_compute. reflexivity. Qed.

Example toBooleanOrUndefined_number :
  @toBooleanOrUndefined exampleRuntime (JNum 1) = JUndefined.
Proof. reflexivity. Qed.

Example toBooleanOrUndefined_maybe :
  @toBooleanOrUndefined exampleRuntime (JStr (ustr "maybe")) = JUndefined.
Proof. vm_compute. reflexivity. Qed.

(** ** Job dispatch and the stale-index notification *)

Ltac mrun :=
  cbv [mbind mret M_bind M_ret Completion_bind Completion_ret
       call emit throw returnWith tryCatch liftC returnIf runHandler dbOp record] in *.

Ltac crun :=
  mrun;
  cbv [findById findOne findOneBoth findByIdAndUpdate deleteOne save
       invalidateUserTenantContext provisioned withUsers] in *;
  mrun.

Ltac split_last l :=
  lazymatch l with
  | [?x] => constr:((@nil Event, x))
  | ?a :: ?rest =>
      let p := split_last rest in
      lazymatch p with (?pre, ?x) => constr:((a :: pre, x)) end
  end.

Ltac split_last2 l :=
  lazymatch l with
  | [?x; ?y] => constr:((@nil Event, x, y))
  | ?a :: ?rest =>
      let p := split_last2 rest in
      lazymatch p with (?pre, ?x, ?y) => constr:((a :: pre, x, y)) end
  end.

Ltac tidy_world :=
  unfold record; cbn [users cache trace];
  repeat rewrite <- app_assoc; cbn [app].

Ltac lookups := repeat (constructor; [reflexivity|]); constructor.

Section ScrapeFacts.
Context `{JsRuntime} (env : Env).

Lemma record_record (w : World) (a b : list Event) :
  record (record w a) b = record w (a ++ b).
Proof. unfold record. cbn. now rewrite <- app_assoc. Qed.

Lemma truncateLog_stream (v : JsValue) :
  isStream v = true -> exists v', truncateLog v = Normal v'.
Proof.
  destruct v as [| |b|x|s|fields]; try discriminate; intros _;
    try (eexists; reflexivity).
  destruct (N.le_gt_cases (jslength s) maxLength) as [Hs|Hs].
  - eexists. now apply truncateLog_short.
  - eexists. apply truncateLog_long. lia.
Qed.

(** refreshBotCache always resolves, after one request, to an object with a
    boolean success flag and no documentCount. *)
Lemma refreshBotCache_resolves (ctx : Ctx.t) (w : World) :
  exists res,
    refreshBotCache env ctx w = (Normal res, record w [refreshPost env ctx]) /\
    assoc "documentCount" res = JUndefined /\
    (notificationFails env ctx ->
       exists err, res = [("success", JBool false); ("error", err)]) /\
    (~ notificationFails env ctx -> assoc "success" res = JBool true).
Proof.
  unfold refreshBotCache, notificationFails, refreshPost. mrun.
  destruct (axiosPost _ _ _ _ _) as [e|data].
  - eexists. split; [reflexivity|]. split; [reflexivity|]. split; [eauto|].
    intros Hn. now destruct Hn.
  - destruct (isSuccessData data); eexists; (split; [reflexivity|]);
      (split; [reflexivity|]); (split; [intros Hn|intros Hn]);
      try discriminate; try reflexivity; eauto.
    now destruct Hn.
Qed.

(** The run of startScrape when the tenant is complete and the job succeeds. *)
Lemma startScrape_success (req : Request) (ctx : Ctx.t) (job : Job.t) (so se : JsValue) (w : World) :
  foreignTenant req = false ->
  getUserTenantContext env (targetUserId req) false = inr ctx ->
  ensureTenantResources ctx = Normal tt ->
  let jobId := buildJobId env "scrape" (Ctx.resourceId ctx) in
  let options := scrapeOptions env req ctx jobId in
  runTenantScrape env options = inr job ->
  truncateLog (Job.stdout job) = Normal so ->
  truncateLog (Job.stderr job) = Normal se ->
  exists res,
    refreshBotCache env ctx (record w [EvGetContext (targetUserId req) false; EvRunScrape options])
      = (Normal res, record w [EvGetContext (targetUserId req) false; EvRunScrape options;
                               refreshPost env ctx]) /\
    startScrape env req w =
      (Normal (jobSuccess jobId ctx (Job.summary job) so se res),
       record w [EvGetContext (targetUserId req) false; EvRunScrape options; refreshPost env ctx]).
Proof.
  intros Hf Hc He jobId options Hj Hso Hse.
  destruct (refreshBotCache_resolves ctx
              (record w [EvGetContext (targetUserId req) false; EvRunScrape options]))
    as (res & Hr & _).
  rewrite record_record in Hr. cbn [app] in Hr.
  exists res. split; [exact Hr|]. subst jobId options.
  unfold startScrape. mrun.
  rewrite Hf, Hc, He. cbn [users cache trace]. rewrite Hj. cbn [users cache trace].
  rewrite <- app_assoc. cbn [app].
  mrun. rewrite Hr, Hso, Hse. reflexivity.
Qed.

Lemma runUpdater_success (req : Request) (ctx : Ctx.t) (job : Job.t) (so se : JsValue) (w : World) :
  foreignTenant req = false ->
  getUserTenantContext env (targetUserId req) false = inr ctx ->
  ensureTenantResources ctx = Normal tt ->
  let jobId := buildJobId env "update" (Ctx.resourceId ctx) in
  let options := updaterOptions env req ctx jobId in
  runTenantUpdater env options = inr job ->
  truncateLog (Job.stdout job) = Normal so ->
  truncateLog (Job.stderr job) = Normal se ->
  exists res,
    refreshBotCache env ctx (record w [EvGetContext (targetUserId req) false; EvRunUpdater options])
      = (Normal res, record w [EvGetContext (targetUserId req) false; EvRunUpdater options;
                               refreshPost env ctx]) /\
    runUpdater env req w =
      (Normal (jobSuccess jobId ctx (Job.summary job) so se res),
       record w [EvGetContext (targetUserId req) false; EvRunUpdater options; refreshPost env ctx]).
Proof.
  intros Hf Hc He jobId options Hj Hso Hse.
  destruct (refreshBotCache_resolves ctx
              (record w [EvGetContext (targetUserId req) false; EvRunUpdater options]))
    as (res & Hr & _).
  rewrite record_record in Hr. cbn [app] in Hr.
  exists res. split; [exact Hr|]. subst jobId options.
  unfold runUpdater. mrun.
  rewrite Hf, Hc, He. cbn [users cache trace]. rewrite Hj. cbn [users cache trace].
  rewrite <- app_assoc. cbn [app].
  mrun. rewrite Hr, Hso, Hse. reflexivity.
Qed.

End ScrapeFacts.
Section ScrapeRuns.
Context `{JsRuntime} (env : Env).

Lemma ensureTenantResources_no_return (ctx : Ctx.t) (r : HttpResponse) :
  ensureTenantResources ctx <> Return r.
Proof. unfold ensureTenantResources. case_match; discriminate. Qed.

Lemma truncateLog_no_return (v : JsValue) (r : HttpResponse) :
  truncateLog v <> Return r.
Proof. unfold truncateLog. repeat case_match; discriminate. Qed.

Local Ltac tidy :=
  simplify_eq; unfold record; cbn [users cache trace];
  repeat rewrite <- app_assoc; cbn [app].

Local Ltac job_run :=
  mrun; intros Hrun;
  destruct (foreignTenant _) eqn:Hf;
    [simplify_eq; apply run_denied; assumption|];
  destruct (getUserTenantContext env _ false) as [e|ctx] eqn:Hc;
    [simplify_eq; apply run_no_context; assumption|];
  match type of Hrun with context [ensureTenantResources ?c] =>
    destruct (ensureTenantResources c) as [[]|e|r0] eqn:He;
      [|simplify_eq; eapply run_incomplete; eauto
       |now apply ensureTenantResources_no_return in He];
    cbn [users cache trace] in Hrun;
    match type of Hrun with context [match ?j with inl _ => _ | inr _ => _ end] =>
      destruct j as [e|job] eqn:Hj
    end;
      [tidy; eapply run_job_failed; eauto|];
    match type of Hrun with context [refreshBotCache env c ?w0] =>
      destruct (refreshBotCache_resolves env c w0) as (res & Hr & _);
      rewrite Hr in Hrun
    end
  end;
  cbn [users cache trace record] in Hrun;
  repeat rewrite <- app_assoc in Hrun; cbn [app] in Hrun;
  match type of Hrun with context [truncateLog (Job.stdout ?j)] =>
    destruct (truncateLog (Job.stdout j)) as [so|e|r0] eqn:Hso;
      [|tidy; eapply run_report_failed; eauto
       |now apply truncateLog_no_return in Hso];
    destruct (truncateLog (Job.stderr j)) as [se|e|r0] eqn:Hse;
      [|tidy; eapply run_report_failed; eauto
       |now apply truncateLog_no_return in Hse]
  end;
  tidy; eapply run_done; eauto.

Lemma startScrape_run (req : Request) (w w' : World) (out : Completion HttpResponse) :
  startScrape env req w = (out, w') ->
  JobRun env "scrape" "scrape" (scrapeOptions env req) (runTenantScrape env) EvRunScrape
         req w out w'.
Proof. unfold startScrape. job_run. Qed.

Lemma runUpdater_run (req : Request) (w w' : World) (out : Completion HttpResponse) :
  runUpdater env req w = (out, w') ->
  JobRun env "update" "update" (updaterOptions env req) (runTenantUpdater env) EvRunUpdater
         req w out w'.
Proof. unfold runUpdater. job_run. Qed.

End ScrapeRuns.
Section ScrapeClaims.
Context `{JsRuntime} (env : Env).

Lemma jobSuccess_props (jobId : jsstring) (ctx : Ctx.t) (summary so se : JsValue)
    (res : list (string * JsValue)) :
  let r := jobSuccess jobId ctx summary so se res in
  status r = JNum 200 /\
  bodyProp r "success" = JBool true /\
  bodyProp r "cacheRefreshed" = assoc "success" res /\
  bodyProp r "documentCount" = assoc "documentCount" res.
Proof. repeat split. Qed.

Lemma jobFailure_not_success (e : JsError) : bodyProp (jobFailure e) "success" = JBool false.
Proof. reflexivity. Qed.

Lemma serializedKeys_defined (k : string) (fields : list (string * JsValue)) :
  k ∈ serializedKeys (JObj fields) -> exists v, (k, v) ∈ fields /\ v <> JUndefined.
Proof.
  unfold serializedKeys, keys. intros Hk.
  apply list_elem_of_fmap in Hk as ([k' v] & -> & Hin).
  apply list_elem_of_In, filter_In in Hin as [Hin Hv].
  exists v. split; [now apply list_elem_of_In|].
  intros ->. discriminate.
Qed.

(** C1: when the notification of the bot service fails in any way, the
    signaler catches the failure and resolves to [{success: false, error}];
    a dispatch whose job succeeded still answers 200 with [success: true]
    and [cacheRefreshed: false], for scrape and for update jobs alike. *)
Theorem notification_failure_isolated (req : Request) (ctx : Ctx.t) (job : Job.t) (w : World) :
  notificationFails env ctx ->
  (exists err,
     refreshBotCache env ctx w =
       (Normal [("success", JBool false); ("error", err)], record w [refreshPost env ctx])) /\
  (foreignTenant req = false ->
   getUserTenantContext env (targetUserId req) false = inr ctx ->
   ensureTenantResources ctx = Normal tt ->
   isStream (Job.stdout job) = true ->
   isStream (Job.stderr job) = true ->
   (runTenantScrape env
      (scrapeOptions env req ctx (buildJobId env "scrape" (Ctx.resourceId ctx))) = inr job ->
    exists r w',
      runHandler (startScrape env req) w = (Responded r, w') /\
      status r = JNum 200 /\
      bodyProp r "success" = JBool true /\
      bodyProp r "cacheRefreshed" = JBool false) /\
   (runTenantUpdater env
      (updaterOptions env req ctx (buildJobId env "update" (Ctx.resourceId ctx))) = inr job ->
    exists r w',
      runHandler (runUpdater env req) w = (Responded r, w') /\
      status r = JNum 200 /\
      bodyProp r "success" = JBool true /\
      bodyProp r "cacheRefreshed" = JBool false)).
Proof.
  intros Hfail. split.
  - destruct (refreshBotCache_resolves env ctx w) as (res & Hr & _ & Hres & _).
    destruct (Hres Hfail) as (err & ->). now exists err.
  - intros Hf Hc He Hso Hse.
    apply truncateLog_stream in Hso as (so & Hso).
    apply truncateLog_stream in Hse as (se & Hse).
    split; intros Hj.
    + destruct (startScrape_success env req ctx job so se w Hf Hc He Hj Hso Hse)
        as (res & Hr & Hrun).
      destruct (refreshBotCache_resolves env ctx
                  (record w [EvGetContext (targetUserId req) false;
                             EvRunScrape (scrapeOptions env req ctx
                               (buildJobId env "scrape" (Ctx.resourceId ctx)))]))
        as (res' & Hr' & _ & Hres & _).
      destruct (Hres Hfail) as (err & ->). rewrite Hr in Hr'. simplify_eq.
      unfold runHandler. rewrite Hrun. eexists _, _. repeat split.
    + destruct (runUpdater_success env req ctx job so se w Hf Hc He Hj Hso Hse)
        as (res & Hr & Hrun).
      destruct (refreshBotCache_resolves env ctx
                  (record w [EvGetContext (targetUserId req) false;
                             EvRunUpdater (updaterOptions env req ctx
                               (buildJobId env "update" (Ctx.resourceId ctx)))]))
        as (res' & Hr' & _ & Hres & _).
      destruct (Hres Hfail) as (err & ->). rewrite Hr in Hr'. simplify_eq.
      unfold runHandler. rewrite Hrun. eexists _, _. repeat split.
Qed.

(** C3: when the resolved context lacks resourceId or the index path, the
    guard throws an error carrying statusCode 503, and startScrape and
    runUpdater answer 503 with [success: false] after the context lookup
    alone: no job is dispatched. When both fields are non-empty the guard
    passes. *)
Theorem incomplete_tenant_never_dispatched (req : Request) (ctx : Ctx.t) (w : World) :
  foreignTenant req = false ->
  getUserTenantContext env (targetUserId req) false = inr ctx ->
  (present (Ctx.resourceId ctx) = false \/ present (Ctx.vectorStorePath ctx) = false ->
     (exists err,
        ensureTenantResources ctx = Throw err /\ errProp err "statusCode" = JNum 503) /\
     (exists r,
        runHandler (startScrape env req) w =
          (Responded r, record w [EvGetContext (targetUserId req) false]) /\
        status r = JNum 503 /\ bodyProp r "success" = JBool false) /\
     (exists r,
        runHandler (runUpdater env req) w =
          (Responded r, record w [EvGetContext (targetUserId req) false]) /\
        status r = JNum 503 /\ bodyProp r "success" = JBool false)) /\
  (present (Ctx.resourceId ctx) = true -> present (Ctx.vectorStorePath ctx) = true ->
     ensureTenantResources ctx = Normal tt).
Proof.
  intros Hf Hc. split.
  - intros Hmissing.
    assert (He : ensureTenantResources ctx = Throw (mkError
         [("name", JStr (ustr "Error"));
          ("message", JStr (ustr "Tenant resources are incomplete. Re-provision before running scrape."));
          ("statusCode", JNum 503)])).
    { unfold ensureTenantResources.
      destruct Hmissing as [-> | ->]; [now rewrite orb_true_r | reflexivity]. }
    split; [eexists; split; [exact He | reflexivity]|].
    split.
    + unfold startScrape. mrun. rewrite Hf, Hc, He.
      eexists. split; [reflexivity|]. split; reflexivity.
    + unfold runUpdater. mrun. rewrite Hf, Hc, He.
      eexists. split; [reflexivity|]. split; reflexivity.
  - intros Hr Hv. unfold ensureTenantResources. now rewrite Hr, Hv.
Qed.

Lemma in_effects (w : World) (evs evs' : list Event) :
  trace (record w evs) = trace w ++ evs' -> evs' = evs.
Proof. cbn. intros Heq. now apply app_inv_head in Heq. Qed.

(** C9: a successful job response of startScrape or runUpdater has an
    undefined documentCount, which JSON serialization leaves out; whatever
    the bot service replies, refreshBotCache resolves to an object without
    that property. *)
Theorem documentCount_always_undefined (req : Request) (ctx : Ctx.t)
    (w w' w0 w1 : World) (r : HttpResponse) (res : list (string * JsValue)) :
  (runHandler (startScrape env req) w = (Responded r, w') \/
   runHandler (runUpdater env req) w = (Responded r, w') ->
   bodyProp r "success" = JBool true ->
   bodyProp r "documentCount" = JUndefined /\
   "documentCount" ∉ serializedKeys (body r)) /\
  (refreshBotCache env ctx w0 = (Normal res, w1) ->
   assoc "documentCount" res = JUndefined).
Proof.
  assert (Hrefresh : forall c wa wb rs,
            refreshBotCache env c wa = (Normal rs, wb) -> assoc "documentCount" rs = JUndefined).
  { intros c wa wb rs Hrs.
    destruct (refreshBotCache_resolves env c wa) as (rs' & Hr' & Hd & _).
    rewrite Hrs in Hr'. now simplify_eq. }
  split; [|apply Hrefresh].
  assert (Hjob : forall what prefix mk run dispatch out,
            JobRun env what prefix mk run dispatch req w out w' ->
            (out = Normal r \/ out = Return r) ->
            bodyProp r "success" = JBool true ->
            bodyProp r "documentCount" = JUndefined /\
            "documentCount" ∉ serializedKeys (body r)).
  { intros what prefix mk run dispatch out Hrun Hout Hok.
    destruct Hrun; destruct Hout as [Hout|Hout]; simplify_eq; try discriminate.
    match goal with Hr : refreshBotCache _ _ _ = _ |- _ => apply Hrefresh in Hr as Hd end.
    split; [exact Hd|].
    intros Hin. apply serializedKeys_defined in Hin as (v & Hin & Hv).
    cbn in Hin. rewrite Hd in Hin.
    repeat (apply elem_of_cons in Hin as [Hin|Hin]; [simplify_eq|]).
    now apply elem_of_nil in Hin. }
  intros [Hrun|Hrun] Hok; unfold runHandler in Hrun.
  - destruct (startScrape env req w) as [out w2] eqn:Hs.
    apply startScrape_run in Hs.
    destruct out; simplify_eq; eapply Hjob; eauto.
  - destruct (runUpdater env req w) as [out w2] eqn:Hs.
    apply runUpdater_run in Hs.
    destruct out; simplify_eq; eapply Hjob; eauto.
Qed.

End ScrapeClaims.
Section UpdaterOverride.
Context `{JsRuntime} (env : Env).

Lemma assoc_setProp_other (k k' : string) (v : JsValue) (fields : list (string * JsValue)) :
  k <> k' -> assoc k (setProp k' v fields) = assoc k fields.
Proof.
  intros Hk. induction fields as [|[k0 v0] rest IH]; cbn.
  - destruct (String.eqb_spec k k'); [contradiction | reflexivity].
  - destruct (String.eqb_spec k' k0) as [->|Hk0]; cbn.
    + destruct (String.eqb_spec k k0); [contradiction | reflexivity].
    + destruct (String.eqb_spec k k0); [reflexivity | exact IH].
Qed.

Lemma assoc_setProp_same (k : string) (v : JsValue) (fields : list (string * JsValue)) :
  assoc k (setProp k v fields) = v.
Proof.
  induction fields as [|[k0 v0] rest IH]; cbn.
  - now rewrite String.eqb_refl.
  - destruct (String.eqb_spec k k0) as [->|Hk0]; cbn.
    + now rewrite String.eqb_refl.
    + destruct (String.eqb_spec k k0); [contradiction | exact IH].
Qed.

(** C8, amended: an update job is launched with the trimmed override as its
    mongoUri when the request's mongoUri is a string whose trimmed form is
    not empty, and with the tenant context's databaseUri in every other
    case; the options of a scrape job carry no mongoUri and do not depend on
    the request's. *)
Theorem updater_data_store_uri (req : Request) (w w' : World)
    (out : Completion HttpResponse) (evs : list Event) (options : JsValue) :
  (runUpdater env req w = (out, w') ->
   trace w' = trace w ++ evs ->
   EvRunUpdater options ∈ evs ->
   exists ctx,
     getUserTenantContext env (targetUserId req) false = inr ctx /\
     prop options "mongoUri" =
       match assoc "mongoUri" (reqBody req) with
       | JStr s => match trim s with
                   | [] => ofOpt (Ctx.databaseUri ctx)
                   | _ => JStr (trim s)
                   end
       | _ => ofOpt (Ctx.databaseUri ctx)
       end) /\
  (forall ctx jobId v,
     prop (scrapeOptions env req ctx jobId) "mongoUri" = JUndefined /\
     scrapeOptions env
       (mkRequest (setProp "mongoUri" v (reqBody req)) (tenantUserId req)
                  (callerId req) (callerRole req) (paramId req)) ctx jobId
     = scrapeOptions env req ctx jobId).
Proof.
  split.
  - intros Hrun Htrace Hin. apply runUpdater_run in Hrun.
    assert (Hopt : forall ctx jobId,
              prop (updaterOptions env req ctx jobId) "mongoUri" =
              match assoc "mongoUri" (reqBody req) with
              | JStr s => match trim s with
                          | [] => ofOpt (Ctx.databaseUri ctx)
                          | _ => JStr (trim s)
                          end
              | _ => ofOpt (Ctx.databaseUri ctx)
              end).
    { intros ctx jobId. cbn. unfold effectiveMongoUri, jsOr.
      destruct (assoc "mongoUri" (reqBody req)) as [| |b|x|s|fs]; cbn; try reflexivity.
      destruct (trim s); reflexivity. }
    destruct Hrun; try (apply in_effects in Htrace; subst evs).
    + assert (Hnil : evs = []).
      { apply (app_inv_head (trace w)). now rewrite app_nil_r. }
      subst evs. now apply elem_of_nil in Hin.
    + repeat (apply elem_of_cons in Hin as [Hin|Hin]; [discriminate|]).
      now apply elem_of_nil in Hin.
    + repeat (apply elem_of_cons in Hin as [Hin|Hin]; [discriminate|]).
      now apply elem_of_nil in Hin.
    + apply elem_of_cons in Hin as [Hin|Hin]; [discriminate|].
      apply elem_of_cons in Hin as [Hin|Hin]; [|now apply elem_of_nil in Hin].
      injection Hin as ->. eauto.
    + apply elem_of_cons in Hin as [Hin|Hin]; [discriminate|].
      apply elem_of_cons in Hin as [Hin|Hin]; [injection Hin as ->; eauto|].
      apply elem_of_cons in Hin as [Hin|Hin]; [discriminate|].
      now apply elem_of_nil in Hin.
    + apply elem_of_cons in Hin as [Hin|Hin]; [discriminate|].
      apply elem_of_cons in Hin as [Hin|Hin]; [injection Hin as ->; eauto|].
      apply elem_of_cons in Hin as [Hin|Hin]; [discriminate|].
      now apply elem_of_nil in Hin.
  - intros ctx jobId v. split; [reflexivity|].
    unfold scrapeOptions. cbn [reqBody].
    now rewrite !assoc_setProp_other by discriminate.
Qed.

End UpdaterOverride.

Section StreamReport.
Context `{JsRuntime} (env : Env).

Lemma JobRun_success_streams (what prefix : string) (mk : Ctx.t -> jsstring -> JsValue)
    (run : JsValue -> JsError + Job.t) (dispatch : JsValue -> Event)
    (req : Request) (w w' : World) (out : Completion HttpResponse) (r : HttpResponse) :
  JobRun env what prefix mk run dispatch req w out w' ->
  out = Normal r \/ out = Return r ->
  bodyProp r "success" = JBool true ->
  exists ctx job,
    getUserTenantContext env (targetUserId req) false = inr ctx /\
    run (mk ctx (buildJobId env prefix (Ctx.resourceId ctx))) = inr job /\
    truncateLog (Job.stdout job) = Normal (bodyProp r "stdout") /\
    truncateLog (Job.stderr job) = Normal (bodyProp r "stderr").
Proof.
  intros Hrun Hout Hok.
  destruct Hrun; destruct Hout as [Hout|Hout]; simplify_eq; try discriminate.
  eexists ctx, job. repeat split; assumption.
Qed.

(** C5: the stdout and stderr fields of every successful job response of
    startScrape and runUpdater are what truncateLog makes of the streams the
    job captured, and a job that resolves with captured streams is answered
    so; truncateLog returns a stream of at most 8192 code units, a null, an
    undefined or an empty one unchanged, and a longer one as its first 8192
    code units followed, on a new line, by the marker
    [... [truncated N chars]] where N is the length of the stream minus
    8192. *)
Theorem job_streams_reported_within_limit (req : Request) (ctx : Ctx.t) (job : Job.t)
    (w w' : World) (r : HttpResponse) (s : jsstring) :
  (runHandler (startScrape env req) w = (Responded r, w') ->
   bodyProp r "success" = JBool true ->
   exists ctx' job',
     getUserTenantContext env (targetUserId req) false = inr ctx' /\
     runTenantScrape env
       (scrapeOptions env req ctx' (buildJobId env "scrape" (Ctx.resourceId ctx'))) = inr job' /\
     truncateLog (Job.stdout job') = Normal (bodyProp r "stdout") /\
     truncateLog (Job.stderr job') = Normal (bodyProp r "stderr")) /\
  (runHandler (runUpdater env req) w = (Responded r, w') ->
   bodyProp r "success" = JBool true ->
   exists ctx' job',
     getUserTenantContext env (targetUserId req) false = inr ctx' /\
     runTenantUpdater env
       (updaterOptions env req ctx' (buildJobId env "update" (Ctx.resourceId ctx'))) = inr job' /\
     truncateLog (Job.stdout job') = Normal (bodyProp r "stdout") /\
     truncateLog (Job.stderr job') = Normal (bodyProp r "stderr")) /\
  (foreignTenant req = false ->
   getUserTenantContext env (targetUserId req) false = inr ctx ->
   ensureTenantResources ctx = Normal tt ->
   isStream (Job.stdout job) = true ->
   isStream (Job.stderr job) = true ->
   (runTenantScrape env
      (scrapeOptions env req ctx (buildJobId env "scrape" (Ctx.resourceId ctx))) = inr job ->
    exists r0 w0,
      runHandler (startScrape env req) w = (Responded r0, w0) /\
      bodyProp r0 "success" = JBool true /\
      truncateLog (Job.stdout job) = Normal (bodyProp r0 "stdout") /\
      truncateLog (Job.stderr job) = Normal (bodyProp r0 "stderr")) /\
   (runTenantUpdater env
      (updaterOptions env req ctx (buildJobId env "update" (Ctx.resourceId ctx))) = inr job ->
    exists r0 w0,
      runHandler (runUpdater env req) w = (Responded r0, w0) /\
      bodyProp r0 "success" = JBool true /\
      truncateLog (Job.stdout job) = Normal (bodyProp r0 "stdout") /\
      truncateLog (Job.stderr job) = Normal (bodyProp r0 "stderr"))) /\
  truncateLog JNull = Normal JNull /\
  truncateLog JUndefined = Normal JUndefined /\
  truncateLog (JStr []) = Normal (JStr []) /\
  (jslength s <= 8192 -> truncateLog (JStr s) = Normal (JStr s)) /\
  (8192 < jslength s ->
     jslength (slice0 8192 s) = 8192 /\
     s = slice0 8192 s ++ drop (N.to_nat 8192) s /\
     truncateLog (JStr s) =
       Normal (JStr (slice0 8192 s ++ [0xA] ++ ustr "... [truncated "
                     ++ decimal (jslength s - 8192) ++ ustr " chars]"))).
Proof.
  split; [|split; [|split]].
  - intros Hrun Hok. unfold runHandler in Hrun.
    destruct (startScrape env req w) as [out w2] eqn:Hs.
    apply startScrape_run in Hs.
    destruct out; simplify_eq;
      eapply (JobRun_success_streams _ _ _ _ _ _ _ _ _ _ Hs); eauto.
  - intros Hrun Hok. unfold runHandler in Hrun.
    destruct (runUpdater env req w) as [out w2] eqn:Hs.
    apply runUpdater_run in Hs.
    destruct out; simplify_eq;
      eapply (JobRun_success_streams _ _ _ _ _ _ _ _ _ _ Hs); eauto.
  - intros Hf Hc He Hso Hse.
    apply truncateLog_stream in Hso as (so & Hso).
    apply truncateLog_stream in Hse as (se & Hse).
    split; intros Hj.
    + destruct (startScrape_success env req ctx job so se w Hf Hc He Hj Hso Hse)
        as (res & _ & Hrun).
      unfold runHandler. rewrite Hrun. eexists _, _. repeat split; assumption.
    + destruct (runUpdater_success env req ctx job so se w Hf Hc He Hj Hso Hse)
        as (res & _ & Hrun).
      unfold runHandler. rewrite Hrun. eexists _, _. repeat split; assumption.
  - apply truncateLog_cases.
Qed.

End StreamReport.
Lemma job_streams_reported_within_limit_witness :
  exists r w',
    runHandler (@startScrape exampleRuntime chattyJobEnv scrapeRequest) exampleWorld
      = (Responded r, w') /\
    bodyProp r "success" = JBool true /\
    bodyProp r "stdout" =
      JStr (repeat 0x61 (N.to_nat 8192) ++ [0xA] ++ ustr "... [truncated 1808 chars]") /\
    bodyProp r "stderr" = JNull.
Proof.
  destruct (@job_streams_reported_within_limit exampleRuntime chattyJobEnv scrapeRequest
              exampleContext chattyJob exampleWorld exampleWorld
              (mkResponse JNull JNull) (repeat 0x61 (N.to_nat 10000)))
    as (_ & _ & Hanswered & _ & _ & _ & _ & Hlong).
  destruct Hanswered as [Hscrape _]; try (vm_compute; reflexivity).
  destruct (Hscrape eq_refl) as (r & w' & Hrun & Hok & Hout & Herr).
  exists r, w'. split; [exact Hrun|]. split; [exact Hok|].
  destruct Hlong as (_ & _ & Hcut); [vm_compute; reflexivity|].
  change (Job.stdout chattyJob) with (JStr (repeat 0x61 (N.to_nat 10000))) in Hout.
  rewrite Hcut in Hout. injection Hout as <-.
  change (Job.stderr chattyJob) with JNull in Herr. injection Herr as <-.
  split; [vm_compute; reflexivity | reflexivity].
Defined.

Lemma notification_failure_isolated_witness :
  exists r w',
    runHandler (@startScrape exampleRuntime botDownEnv scrapeRequest) exampleWorld
      = (Responded r, w') /\
    status r = JNum 200 /\
    bodyProp r "success" = JBool true /\
    bodyProp r "cacheRefreshed" = JBool false.
Proof.
  destruct (@notification_failure_isolated exampleRuntime botDownEnv scrapeRequest
              exampleContext exampleJob exampleWorld I) as [_ Hjobs].
  destruct Hjobs as [Hscrape _]; try (vm_compute; reflexivity).
  apply Hscrape. reflexivity.
Defined.

Lemma incomplete_tenant_never_dispatched_witness :
  exists r,
    runHandler (@startScrape exampleRuntime unprovisionedEnv scrapeRequest) exampleWorld
      = (Responded r, record exampleWorld [EvGetContext (ustr "u1") false]) /\
    status r = JNum 503 /\
    bodyProp r "success" = JBool false.
Proof.
  destruct (@incomplete_tenant_never_dispatched exampleRuntime unprovisionedEnv scrapeRequest
              incompleteContext exampleWorld) as [Hmissing _];
    try (vm_compute; reflexivity).
  destruct Hmissing as (_ & Hscrape & _); [right; reflexivity|].
  exact Hscrape.
Defined.

Lemma documentCount_always_undefined_witness :
  exists r w',
    runHandler (@startScrape exampleRuntime countingBotEnv scrapeRequest) exampleWorld
      = (Responded r, w') /\
    bodyProp r "cacheRefreshed" = JBool true /\
    bodyProp r "documentCount" = JUndefined.
Proof.
  destruct (runHandler (@startScrape exampleRuntime countingBotEnv scrapeRequest) exampleWorld)
    as [res w'] eqn:Hrun.
  pose proof Hrun as Hval. vm_compute in Hval.
  destruct res as [r|e]; [|discriminate Hval].
  exists r, w'. split; [reflexivity|].
  split; [injection Hval as <- _; reflexivity|].
  apply (proj1 (@documentCount_always_undefined exampleRuntime countingBotEnv scrapeRequest
                  exampleContext exampleWorld w' exampleWorld exampleWorld r [])).
  - left. exact Hrun.
  - injection Hval as <- _. reflexivity.
Defined.

(** C8 as worded does not hold: an override that is a non-empty string of
    blanks is not what the updater is launched with; it runs against the
    tenant's databaseUri. *)
Lemma blank_override_counterexample :
  exists r w' options,
    assoc "mongoUri" (reqBody blankOverrideRequest) = JStr (ustr "   ") /\
    ustr "   " <> [] /\
    runHandler (@runUpdater exampleRuntime exampleEnv blankOverrideRequest) exampleWorld
      = (Responded r, w') /\
    trace w' = [EvGetContext (ustr "u1") false; EvRunUpdater options;
                refreshPost exampleEnv exampleContext] /\
    prop options "mongoUri" = JStr (ustr "mongodb://db/acme_7f3a") /\
    prop options "mongoUri" <> JStr (ustr "   ").
Proof.
  destruct (runHandler (@runUpdater exampleRuntime exampleEnv blankOverrideRequest) exampleWorld)
    as [res w'] eqn:Hrun.
  vm_compute in Hrun.
  destruct res as [r|e]; [|discriminate Hrun].
  injection Hrun as <- <-.
  eexists _, _, (@updaterOptions exampleRuntime exampleEnv blankOverrideRequest exampleContext
                   (buildJobId exampleEnv "update" (Some (ustr "acme_7f3a")))).
  split; [reflexivity|]. split; [discriminate|]. split; [reflexivity|].
  split; [vm_compute; reflexivity|]. split; [vm_compute; reflexivity|].
  vm_compute. discriminate.
Defined.

Lemma updater_data_store_uri_witness :
  exists out w' options,
    @runUpdater exampleRuntime exampleEnv paddedOverrideRequest exampleWorld = (out, w') /\
    trace w' = [EvGetContext (ustr "u1") false; EvRunUpdater options;
                refreshPost exampleEnv exampleContext] /\
    prop options "mongoUri" = JStr (ustr "mongodb://other/db").
Proof.
  destruct (@runUpdater exampleRuntime exampleEnv paddedOverrideRequest exampleWorld)
    as [out w'] eqn:Hrun.
  pose (options := @updaterOptions exampleRuntime exampleEnv paddedOverrideRequest exampleContext
                     (buildJobId exampleEnv "update" (Some (ustr "acme_7f3a")))).
  assert (Htrace : trace w' = trace exampleWorld ++
            [EvGetContext (ustr "u1") false; EvRunUpdater options;
             refreshPost exampleEnv exampleContext]).
  { pose proof Hrun as Hval. vm_compute in Hval. injection Hval as _ <-.
    vm_compute. reflexivity. }
  exists out, w', options. split; [reflexivity|]. split; [exact Htrace|].
  destruct (proj1 (@updater_data_store_uri exampleRuntime exampleEnv paddedOverrideRequest
                     exampleWorld w' out _ options) Hrun Htrace) as (ctx & Hctx & ->).
  - apply elem_of_cons. right. apply elem_of_cons. now left.
  - vm_compute. reflexivity.
Defined.

(** ** Runs of the user and auth controllers *)

Section CatchBlocks.
Context `{JsRuntime} (env : Env).

Lemma callTrim_no_return v r : callTrim v <> Return r.
Proof. destruct v; discriminate. Qed.
Lemma callLowerTrim_no_return v r : callLowerTrim v <> Return r.
Proof. destruct v; discriminate. Qed.
Lemma profileUpdates_no_return n e u ups r : profileUpdates n e u ups <> Return r.
Proof.
  unfold profileUpdates. mrun.
  repeat (case_match; simplify_eq); try discriminate;
  repeat match goal with Hx : callTrim _ = Return _ |- _ => now apply callTrim_no_return in Hx
   | Hx : callLowerTrim _ = Return _ |- _ => now apply callLowerTrim_no_return in Hx end.
Qed.

Lemma mapC_no_return {A B} (f : A -> Completion B) l r :
  (forall a r', f a <> Return r') -> mapC f l <> Return r.
Proof.
  intros Hf. induction l as [|a l IH]; cbn; [discriminate|].
  unfold mbind, Completion_bind. destruct (f a) eqn:Ha; try discriminate.
  - destruct (mapC f l) eqn:Hl; try discriminate. congruence.
  - now apply Hf in Ha.
Qed.

Lemma validationFailure_cases err :
  (exists e, validationFailure err = Throw e) \/
  (exists msg, validationFailure err = Normal (json 400 [("error", JStr msg)])).
Proof.
  unfold validationFailure. mrun.
  destruct (objectValues (errProp err "errors")) as [vals|e|r] eqn:Hv.
  - destruct (mapC readMessage vals) as [msgs|e|r] eqn:Hm; eauto.
    exfalso. eapply mapC_no_return; [|exact Hm]. intros a r'. destruct a; discriminate.
  - eauto.
  - destruct (errProp err "errors"); discriminate.
Qed.

Lemma duplicateKeyFailure_cases err :
  (exists e, duplicateKeyFailure err = Throw e) \/
  (exists field,
     duplicateKeyFailure err =
       Normal (json 400 [("error", JStr (toUpperCase (take 1 field) ++ drop 1 field
                                         ++ ustr " already in use"));
                         ("field", JStr field)])).
Proof.
  unfold duplicateKeyFailure. mrun.
  destruct (objectKeys (errProp err "keyPattern")) as [[|field rest]|e|r] eqn:Hk; eauto.
  destruct (errProp err "keyPattern"); discriminate.
Qed.

Lemma writeFailure_cases dup fallback err :
  (exists e, writeFailure dup fallback err = Throw e) \/
  (exists r, writeFailure dup fallback err = Normal r /\
             (status r = JNum 400 \/ status r = JNum 500)).
Proof.
  unfold writeFailure.
  destruct (isValidationError err).
  - destruct (validationFailure_cases err) as [(e & ->)|(msg & ->)]; eauto.
  - destruct (dup && isDuplicateKey err).
    + destruct (duplicateKeyFailure_cases err) as [(e & ->)|(msg & ->)]; eauto.
    + right. eexists. split; [reflexivity|]. now right.
Qed.

Lemma writeFailure_status dup fallback err r :
  writeFailure dup fallback err <> Return r /\
  (writeFailure dup fallback err = Normal r -> status r = JNum 400 \/ status r = JNum 500).
Proof.
  destruct (writeFailure_cases dup fallback err) as [(e & ->)|(r0 & -> & Hs)].
  - split; discriminate.
  - split; [discriminate|]. intros Heq. now simplify_eq.
Qed.

End CatchBlocks.

Lemma keys_setProp (k : string) (v : JsValue) (fields : list (string * JsValue)) :
  keys (setProp k v fields) ⊆ k :: keys fields.
Proof.
  induction fields as [|[k0 v0] rest IH]; cbn.
  - set_solver.
  - destruct (String.eqb_spec k k0) as [->|Hk]; cbn; set_solver.
Qed.

Lemma keys_setProp_within (k : string) (v : JsValue) (fields : list (string * JsValue))
    (allowed : list string) :
  k ∈ allowed -> keys fields ⊆ allowed -> keys (setProp k v fields) ⊆ allowed.
Proof. intros Hk Hf. pose proof (keys_setProp k v fields). set_solver. Qed.

Section ControllerRuns.
Context `{JsRuntime} (env : Env).

Lemma profileUpdates_keys n e u ups ups' (allowed : list string) :
  profileUpdates n e u ups = Normal ups' ->
  "name" ∈ allowed -> "email" ∈ allowed -> "username" ∈ allowed ->
  keys ups ⊆ allowed -> keys ups' ⊆ allowed.
Proof.
  unfold profileUpdates. mrun. intros Hp Hn He Hu Hk.
  repeat (case_match; simplify_eq); auto using keys_setProp_within.
Qed.

Lemma record_nil (w : World) : record w [] = w.
Proof. destruct w. unfold record. cbn. now rewrite app_nil_r. Qed.

Lemma update_rejected_at_once (target : jsstring) (allowed : list string) (w : World)
    (res : HandlerResult) :
  notStatus 200 res -> UpdateRun env target allowed w res w.
Proof.
  intros Hres. rewrite <- (record_nil w) at 2. apply update_rejected; [constructor | exact Hres].
Qed.

Lemma adminUpdates_no_return b r : adminUpdates b <> Return r.
Proof.
  unfold adminUpdates. mrun.
  destruct (profileUpdates _ _ _ _) eqn:Hp; try discriminate.
  - destruct (assoc "isActive" b); discriminate.
  - now apply profileUpdates_no_return in Hp.
Qed.

Lemma adminUpdates_keys b ups (allowed : list string) :
  adminUpdates b = Normal ups ->
  "name" ∈ allowed -> "email" ∈ allowed -> "username" ∈ allowed -> "isActive" ∈ allowed ->
  keys ups ⊆ allowed.
Proof.
  unfold adminUpdates. mrun. intros Hp Hn He Hu Ha.
  destruct (profileUpdates _ _ _ _) as [ups0| |] eqn:Hp0; try discriminate.
  assert (keys ups0 ⊆ allowed).
  { eapply profileUpdates_keys; eauto. intros ? Hnil. now apply elem_of_nil in Hnil. }
  destruct (assoc "isActive" b); simplify_eq; auto using keys_setProp_within.
Qed.

Ltac not_status :=
  let r := fresh "r" in let Hr := fresh "Hr" in
  intros r Hr; simplify_eq; cbn; try discriminate;
  try match goal with
      | Hx : writeFailure _ _ _ = Normal _ |- _ =>
          apply writeFailure_status in Hx; destruct Hx as [Hx|Hx]; rewrite Hx; discriminate
      end.

Ltac impossible :=
  match goal with
  | Hx : profileUpdates _ _ _ _ = Return _ |- _ => now apply profileUpdates_no_return in Hx
  | Hx : adminUpdates _ = Return _ |- _ => now apply adminUpdates_no_return in Hx
  | Hx : writeFailure _ _ _ = Return _ |- _ => now apply writeFailure_status in Hx
  | Hx : callLowerTrim _ = Return _ |- _ => now apply callLowerTrim_no_return in Hx
  | Hx : callTrim _ = Return _ |- _ => now apply callTrim_no_return in Hx
  end.

Ltac member := repeat first [apply list_elem_of_here | apply list_elem_of_further].

Ltac keys_ok :=
  repeat (apply keys_setProp_within; [member|]);
  first [ eapply profileUpdates_keys; [eassumption | member | member | member | ]
        | eapply adminUpdates_keys; [eassumption | member | member | member | member ]
        | idtac ];
  try (intros ? Hnil; cbn in Hnil; now apply elem_of_nil in Hnil).

Ltac update_leaf target :=
  tidy_world;
  first
    [ impossible
    | (* nothing was issued *)
      apply update_rejected_at_once; not_status
    | (* the write was applied *)
      match goal with
      | |- UpdateRun _ _ _ ?w _ {| users := <[_ := _]> _; cache := _; trace := trace ?w ++ ?l |} =>
          let p := split_last2 l in
          lazymatch p with
          | (?pre, ?x, ?y) =>
              change l with (pre ++ [x; y]);
              eapply update_applied; [lookups | keys_ok | eassumption | eassumption | reflexivity]
          end
      end
    | (* the write was issued and changed nothing *)
      match goal with
      | |- UpdateRun _ _ _ ?w _ {| users := users ?w; cache := cache ?w; trace := trace ?w ++ ?l |} =>
          let p := split_last l in
          lazymatch p with
          | (?pre, EvFindByIdAndUpdate ?t ?u) =>
              change {| users := users w; cache := cache w; trace := trace w ++ l |}
                with (record w (pre ++ [EvFindByIdAndUpdate t u]));
              apply update_refused; [lookups | keys_ok | not_status]
          end
      end
    | (* it ended before the write *)
      match goal with
      | |- UpdateRun _ _ _ ?w _ {| users := users ?w; cache := cache ?w; trace := trace ?w ++ ?l |} =>
          change {| users := users w; cache := cache w; trace := trace w ++ l |}
            with (record w l);
          apply update_rejected; [lookups | not_status]
      end ].

Lemma updateMe_run (req : Request) (w w' : World) (res : HandlerResult) :
  runHandler (updateMe env req) w = (res, w') ->
  UpdateRun env (callerId req) ["name"; "email"; "username"; "password"] w res w'.
Proof.
  unfold updateMe. crun. intros Hrun.
  repeat (case_match; simplify_eq; cbn [users cache trace] in * ).
  all: update_leaf (callerId req).
Qed.

Lemma updateUser_run (req : Request) (w w' : World) (res : HandlerResult) :
  runHandler (updateUser env req) w = (res, w') ->
  UpdateRun env (paramId req) ["name"; "email"; "username"; "isActive"; "password"] w res w'.
Proof.
  unfold updateUser. crun. intros Hrun.
  repeat (case_match; simplify_eq; cbn [users cache trace] in * ).
  all: update_leaf (paramId req).
Qed.


Lemma create_rejected_at_once shape (w : World) (res : HandlerResult) :
  notStatus 201 res -> CreateRun env shape w res w.
Proof.
  intros Hres. rewrite <- (record_nil w) at 2. apply create_rejected; [constructor | exact Hres].
Qed.

Ltac split_provision l :=
  lazymatch l with
  | EvProvision ?a ?b :: ?rest => constr:((@nil Event, rest))
  | ?a :: ?rest =>
      let p := split_provision rest in
      lazymatch p with (?pre, ?r) => constr:((a :: pre, r)) end
  end.

Ltac split_saved l :=
  lazymatch l with
  | EvProvision ?a ?b :: EvSave ?c :: ?rest => constr:((@nil Event, rest))
  | ?a :: ?rest =>
      let p := split_saved rest in
      lazymatch p with (?pre, ?r) => constr:((a :: pre, r)) end
  end.

Ltac not_status' :=
  let r := fresh "r" in let Hr := fresh "Hr" in
  intros r Hr; simplify_eq; cbn; try discriminate;
  try match goal with
      | Hx : writeFailure _ _ _ = Normal _ |- _ =>
          apply writeFailure_status in Hx; destruct Hx as [Hx|Hx]; rewrite Hx; discriminate
      end.

Ltac shape_ok := first [ do 5 eexists; reflexivity | do 4 eexists; reflexivity ].

Ltac create_leaf :=
  tidy_world;
  first
    [ impossible
    | apply create_rejected_at_once; not_status'
    | match goal with
      | |- CreateRun _ _ ?w _ {| users := <[_ := _]> _; cache := _; trace := trace ?w ++ ?l |} =>
          let p := split_saved l in
          lazymatch p with
          | (?pre, ?post) =>
              let u := lazymatch l with context [EvProvision _ ?u] => u end in
              change l with (pre ++ [EvProvision (newObjectId env) u; EvSave (newObjectId env)] ++ post);
              eapply create_saved;
              [ lookups | eassumption | shape_ok
              | first [ left; eexists; split; reflexivity
                      | right; split; [eexists; reflexivity | not_status'] ]
              | first [ left; reflexivity | right; eexists; reflexivity ] ]
          end
      end
    | match goal with
      | |- CreateRun _ _ ?w _ {| users := users ?w; cache := cache ?w; trace := trace ?w ++ ?l |} =>
          let p := split_provision l in
          lazymatch p with
          | (?pre, [EvSave _]) =>
              let u := lazymatch l with context [EvProvision _ ?u] => u end in
              change {| users := users w; cache := cache w; trace := trace w ++ l |}
                with (record w (pre ++ [EvProvision (newObjectId env) u; EvSave (newObjectId env)]));
              eapply create_refused; [lookups | eassumption | not_status']
          | (?pre, []) =>
              let u := lazymatch l with context [EvProvision _ ?u] => u end in
              change {| users := users w; cache := cache w; trace := trace w ++ l |}
                with (record w (pre ++ [EvProvision (newObjectId env) u]));
              eapply create_unprovisioned; [lookups | eassumption]
          end
      end
    | match goal with
      | |- CreateRun _ _ ?w _ {| users := users ?w; cache := cache ?w; trace := trace ?w ++ ?l |} =>
          change {| users := users w; cache := cache w; trace := trace w ++ l |}
            with (record w l);
          apply create_rejected; [lookups | not_status']
      end ].

Lemma createUser_run (req : Request) (w w' : World) (res : HandlerResult) :
  runHandler (createUser env req) w = (res, w') ->
  CreateRun env (memberShape req) w res w'.
Proof.
  unfold createUser. crun. intros Hrun.
  repeat (case_match; simplify_eq; cbn [users cache trace fst snd] in * ).
  all: create_leaf.
Qed.

Lemma registerUser_run (req : Request) (w w' : World) (res : HandlerResult) :
  runHandler (registerUser env req) w = (res, w') ->
  CreateRun env adminShape w res w'.
Proof.
  unfold registerUser. crun. intros Hrun.
  repeat (case_match; simplify_eq; cbn [users cache trace fst snd] in * ).
  all: create_leaf.
Qed.

End ControllerRuns.

(** ** Writes to the users collection *)

Section WriteClaims.
Context `{JsRuntime} (env : Env).

Lemma deleteUser_run (req : Request) (w w' : World) (res : HandlerResult) :
  runHandler (deleteUser env req) w = (res, w') ->
  DeleteRun env req w res w'.
Proof.
  unfold deleteUser. crun. intros Hrun. unfold strEq in *.
  destruct (decide (callerId req = paramId req)) as [Hself|Hself].
  - rewrite (bool_decide_eq_true_2 _ Hself) in Hrun. simplify_eq. now apply delete_self.
  - rewrite (bool_decide_eq_false_2 _ Hself) in Hrun.
    repeat (case_match; simplify_eq; cbn [users cache trace] in * );
      unfold record; cbn [users cache trace]; repeat rewrite <- app_assoc; cbn [app];
      first [ eapply delete_applied; eauto; fail
            | apply delete_refused; assumption
            | apply delete_rejected; [assumption | intros r Hr; simplify_eq; discriminate] ].
Qed.

Lemma setString_resourceId (k : string) (v : option jsstring) (d : Doc.t) :
  k <> "resourceId" -> Doc.resourceId (setString k v d) = Doc.resourceId d.
Proof.
  intros Hk. destruct d. unfold setString.
  repeat case_match; try reflexivity.
  match goal with Hx : String.eqb k "resourceId" = true |- _ =>
    apply String.eqb_eq in Hx; contradiction end.
Qed.

Lemma setPath_resourceId (k : string) (v : JsValue) (d d' : Doc.t) :
  k <> "resourceId" -> setPath k v d = Some d' -> Doc.resourceId d' = Doc.resourceId d.
Proof.
  intros Hk. unfold setPath.
  destruct (String.eqb k "isActive").
  - destruct v; try discriminate. intros Heq. simplify_eq. now destruct d.
  - destruct (castString v) as [s|]; cbn; [|discriminate].
    intros Heq. simplify_eq. now apply setString_resourceId.
Qed.

Lemma applySet_resourceId (updates : list (string * JsValue)) (d d' : Doc.t) :
  applySet updates d = Some d' -> Doc.resourceId d' = Doc.resourceId d.
Proof.
  revert d. induction updates as [|[k v] rest IH]; intros d; cbn.
  - intros Heq. now simplify_eq.
  - unfold immutablePath. destruct (String.eqb_spec k "resourceId") as [->|Hk].
    + apply IH.
    + destruct (setPath k v d) as [d1|] eqn:Hset; cbn; [|discriminate].
      intros Hrest. apply IH in Hrest. rewrite Hrest. now apply (setPath_resourceId k v).
Qed.

Lemma setTimestamps_resourceId (c u : JsValue) (d : Doc.t) :
  Doc.resourceId (setTimestamps c u d) = Doc.resourceId d.
Proof. now destruct d. Qed.

Lemma lookups_no_write (pre : list Event) (ev : Event) :
  Forall (fun ev => isLookup ev = true) pre -> ev ∈ pre -> isLookup ev = true.
Proof. intros Hpre Hin. rewrite Forall_forall in Hpre. now apply Hpre. Qed.

Lemma effects_record (w : World) (evs evs' : list Event) :
  trace (record w evs) = trace w ++ evs' -> evs' = evs.
Proof. cbn. intros Heq. now apply app_inv_head in Heq. Qed.

Lemma UpdateRun_store (target : jsstring) (allowed : list string) (w w' : World)
    (res : HandlerResult) :
  UpdateRun env target allowed w res w' ->
  (forall id d, users w !! id = Some d ->
     exists d', users w' !! id = Some d' /\
                Doc.resourceId d' = Doc.resourceId d /\
                (id <> target -> d' = d)) /\
  (forall evs id updates,
     trace w' = trace w ++ evs -> EvFindByIdAndUpdate id updates ∈ evs ->
     id = target /\ keys updates ⊆ allowed).
Proof.
  intros Hrun. destruct Hrun as [res pre Hpre Hres|res pre updates Hpre Hkeys Hres
                                |r pre updates d0 d1 Hpre Hkeys Hd0 Hset Hst].
  - split; [eauto|].
    intros evs id updates Htr Hin. apply effects_record in Htr. subst evs.
    apply (lookups_no_write _ _ Hpre) in Hin. discriminate.
  - split; [eauto|].
    intros evs id u Htr Hin. apply effects_record in Htr. subst evs.
    apply elem_of_app in Hin as [Hin|Hin].
    + apply (lookups_no_write _ _ Hpre) in Hin. discriminate.
    + apply list_elem_of_singleton in Hin. now simplify_eq.
  - split.
    + intros id d Hd. cbn [users].
      destruct (decide (id = target)) as [->|Hid].
      * rewrite lookup_insert_eq. eexists. split; [reflexivity|]. split.
        -- rewrite setTimestamps_resourceId. rewrite (applySet_resourceId _ _ _ Hset).
           congruence.
        -- intros Hne. contradiction.
      * rewrite lookup_insert_ne by congruence. eauto.
    + intros evs id u Htr Hin. cbn [trace] in Htr. apply app_inv_head in Htr. subst evs.
      apply elem_of_app in Hin as [Hin|Hin].
      * apply (lookups_no_write _ _ Hpre) in Hin. discriminate.
      * apply elem_of_cons in Hin as [Hin|Hin]; [now simplify_eq|].
        apply list_elem_of_singleton in Hin. discriminate.
Qed.

(** C4: a profile update or an admin-initiated update never changes a
    stored resourceId: every document is still there afterwards with the
    resourceId it had, no update set that the handlers send names
    resourceId, and the schema's immutable flag keeps even an update that
    names it from changing the stored value. *)
Theorem resourceId_immutable (req : Request) (w w' : World) (res : HandlerResult) :
  (runHandler (updateMe env req) w = (res, w') \/
   runHandler (updateUser env req) w = (res, w') ->
   (forall id d, users w !! id = Some d ->
      exists d', users w' !! id = Some d' /\ Doc.resourceId d' = Doc.resourceId d) /\
   (forall evs id updates,
      trace w' = trace w ++ evs -> EvFindByIdAndUpdate id updates ∈ evs ->
      "resourceId" ∉ keys updates)) /\
  (forall updates d d',
     applySet updates d = Some d' -> Doc.resourceId d' = Doc.resourceId d).
Proof.
  split; [|apply applySet_resourceId].
  intros [Hrun|Hrun];
    [apply updateMe_run in Hrun | apply updateUser_run in Hrun];
    apply UpdateRun_store in Hrun as [Hdocs Hsets]; split.
  - intros id d Hd. destruct (Hdocs id d Hd) as (d' & ? & ? & _). eauto.
  - intros evs id updates Htr Hin. destruct (Hsets evs id updates Htr Hin) as [_ Hkeys].
    intros Hr. apply Hkeys in Hr.
    repeat (apply elem_of_cons in Hr as [Hr|Hr]; [discriminate|]).
    now apply elem_of_nil in Hr.
  - intros id d Hd. destruct (Hdocs id d Hd) as (d' & ? & ? & _). eauto.
  - intros evs id updates Htr Hin. destruct (Hsets evs id updates Htr Hin) as [_ Hkeys].
    intros Hr. apply Hkeys in Hr.
    repeat (apply elem_of_cons in Hr as [Hr|Hr]; [discriminate|]).
    now apply elem_of_nil in Hr.
Qed.

Lemma cachedTenantContext_miss (id : jsstring) (forceRefresh : bool) (w : World) :
  cache w !! id = None ->
  exists out w',
    cachedTenantContext id forceRefresh w = (out, w') /\
    trace w' = trace w ++ [EvStoreRead id] /\
    users w' = users w /\
    (forall ctx, out = Normal ctx ->
       exists d, users w !! id = Some d /\ ctx = contextOf id d).
Proof.
  intros Hmiss. unfold cachedTenantContext. rewrite Hmiss.
  destruct (users w !! id) as [d|] eqn:Hd.
  - destruct (present (Doc.resourceId d) && present (Doc.vectorStorePath d)).
    + eexists _, _. split; [reflexivity|]. repeat split.
      intros ctx Hctx. simplify_eq. eauto.
    + eexists _, _. split; [reflexivity|]. repeat split. discriminate.
  - eexists _, _. split; [reflexivity|]. repeat split. discriminate.
Qed.

Lemma deleteUser_applies (req : Request) (d : Doc.t) (w : World) :
  (forall w0 ev, dbFault env w0 ev = None) ->
  callerId req <> paramId req ->
  users w !! paramId req = Some d ->
  notOwnedBy req d = false ->
  callerRole req <> ustr "user" ->
  runHandler (deleteUser env req) w =
    (Responded (json 200 [("message", JStr (ustr "User deleted successfully"))]),
     mkWorld (delete (paramId req) (users w)) (delete (paramId req) (cache w))
             (trace w ++ [EvFindById (paramId req); EvDeleteOne (paramId req);
                          EvInvalidate (paramId req)])).
Proof.
  intros Hfault Hself Hd Hown Hrole.
  unfold deleteUser. crun. unfold strEq.
  rewrite (bool_decide_eq_false_2 _ Hself).
  rewrite !Hfault. cbn [users cache trace]. rewrite Hd, Hown.
  rewrite (bool_decide_eq_false_2 _ Hrole).
  rewrite !Hfault. cbn [users cache trace].
  now rewrite <- !app_assoc.
Qed.

Lemma updateUser_applies (req : Request) (d d' : Doc.t) (w : World)
    (updates : list (string * JsValue)) (hash : jsstring) :
  (forall w0 ev, dbFault env w0 ev = None) ->
  adminUpdates (reqBody req) = Normal updates ->
  users w !! paramId req = Some d ->
  notOwnedBy req d = false ->
  notSelf req (paramId req) = false ->
  (forall email,
     nonEmptyString (assoc "email" updates) = Some email ->
     findAll (mkQuery (Some email) None
                (Some (if strEq (callerRole req) (ustr "admin") then Some (callerId req)
                       else Doc.adminId d))
                None (Some (paramId req))) (users w) = []) ->
  (forall username,
     nonEmptyString (assoc "username" updates) = Some username ->
     findAll (mkQuery None (Some username) None None (Some (paramId req))) (users w) = []) ->
  (truthy (assoc "password" (reqBody req)) = true ->
   bcryptHash env (assoc "password" (reqBody req)) (SALT_ROUNDS env) = inr hash) ->
  let sent := if truthy (assoc "password" (reqBody req))
              then setProp "password" (JStr hash) updates else updates in
  applySet sent d = Some d' ->
  exists r pre,
    runHandler (updateUser env req) w =
      (Responded r,
       mkWorld (<[paramId req := setTimestamps (Doc.createdAt d') (now env) d']> (users w))
               (delete (paramId req) (cache w))
               (trace w ++ pre ++ [EvFindByIdAndUpdate (paramId req) sent;
                                   EvInvalidate (paramId req)])) /\
    status r = JNum 200 /\
    Forall (fun ev => isLookup ev = true) pre.
Proof.
  intros Hfault Hupd Hd Hown Hself Hemail Huser Hhash sent Hset. subst sent.
  unfold updateUser. crun. rewrite Hupd.
  rewrite !Hfault. cbn [users cache trace]. rewrite Hd, Hown, Hself.
  destruct (nonEmptyString (assoc "email" updates)) as [email|] eqn:He;
  destruct (nonEmptyString (assoc "username" updates)) as [username|] eqn:Hu;
  destruct (truthy (assoc "password" (reqBody req))) eqn:Hp;
    repeat first
      [ rewrite Hfault
      | rewrite (Hemail _ eq_refl)
      | rewrite (Huser _ eq_refl)
      | rewrite (Hhash eq_refl)
      | rewrite Hd
      | rewrite Hset
      | rewrite (bool_decide_eq_false_2 (is_Some None)) by (intros [? ?]; discriminate)
      | progress cbn [users cache trace head] ];
    repeat rewrite <- app_assoc; cbn [app];
    match goal with
    | |- exists r pre, (_, {| users := _; cache := _; trace := trace _ ++ ?l |}) = _ /\ _ =>
        let p := split_last2 l in
        lazymatch p with
        | (?pre, _, _) =>
            eexists _, pre; split; [reflexivity | split; [reflexivity | lookups]]
        end
    end.
Qed.

Lemma profileUpdates_trims (name email username : JsValue) (updates : list (string * JsValue)) :
  profileUpdates name email username [] = Normal updates ->
  (truthy email = true -> exists e, callLowerTrim email = Normal e) /\
  (truthy username = true -> exists u, callTrim username = Normal u).
Proof.
  unfold profileUpdates. mrun. intros Hp.
  split; intros Ht; rewrite Ht in Hp.
  - destruct (callLowerTrim email); eauto; repeat case_match; discriminate.
  - destruct (callTrim username); eauto; repeat case_match; discriminate.
Qed.

Lemma updateMe_applies (req : Request) (d d' : Doc.t) (w : World)
    (updates : list (string * JsValue)) (salt hash : jsstring) :
  (forall w0 ev, dbFault env w0 ev = None) ->
  profileUpdates (assoc "name" (reqBody req)) (assoc "email" (reqBody req))
                 (assoc "username" (reqBody req)) [] = Normal updates ->
  users w !! callerId req = Some d ->
  (forall email,
     truthy (assoc "email" (reqBody req)) = true ->
     callLowerTrim (assoc "email" (reqBody req)) = Normal email ->
     findAll (emailQuery req d email) (users w) = []) ->
  (forall username,
     truthy (assoc "username" (reqBody req)) = true ->
     callTrim (assoc "username" (reqBody req)) = Normal username ->
     findAll (mkQuery None (Some username) None None (Some (callerId req))) (users w) = []) ->
  (truthy (assoc "password" (reqBody req)) = true ->
   bcryptGenSalt env = inr salt /\
   bcryptHash env (assoc "password" (reqBody req)) (JStr salt) = inr hash) ->
  let sent := if truthy (assoc "password" (reqBody req))
              then setProp "password" (JStr hash) updates else updates in
  applySet sent d = Some d' ->
  exists r pre,
    runHandler (updateMe env req) w =
      (Responded r,
       mkWorld (<[callerId req := setTimestamps (Doc.createdAt d') (now env) d']> (users w))
               (delete (callerId req) (cache w))
               (trace w ++ pre ++ [EvFindByIdAndUpdate (callerId req) sent;
                                   EvInvalidate (callerId req)])) /\
    status r = JNum 200 /\
    Forall (fun ev => isLookup ev = true) pre.
Proof.
  intros Hfault Hupd Hd Hemail Huser Hhash sent Hset. subst sent.
  destruct (profileUpdates_trims _ _ _ _ Hupd) as [Htrim_e Htrim_u].
  unfold updateMe. crun. rewrite Hupd.
  destruct (truthy (assoc "email" (reqBody req))) eqn:He;
  destruct (truthy (assoc "username" (reqBody req))) eqn:Hu;
  destruct (truthy (assoc "password" (reqBody req))) eqn:Hp;
    try (destruct (Htrim_e eq_refl) as (email & Hemail'); rewrite Hemail');
    try (destruct (Htrim_u eq_refl) as (username & Huser'); rewrite Huser');
    try (destruct (Hhash eq_refl) as [Hsalt Hh]; rewrite Hsalt);
    repeat first
      [ rewrite Hfault
      | rewrite (Hemail _ eq_refl Hemail')
      | rewrite (Huser _ eq_refl Huser')
      | rewrite Hh
      | rewrite Hd
      | rewrite Hset
      | rewrite (bool_decide_eq_false_2 (is_Some None)) by (intros [? ?]; discriminate)
      | progress cbn [users cache trace head] ];
    repeat rewrite <- app_assoc; cbn [app];
    match goal with
    | |- context [if ?c then _ else _] => destruct c
    | _ => idtac
    end;
    match goal with
    | |- exists r pre, (_, {| users := _; cache := _; trace := trace _ ++ ?l |}) = _ /\ _ =>
        let p := split_last2 l in
        lazymatch p with
        | (?pre, _, _) =>
            eexists _, pre; split; [reflexivity | split; [reflexivity | lookups]]
        end
    end.
Qed.

(** C2: updateMe, updateUser and deleteUser each write the target document
    and then call invalidateUserTenantContext(target). Whenever one of them
    changes the users collection or answers 200, its last two effects are
    that write and that call; the cache then holds no entry for the target,
    so the next read of its context goes to the collection and returns what
    is stored there now. And each of them does make the write and the call:
    deleteUser when the caller is not the target, is not a member and may
    delete the stored document; updateUser and updateMe when the document is
    stored, the caller may update it, the duplicate lookups find nothing,
    the password (if any) hashes and the update set casts; in each case with
    a driver that refuses nothing. *)
Theorem writes_invalidate_context (req : Request) (target : jsstring) (w w' : World)
    (res : HandlerResult) (d d' : Doc.t) (updates : list (string * JsValue))
    (salt hash : jsstring) :
  ((runHandler (updateMe env req) w = (res, w') /\ target = callerId req \/
    runHandler (updateUser env req) w = (res, w') /\ target = paramId req \/
    runHandler (deleteUser env req) w = (res, w') /\ target = paramId req) ->
   (users w' <> users w \/ exists r, res = Responded r /\ status r = JNum 200) ->
   (exists pre write,
      trace w' = trace w ++ pre ++ [write; EvInvalidate target] /\
      (write = EvDeleteOne target \/
       exists updates, write = EvFindByIdAndUpdate target updates) /\
      Forall (fun ev => isLookup ev = true) pre) /\
   cache w' !! target = None /\
   (forall forceRefresh, exists out w'',
      cachedTenantContext target forceRefresh w' = (out, w'') /\
      trace w'' = trace w' ++ [EvStoreRead target] /\
      (forall ctx, out = Normal ctx ->
         exists d, users w' !! target = Some d /\ ctx = contextOf target d))) /\
  ((forall w0 ev, dbFault env w0 ev = None) ->
   callerId req <> paramId req ->
   users w !! paramId req = Some d ->
   notOwnedBy req d = false ->
   callerRole req <> ustr "user" ->
   runHandler (deleteUser env req) w =
     (Responded (json 200 [("message", JStr (ustr "User deleted successfully"))]),
      mkWorld (delete (paramId req) (users w)) (delete (paramId req) (cache w))
              (trace w ++ [EvFindById (paramId req); EvDeleteOne (paramId req);
                           EvInvalidate (paramId req)]))) /\
  ((forall w0 ev, dbFault env w0 ev = None) ->
   adminUpdates (reqBody req) = Normal updates ->
   users w !! paramId req = Some d ->
   notOwnedBy req d = false ->
   notSelf req (paramId req) = false ->
   (forall email,
      nonEmptyString (assoc "email" updates) = Some email ->
      findAll (mkQuery (Some email) None
                 (Some (if strEq (callerRole req) (ustr "admin") then Some (callerId req)
                        else Doc.adminId d))
                 None (Some (paramId req))) (users w) = []) ->
   (forall username,
      nonEmptyString (assoc "username" updates) = Some username ->
      findAll (mkQuery None (Some username) None None (Some (paramId req))) (users w) = []) ->
   (truthy (assoc "password" (reqBody req)) = true ->
    bcryptHash env (assoc "password" (reqBody req)) (SALT_ROUNDS env) = inr hash) ->
   let sent := if truthy (assoc "password" (reqBody req))
               then setProp "password" (JStr hash) updates else updates in
   applySet sent d = Some d' ->
   exists r pre,
     runHandler (updateUser env req) w =
       (Responded r,
        mkWorld (<[paramId req := setTimestamps (Doc.createdAt d') (now env) d']> (users w))
                (delete (paramId req) (cache w))
                (trace w ++ pre ++ [EvFindByIdAndUpdate (paramId req) sent;
                                    EvInvalidate (paramId req)])) /\
     status r = JNum 200 /\
     Forall (fun ev => isLookup ev = true) pre) /\
  ((forall w0 ev, dbFault env w0 ev = None) ->
   profileUpdates (assoc "name" (reqBody req)) (assoc "email" (reqBody req))
                  (assoc "username" (reqBody req)) [] = Normal updates ->
   users w !! callerId req = Some d ->
   (forall email,
      truthy (assoc "email" (reqBody req)) = true ->
      callLowerTrim (assoc "email" (reqBody req)) = Normal email ->
      findAll (emailQuery req d email) (users w) = []) ->
   (forall username,
      truthy (assoc "username" (reqBody req)) = true ->
      callTrim (assoc "username" (reqBody req)) = Normal username ->
      findAll (mkQuery None (Some username) None None (Some (callerId req))) (users w) = []) ->
   (truthy (assoc "password" (reqBody req)) = true ->
    bcryptGenSalt env = inr salt /\
    bcryptHash env (assoc "password" (reqBody req)) (JStr salt) = inr hash) ->
   let sent := if truthy (assoc "password" (reqBody req))
               then setProp "password" (JStr hash) updates else updates in
   applySet sent d = Some d' ->
   exists r pre,
     runHandler (updateMe env req) w =
       (Responded r,
        mkWorld (<[callerId req := setTimestamps (Doc.createdAt d') (now env) d']> (users w))
                (delete (callerId req) (cache w))
                (trace w ++ pre ++ [EvFindByIdAndUpdate (callerId req) sent;
                                    EvInvalidate (callerId req)])) /\
     status r = JNum 200 /\
     Forall (fun ev => isLookup ev = true) pre).
Proof.
  split; [|split; [apply deleteUser_applies|split; [apply updateUser_applies|apply updateMe_applies]]].
  intros Hrun Hchanged.
  assert (Hmain :
    (exists pre write,
       trace w' = trace w ++ pre ++ [write; EvInvalidate target] /\
       (write = EvDeleteOne target \/
        exists updates, write = EvFindByIdAndUpdate target updates) /\
       Forall (fun ev => isLookup ev = true) pre) /\
    cache w' !! target = None).
  { assert (Hupdate : forall allowed, UpdateRun env target allowed w res w' ->
      (exists pre write,
         trace w' = trace w ++ pre ++ [write; EvInvalidate target] /\
         (write = EvDeleteOne target \/
          exists updates, write = EvFindByIdAndUpdate target updates) /\
         Forall (fun ev => isLookup ev = true) pre) /\
      cache w' !! target = None).
    { intros allowed Hu.
      destruct Hu as [res pre Hpre Hres|res pre ups Hpre Hkeys Hres
                     |r pre ups d0 d1 Hpre Hkeys Hd0 Hset Hst].
      - destruct Hchanged as [Hne|(r & -> & Hst)]; [now destruct Hne|].
        now destruct (Hres r eq_refl).
      - destruct Hchanged as [Hne|(r & -> & Hst)]; [now destruct Hne|].
        now destruct (Hres r eq_refl).
      - split; [|cbn; apply lookup_delete_eq].
        exists pre, (EvFindByIdAndUpdate target ups). cbn. eauto. }
    destruct Hrun as [[Hrun ->]|[[Hrun ->]|[Hrun ->]]].
    - apply updateMe_run in Hrun. eauto.
    - apply updateUser_run in Hrun. eauto.
    - apply deleteUser_run in Hrun.
      destruct Hrun as [Hself|res Hself Hres|Hself|dd Hself Hd Hown Hrole].
      + destruct Hchanged as [Hne|(r & Hr & Hst)]; [now destruct Hne|].
        simplify_eq; try discriminate.
      + destruct Hchanged as [Hne|(r & -> & Hst)]; [now destruct Hne|].
        now destruct (Hres r eq_refl).
      + destruct Hchanged as [Hne|(r & Hr & Hst)]; [now destruct Hne|].
        simplify_eq; try discriminate.
      + split; [|cbn; apply lookup_delete_eq].
        exists [EvFindById (paramId req)], (EvDeleteOne (paramId req)). cbn.
        split; [reflexivity|]. split; [now left|]. repeat constructor. }
  destruct Hmain as [Htrace Hcache]. split; [exact Htrace|]. split; [exact Hcache|].
  intros forceRefresh.
  destruct (cachedTenantContext_miss target forceRefresh w' Hcache)
    as (out & w'' & Hget & Htr & _ & Hfresh).
  eauto 10.
Qed.

(** C6: when provisioning throws during createUser or registerUser, the
    handler answers 500 "Failed to provision user resources", the users
    collection is what it was, and no save is ever issued. *)
Theorem provisioning_failure_saves_nothing (req : Request) (w w' : World)
    (res : HandlerResult) (evs : list Event) (id username : jsstring) (e : JsError) :
  runHandler (createUser env req) w = (res, w') \/
  runHandler (registerUser env req) w = (res, w') ->
  trace w' = trace w ++ evs ->
  EvProvision id username ∈ evs ->
  provisionResourcesForUser env id username = inl e ->
  res = Responded (json 500 (errorBody "Failed to provision user resources")) /\
  users w' = users w /\
  (forall id', EvSave id' ∉ evs).
Proof.
  intros Hrun Htr Hin Hthrows.
  assert (Hcreate : forall shape, CreateRun env shape w res w' ->
            res = Responded (json 500 (errorBody "Failed to provision user resources")) /\
            users w' = users w /\ (forall id', EvSave id' ∉ evs)).
  { intros shape Hc.
    destruct Hc as [res pre Hpre Hres|pre u e0 Hpre Hprov
                   |res pre u resources Hpre Hprov Hres
                   |res pre u resources fields post Hpre Hprov Hshape Hres Hpost].
    - apply effects_record in Htr. subst evs.
      apply (lookups_no_write _ _ Hpre) in Hin. discriminate.
    - apply effects_record in Htr. subst evs.
      split; [reflexivity|]. split; [reflexivity|].
      intros id' Hsave. apply elem_of_app in Hsave as [Hsave|Hsave].
      + apply (lookups_no_write _ _ Hpre) in Hsave. discriminate.
      + apply list_elem_of_singleton in Hsave. discriminate.
    - apply effects_record in Htr. subst evs.
      apply elem_of_app in Hin as [Hin|Hin].
      + apply (lookups_no_write _ _ Hpre) in Hin. discriminate.
      + apply elem_of_cons in Hin as [Hin|Hin]; [simplify_eq; congruence|].
        apply list_elem_of_singleton in Hin. discriminate.
    - cbn [trace] in Htr. apply app_inv_head in Htr. subst evs.
      apply elem_of_app in Hin as [Hin|Hin].
      + apply (lookups_no_write _ _ Hpre) in Hin. discriminate.
      + apply elem_of_cons in Hin as [Hin|Hin]; [simplify_eq; congruence|].
        apply elem_of_cons in Hin as [Hin|Hin]; [discriminate|].
        destruct Hpost as [->|(payload & ->)].
        * now apply elem_of_nil in Hin.
        * apply list_elem_of_singleton in Hin. discriminate. }
  destruct Hrun as [Hrun|Hrun].
  - apply createUser_run in Hrun. eauto.
  - apply registerUser_run in Hrun. eauto.
Qed.

(** C10: a delete request whose caller is the target is answered 400 at
    once: nothing is looked up, deleted or invalidated, and the collection,
    the cache and the trace are what they were. *)
Theorem self_delete_refused (req : Request) (w : World) :
  callerId req = paramId req ->
  runHandler (deleteUser env req) w =
    (Responded (json 400 (errorBody "You cannot delete your own account while signed in")), w).
Proof.
  intros Hself. unfold deleteUser. crun. unfold strEq.
  now rewrite (bool_decide_eq_true_2 _ Hself).
Qed.

End WriteClaims.

Lemma writes_invalidate_context_witness :
  is_Some (cache exampleWorld !! ustr "u2") /\
  (exists r w' pre,
     runHandler (@updateMe exampleRuntime exampleEnv emailChangeRequest) exampleWorld
       = (Responded r, w') /\
     status r = JNum 200 /\
     trace w' = pre ++ [EvFindByIdAndUpdate (ustr "u2")
                          [("email", JStr (ustr "bob@acme.example"))];
                        EvInvalidate (ustr "u2")] /\
     cache w' !! ustr "u2" = None) /\
  (exists r w' pre,
     runHandler (@updateUser exampleRuntime exampleEnv renameRequest) exampleWorld
       = (Responded r, w') /\
     status r = JNum 200 /\
     trace w' = pre ++ [EvFindByIdAndUpdate (ustr "u2") [("name", JStr (ustr "Robert"))];
                        EvInvalidate (ustr "u2")] /\
     cache w' !! ustr "u2" = None) /\
  (exists r w',
     runHandler (deleteUser exampleEnv deleteRequest) exampleWorld = (Responded r, w') /\
     status r = JNum 200 /\
     trace w' = [EvFindById (ustr "u2"); EvDeleteOne (ustr "u2"); EvInvalidate (ustr "u2")] /\
     users w' !! ustr "u2" = None /\
     cache w' !! ustr "u2" = None).
Proof.
  assert (Hfault : forall w0 ev, dbFault exampleEnv w0 ev = None) by reflexivity.
  assert (Hd : users exampleWorld !! ustr "u2" = Some memberDoc) by (vm_compute; reflexivity).
  split; [exists (contextOf (ustr "u2") memberDoc); vm_compute; reflexivity|].
  split; [|split].
  - destruct (@writes_invalidate_context exampleRuntime exampleEnv emailChangeRequest
                (ustr "u2") exampleWorld exampleWorld (Rejected CastError)
                memberDoc (setString "email" (Some (ustr "bob@acme.example")) memberDoc)
                [("email", JStr (ustr "bob@acme.example"))] [] [])
      as (_ & _ & _ & Hme).
    destruct (Hme Hfault) as (r & pre & Hrun & Hst & _).
    + vm_compute. reflexivity.
    + exact Hd.
    + intros email _ Hemail. vm_compute in Hemail. injection Hemail as <-.
      vm_compute. reflexivity.
    + intros username Hc. vm_compute in Hc. discriminate Hc.
    + intros Hc. vm_compute in Hc. discriminate Hc.
    + vm_compute. reflexivity.
    + eexists r, _, pre. split; [exact Hrun|]. split; [exact Hst|].
      split; [reflexivity | vm_compute; reflexivity].
  - destruct (@writes_invalidate_context exampleRuntime exampleEnv renameRequest
                (ustr "u2") exampleWorld exampleWorld (Rejected CastError)
                memberDoc (setString "name" (Some (ustr "Robert")) memberDoc)
                [("name", JStr (ustr "Robert"))] [] [])
      as (_ & _ & Huser & _).
    destruct (Huser Hfault) as (r & pre & Hrun & Hst & _).
    + vm_compute. reflexivity.
    + exact Hd.
    + vm_compute. reflexivity.
    + vm_compute. reflexivity.
    + intros email Hc. vm_compute in Hc. discriminate Hc.
    + intros username Hc. vm_compute in Hc. discriminate Hc.
    + intros Hc. vm_compute in Hc. discriminate Hc.
    + vm_compute. reflexivity.
    + eexists r, _, pre. split; [exact Hrun|]. split; [exact Hst|].
      split; [reflexivity | vm_compute; reflexivity].
  - destruct (@writes_invalidate_context exampleRuntime exampleEnv deleteRequest
                (ustr "u2") exampleWorld exampleWorld (Rejected CastError)
                memberDoc memberDoc [] [] [])
      as (_ & Hdel & _).
    eexists _, _. split; [apply (Hdel Hfault)|].
    + discriminate.
    + exact Hd.
    + vm_compute. reflexivity.
    + discriminate.
    + split; [reflexivity|]. split; [reflexivity|].
      split; vm_compute; reflexivity.
Defined.

Lemma resourceId_immutable_witness :
  exists res w' d',
    runHandler (@updateMe exampleRuntime exampleEnv emailChangeRequest) exampleWorld = (res, w') /\
    users w' !! ustr "u2" = Some d' /\
    Doc.email d' = Some (ustr "bob@acme.example") /\
    Doc.resourceId d' = Some (ustr "bob_11aa").
Proof.
  destruct (runHandler (@updateMe exampleRuntime exampleEnv emailChangeRequest) exampleWorld)
    as [res w'] eqn:Hrun.
  destruct (proj1 (proj1 (@resourceId_immutable exampleRuntime exampleEnv emailChangeRequest
                            exampleWorld w' res) (or_introl Hrun))
              (ustr "u2") memberDoc) as (d' & Hd' & Hrid).
  { vm_compute. reflexivity. }
  exists res, w', d'. split; [reflexivity|]. split; [exact Hd'|]. split; [|exact Hrid].
  vm_compute in Hrun. injection Hrun as _ <-. vm_compute in Hd'. injection Hd' as <-.
  reflexivity.
Defined.

Lemma provisioning_failure_saves_nothing_witness :
  exists w',
    runHandler (@createUser exampleRuntime provisioningDownEnv createRequest) exampleWorld
      = (Responded (json 500 (errorBody "Failed to provision user resources")), w') /\
    users w' = users exampleWorld.
Proof.
  destruct (runHandler (@createUser exampleRuntime provisioningDownEnv createRequest) exampleWorld)
    as [res w'] eqn:Hrun.
  destruct (@provisioning_failure_saves_nothing exampleRuntime provisioningDownEnv createRequest
              exampleWorld w' res
              [EvFindOne (mkQuery (Some (ustr "cy@acme.example")) None (Some (Some (ustr "u1")))
                            None None);
               EvFindOne (mkQuery None (Some (ustr "cy")) None None None);
               EvHash (JStr (ustr "secret1")) (JNum 10);
               EvProvision (ustr "u9") (ustr "cy")]
              (ustr "u9") (ustr "cy")
              (mkError [("name", JStr (ustr "Error"));
                        ("message", JStr (ustr "Unable to derive resource identifier"))])
              (or_introl Hrun)) as (-> & Husers & _).
  - vm_compute in Hrun. injection Hrun as _ <-. vm_compute. reflexivity.
  - do 3 apply list_elem_of_further. apply list_elem_of_here.
  - reflexivity.
  - exists w'. split; [reflexivity | exact Husers].
Defined.

Lemma self_delete_refused_witness :
  runHandler (@deleteUser exampleEnv selfDeleteRequest) exampleWorld =
    (Responded (json 400 (errorBody "You cannot delete your own account while signed in")),
     exampleWorld).
Proof. apply (@self_delete_refused exampleEnv selfDeleteRequest exampleWorld). reflexivity. Defined.

(** ** Further properties of the scrape controller *)

Section JobGuards.
Context `{JsRuntime} (env : Env).

(** X1: a member who asks for another tenant's data is answered 403 by
    startScrape and by runUpdater before anything happens: no context is
    resolved, no job dispatched, no notification sent. *)
Theorem foreign_tenant_denied (req : Request) (tenant : jsstring) (w : World) :
  callerRole req = ustr "user" ->
  tenantUserId req = Some tenant ->
  tenant <> [] ->
  tenant <> callerId req ->
  runHandler (startScrape env req) w = (Responded (accessDenied "scrape"), w) /\
  runHandler (runUpdater env req) w = (Responded (accessDenied "update"), w) /\
  status (accessDenied "scrape") = JNum 403 /\
  status (accessDenied "update") = JNum 403.
Proof.
  intros Hrole Htenant Hne Hother.
  assert (Hf : foreignTenant req = true).
  { unfold foreignTenant, strEq. rewrite Htenant, Hrole.
    rewrite bool_decide_eq_true_2 by reflexivity.
    rewrite bool_decide_eq_false_2 by congruence.
    destruct tenant; [contradiction | reflexivity]. }
  unfold startScrape, runUpdater. mrun. rewrite Hf. repeat split.
Qed.

(** X2: a job that rejects with an error is reported with the error's
    statusCode, or 500 when it has none, and with [success: false]; the
    dispatch is the last effect of the run, so the bot service is not
    notified. *)
Theorem failed_job_reported (req : Request) (ctx : Ctx.t) (e : JsError) (w : World) :
  foreignTenant req = false ->
  getUserTenantContext env (targetUserId req) false = inr ctx ->
  ensureTenantResources ctx = Normal tt ->
  (let options := scrapeOptions env req ctx (buildJobId env "scrape" (Ctx.resourceId ctx)) in
   runTenantScrape env options = inl e ->
   runHandler (startScrape env req) w =
     (Responded (jobFailure e),
      record w [EvGetContext (targetUserId req) false; EvRunScrape options])) /\
  (let options := updaterOptions env req ctx (buildJobId env "update" (Ctx.resourceId ctx)) in
   runTenantUpdater env options = inl e ->
   runHandler (runUpdater env req) w =
     (Responded (jobFailure e),
      record w [EvGetContext (targetUserId req) false; EvRunUpdater options])) /\
  bodyProp (jobFailure e) "success" = JBool false /\
  (errProp e "statusCode" = JUndefined -> status (jobFailure e) = JNum 500) /\
  (truthy (errProp e "statusCode") = true -> status (jobFailure e) = errProp e "statusCode").
Proof.
  intros Hf Hc He. repeat split.
  - intros options Hj. subst options. unfold startScrape. mrun.
    rewrite Hf, Hc, He. cbn [users cache trace]. rewrite Hj.
    cbn [users cache trace]. now rewrite <- app_assoc.
  - intros options Hj. subst options. unfold runUpdater. mrun.
    rewrite Hf, Hc, He. cbn [users cache trace]. rewrite Hj.
    cbn [users cache trace]. now rewrite <- app_assoc.
  - intros Hs. unfold jobFailure, jsOr. cbn [status]. now rewrite Hs.
  - intros Hs. unfold jobFailure, jsOr. cbn [status]. now rewrite Hs.
Qed.

Lemma JobRun_dispatch (what prefix : string) (mk : Ctx.t -> jsstring -> JsValue)
    (run : JsValue -> JsError + Job.t) (dispatch : JsValue -> Event)
    (req : Request) (w w' : World) (out : Completion HttpResponse)
    (evs : list Event) (options : JsValue) :
  (forall o o', dispatch o = dispatch o' -> o = o') ->
  (forall o u b, dispatch o <> EvGetContext u b) ->
  (forall o url params headers timeout, dispatch o <> EvPost url params headers timeout) ->
  JobRun env what prefix mk run dispatch req w out w' ->
  trace w' = trace w ++ evs ->
  dispatch options ∈ evs ->
  exists ctx,
    getUserTenantContext env (targetUserId req) false = inr ctx /\
    ensureTenantResources ctx = Normal tt /\
    options = mk ctx (buildJobId env prefix (Ctx.resourceId ctx)).
Proof.
  intros Hinj Hget Hpost Hrun Htr Hin.
  destruct Hrun; try (apply in_effects in Htr; subst evs).
  - assert (evs = []) as ->.
    { apply (app_inv_head (trace w)). now rewrite app_nil_r. }
    now apply elem_of_nil in Hin.
  - apply list_elem_of_singleton in Hin. now apply Hget in Hin.
  - apply list_elem_of_singleton in Hin. now apply Hget in Hin.
  - apply elem_of_cons in Hin as [Hin|Hin]; [now apply Hget in Hin|].
    apply list_elem_of_singleton in Hin. apply Hinj in Hin. eauto.
  - apply elem_of_cons in Hin as [Hin|Hin]; [now apply Hget in Hin|].
    apply elem_of_cons in Hin as [Hin|Hin]; [apply Hinj in Hin; eauto|].
    apply list_elem_of_singleton in Hin. now apply Hpost in Hin.
  - apply elem_of_cons in Hin as [Hin|Hin]; [now apply Hget in Hin|].
    apply elem_of_cons in Hin as [Hin|Hin]; [apply Hinj in Hin; eauto|].
    apply list_elem_of_singleton in Hin. now apply Hpost in Hin.
Qed.

(** X3: the tenant a job runs against is the one resolved for the route's
    tenant, or for the caller when the route names none; whatever the
    request body holds, the resourceId, userId and vectorStorePath of a
    dispatched scrape or update job are those of that context, which has
    passed the completeness guard. *)
Theorem job_bound_to_resolved_tenant (req : Request) (w w' : World)
    (out : Completion HttpResponse) (evs : list Event) (options : JsValue) :
  (startScrape env req w = (out, w') /\ EvRunScrape options ∈ evs \/
   runUpdater env req w = (out, w') /\ EvRunUpdater options ∈ evs) ->
  trace w' = trace w ++ evs ->
  exists ctx,
    getUserTenantContext env (orElse (tenantUserId req) (callerId req)) false = inr ctx /\
    present (Ctx.resourceId ctx) = true /\
    present (Ctx.vectorStorePath ctx) = true /\
    prop options "resourceId" = ofOpt (Ctx.resourceId ctx) /\
    prop options "userId" = ofOpt (Ctx.userId ctx) /\
    prop options "vectorStorePath" = ofOpt (Ctx.vectorStorePath ctx).
Proof.
  intros Hrun Htr.
  assert (Hguard : forall ctx, ensureTenantResources ctx = Normal tt ->
            present (Ctx.resourceId ctx) = true /\ present (Ctx.vectorStorePath ctx) = true).
  { intros ctx. unfold ensureTenantResources.
    destruct (present (Ctx.vectorStorePath ctx)), (present (Ctx.resourceId ctx));
      cbn; intros; try discriminate; auto. }
  destruct Hrun as [[Hrun Hin]|[Hrun Hin]].
  - apply startScrape_run in Hrun.
    destruct (JobRun_dispatch "scrape" "scrape" (scrapeOptions env req) (runTenantScrape env)
                EvRunScrape req w w' out evs options) as
      (ctx & Hc & He & ->); try assumption; try (intros; discriminate).
    { intros o o' Heq. now injection Heq. }
    destruct (Hguard ctx He). exists ctx. repeat split; assumption.
  - apply runUpdater_run in Hrun.
    destruct (JobRun_dispatch "update" "update" (updaterOptions env req) (runTenantUpdater env)
                EvRunUpdater req w w' out evs options) as
      (ctx & Hc & He & ->); try assumption; try (intros; discriminate).
    { intros o o' Heq. now injection Heq. }
    destruct (Hguard ctx He). exists ctx. repeat split; assumption.
Qed.

Lemma decimal_length (n : N) : (1 <= length (decimal n))%nat.
Proof.
  unfold decimal, ustr. rewrite length_map.
  destruct (N.to_uint n); cbn; lia.
Qed.

(** X4: truncation replaces the tail of a long stream by a marker of 23
    code units plus the digits of the count, so the reported text of a
    stream that exceeds the limit by fewer than 24 code units is longer than
    the stream itself. *)
Theorem truncation_can_lengthen (s : jsstring) :
  8192 < jslength s ->
  exists reported,
    truncateLog (JStr s) = Normal (JStr reported) /\
    jslength reported = 8192 + 23 + jslength (decimal (jslength s - 8192)) /\
    (jslength s < 8216 -> jslength s < jslength reported).
Proof.
  intros Hlong. eexists. split; [apply (truncateLog_long s Hlong)|].
  pose proof (decimal_length (jslength s - maxLength)) as Hd.
  assert (Hmark : length (ustr "... [truncated ") = 15%nat) by reflexivity.
  assert (Htail : length (ustr " chars]") = 7%nat) by reflexivity.
  assert (Hs : length (slice0 maxLength s) = N.to_nat 8192).
  { unfold slice0, maxLength. rewrite length_take. unfold jslength in Hlong. lia. }
  unfold jslength, maxLength in *.
  rewrite !length_app, Hs, Hmark, Htail. cbn [length].
  split; [lia|]. intros Hshort. lia.
Qed.

(** X5: an integer option is left undefined when the request gives nothing
    or the empty string, and is otherwise the parsed number unless that is
    NaN: the maxDepth and maxLinksPerPage a job receives are never NaN. *)
Theorem integer_options_never_nan (req : Request) (ctx : Ctx.t) (jobId : jsstring)
    (v : JsValue) (k : string) :
  parseIntegerOrUndefined JUndefined = JUndefined /\
  parseIntegerOrUndefined JNull = JUndefined /\
  parseIntegerOrUndefined (JStr []) = JUndefined /\
  (parseIntegerOrUndefined v = JUndefined \/
   exists x, parseIntegerOrUndefined v = JNum x /\ PrimFloat.is_nan x = false) /\
  (k = "maxDepth" \/ k = "maxLinksPerPage" ->
   forall x, prop (scrapeOptions env req ctx jobId) k = JNum x \/
             prop (updaterOptions env req ctx jobId) k = JNum x ->
             PrimFloat.is_nan x = false).
Proof.
  assert (Hv : forall u, parseIntegerOrUndefined u = JUndefined \/
             exists x, parseIntegerOrUndefined u = JNum x /\ PrimFloat.is_nan x = false).
  { intros u. unfold parseIntegerOrUndefined.
    destruct u as [| |b|x|[|c s]|fs]; auto;
      destruct (PrimFloat.is_nan (parseInt10 _)) eqn:Hn; eauto. }
  repeat split; try reflexivity; [apply Hv|].
  intros Hk x Hx.
  assert (Hopt : exists u, parseIntegerOrUndefined u = JNum x).
  { destruct Hk as [-> | ->]; destruct Hx as [Hx|Hx]; cbn in Hx; eauto. }
  destruct Hopt as (u & Hu). destruct (Hv u) as [Hund|(y & Hy & Hnan)]; congruence.
Qed.

End JobGuards.

Lemma foreign_tenant_denied_witness :
  runHandler (@startScrape exampleRuntime exampleEnv foreignRequest) exampleWorld
    = (Responded (accessDenied "scrape"), exampleWorld) /\
  runHandler (@runUpdater exampleRuntime exampleEnv foreignRequest) exampleWorld
    = (Responded (accessDenied "update"), exampleWorld).
Proof.
  destruct (@foreign_tenant_denied exampleRuntime exampleEnv foreignRequest (ustr "u1")
              exampleWorld) as (Hscrape & Hupdate & _);
    [reflexivity | reflexivity | discriminate | discriminate |].
  split; [exact Hscrape | exact Hupdate].
Defined.

Lemma failed_job_reported_witness :
  exists r options,
    runHandler (@startScrape exampleRuntime failingJobEnv scrapeRequest) exampleWorld
      = (Responded r,
         record exampleWorld [EvGetContext (ustr "u1") false; EvRunScrape options]) /\
    status r = JNum 502 /\
    bodyProp r "success" = JBool false.
Proof.
  destruct (@failed_job_reported exampleRuntime failingJobEnv scrapeRequest exampleContext
              crawlFailed exampleWorld) as (Hscrape & _ & Hok & _ & Hstatus);
    try (vm_compute; reflexivity).
  eexists _, _. split; [apply Hscrape; reflexivity|].
  split; [rewrite Hstatus; reflexivity | exact Hok].
Defined.

Lemma job_bound_to_resolved_tenant_witness :
  exists out w' options,
    @startScrape exampleRuntime exampleEnv scrapeRequest exampleWorld = (out, w') /\
    trace w' = [EvGetContext (ustr "u1") false; EvRunScrape options;
                refreshPost exampleEnv exampleContext] /\
    prop options "resourceId" = JStr (ustr "acme_7f3a") /\
    prop options "vectorStorePath" = JStr (ustr "/stores/acme_7f3a").
Proof.
  destruct (@startScrape exampleRuntime exampleEnv scrapeRequest exampleWorld)
    as [out w'] eqn:Hrun.
  pose (options := @scrapeOptions exampleRuntime exampleEnv scrapeRequest exampleContext
                     (buildJobId exampleEnv "scrape" (Some (ustr "acme_7f3a")))).
  assert (Htrace : trace w' = trace exampleWorld ++
            [EvGetContext (ustr "u1") false; EvRunScrape options;
             refreshPost exampleEnv exampleContext]).
  { pose proof Hrun as Hval. vm_compute in Hval. injection Hval as _ <-.
    vm_compute. reflexivity. }
  exists out, w', options. split; [reflexivity|]. split; [exact Htrace|].
  destruct (@job_bound_to_resolved_tenant exampleRuntime exampleEnv scrapeRequest
              exampleWorld w' out
              [EvGetContext (ustr "u1") false; EvRunScrape options;
               refreshPost exampleEnv exampleContext] options)
    as (ctx & Hctx & _ & _ & Hrid & _ & Hpath).
  - left. split; [exact Hrun|].
    apply elem_of_cons. right. apply elem_of_cons. now left.
  - exact Htrace.
  - injection Hctx as <-. split; [exact Hrid | exact Hpath].
Defined.

Lemma truncation_can_lengthen_witness :
  exists reported,
    @truncateLog exampleRuntime (JStr (repeat 0x61 (N.to_nat 8200))) = Normal (JStr reported) /\
    jslength reported = 8216.
Proof.
  destruct (@truncation_can_lengthen exampleRuntime (repeat 0x61 (N.to_nat 8200)))
    as (reported & Hrep & Hlen & _).
  - vm_compute. reflexivity.
  - exists reported. split; [exact Hrep|]. rewrite Hlen. vm_compute. reflexivity.
Defined.

(** ** Further properties of the user and auth controllers *)

Lemma keys_deleteKey (k : string) (fields : list (string * JsValue)) :
  k ∉ keys (deleteKey k fields).
Proof.
  unfold keys, deleteKey. intros Hin.
  apply list_elem_of_fmap in Hin as ([k' v] & Hk & Hin). cbn in Hk. subst k'.
  apply list_elem_of_In, filter_In in Hin as [_ Hneq]. cbn in Hneq.
  now rewrite String.eqb_refl in Hneq.
Qed.

Lemma keys_deleteKey_subset (k : string) (fields : list (string * JsValue)) :
  keys (deleteKey k fields) ⊆ keys fields.
Proof.
  unfold keys, deleteKey. intros k' Hin.
  apply list_elem_of_fmap in Hin as (kv & -> & Hin).
  apply list_elem_of_In, filter_In in Hin as [Hin _].
  apply list_elem_of_fmap. exists kv. split; [reflexivity|]. now apply list_elem_of_In.
Qed.

Section AccountGuards.
Context `{JsRuntime} (env : Env).


(** X7: updateMe and updateUser touch the target document only: every other
    document and every other tenant's cached context is what it was, no
    document appears or disappears, and a run that does not answer 200
    leaves the collection and the cache untouched. *)
Theorem update_touches_only_target (req : Request) (target : jsstring) (w w' : World)
    (res : HandlerResult) :
  runHandler (updateMe env req) w = (res, w') /\ target = callerId req \/
  runHandler (updateUser env req) w = (res, w') /\ target = paramId req ->
  (forall id, id <> target ->
     users w' !! id = users w !! id /\ cache w' !! id = cache w !! id) /\
  (forall id, is_Some (users w' !! id) <-> is_Some (users w !! id)) /\
  (notStatus 200 res -> users w' = users w /\ cache w' = cache w).
Proof.
  intros Hrun.
  assert (Hu : exists allowed, UpdateRun env target allowed w res w').
  { destruct Hrun as [[Hrun ->]|[Hrun ->]].
    - eexists. now apply updateMe_run.
    - eexists. now apply updateUser_run. }
  destruct Hu as (allowed & Hu).
  destruct Hu as [res pre Hpre Hres|res pre ups Hpre Hkeys Hres
                 |r pre ups d0 d1 Hpre Hkeys Hd0 Hset Hst].
  - repeat split; auto.
  - repeat split; auto.
  - split; [|split].
    + intros id Hid. cbn. split.
      * now apply lookup_insert_ne.
      * now apply lookup_delete_ne.
    + intros id. cbn. destruct (decide (id = target)) as [->|Hid].
      * rewrite lookup_insert_eq, Hd0. split; eauto.
      * now rewrite lookup_insert_ne by congruence.
    + intros Hres. now destruct (Hres r eq_refl).
Qed.

(** X8: createUser answers 403 to a caller whose role is not admin before
    it reads the body or touches the collection. *)
Theorem only_admins_create_users (req : Request) (w : World) :
  callerRole req <> ustr "admin" ->
  runHandler (createUser env req) w =
    (Responded (json 403 (errorBody "Only administrators can create users")), w).
Proof.
  intros Hrole. unfold createUser. crun. unfold strEq.
  now rewrite (bool_decide_eq_false_2 _ Hrole).
Qed.

(** X9: registerUser signs the token after the save: whenever a token is
    signed the new account is already stored under its fresh id, whatever
    is answered afterwards; a run whose signing fails answers an error and
    still leaves the account in the collection. *)
Theorem register_signs_after_save (req : Request) (w w' : World) (res : HandlerResult)
    (evs : list Event) (payload : JsValue) :
  runHandler (registerUser env req) w = (res, w') ->
  trace w' = trace w ++ evs ->
  EvSign payload ∈ evs ->
  is_Some (users w' !! newObjectId env) /\
  (exists pre, evs = pre ++ [EvSave (newObjectId env); EvSign payload]) /\
  (forall id, id <> newObjectId env -> users w' !! id = users w !! id).
Proof.
  intros Hrun Htr Hin. apply registerUser_run in Hrun.
  destruct Hrun as [res pre Hpre Hres|pre u e0 Hpre Hprov
                   |res pre u resources Hpre Hprov Hres
                   |res pre u resources fields post Hpre Hprov Hshape Hres Hpost].
  - apply effects_record in Htr. subst evs.
    apply (lookups_no_write _ _ Hpre) in Hin. discriminate.
  - apply effects_record in Htr. subst evs.
    apply elem_of_app in Hin as [Hin|Hin].
    + apply (lookups_no_write _ _ Hpre) in Hin. discriminate.
    + apply list_elem_of_singleton in Hin. discriminate.
  - apply effects_record in Htr. subst evs.
    apply elem_of_app in Hin as [Hin|Hin].
    + apply (lookups_no_write _ _ Hpre) in Hin. discriminate.
    + apply elem_of_cons in Hin as [Hin|Hin]; [discriminate|].
      apply list_elem_of_singleton in Hin. discriminate.
  - cbn [trace] in Htr. apply app_inv_head in Htr. subst evs.
    apply elem_of_app in Hin as [Hin|Hin].
    { apply (lookups_no_write _ _ Hpre) in Hin. discriminate. }
    apply elem_of_cons in Hin as [Hin|Hin]; [discriminate|].
    apply elem_of_cons in Hin as [Hin|Hin]; [discriminate|].
    destruct Hpost as [->|(payload' & ->)]; [now apply elem_of_nil in Hin|].
    apply list_elem_of_singleton in Hin. injection Hin as ->.
    split; [cbn; rewrite lookup_insert_eq; eauto|].
    split.
    + exists (pre ++ [EvProvision (newObjectId env) u]). cbn.
      now rewrite <- app_assoc.
    + intros id Hid. cbn. now apply lookup_insert_ne.
Qed.

(** X10: no profile read hands out the password: the object toSafeUser
    builds for a document has no password key, carries the document id as
    [id], and has no vectorStorePath key unless the caller asked for it;
    getMe answers a stored caller with exactly that object, getUserById
    wraps it under [user], and every 200 answer of either is such an
    object. *)
Theorem profiles_never_expose_password (req : Request) (w w' : World) (r : HttpResponse)
    (id : jsstring) (d : Doc.t) (includeVectorStore : bool) :
  (exists fields,
     toSafeUser (Some (id, d)) includeVectorStore = JObj fields /\
     ("password" ∉ keys fields) /\
     assoc "id" fields = JStr id /\
     (includeVectorStore = false -> "vectorStorePath" ∉ keys fields)) /\
  (dbFault env (record w [EvFindById (callerId req)]) (EvFindById (callerId req)) = None ->
   users w !! callerId req = Some d ->
   runHandler (getMe env req) w =
     (Responded (mkResponse (JNum 200) (toSafeUser (Some (callerId req, d)) true)),
      record w [EvFindById (callerId req)])) /\
  (runHandler (getMe env req) w = (Responded r, w') -> status r = JNum 200 ->
   exists fields,
     body r = JObj fields /\ ("password" ∉ keys fields) /\
     assoc "id" fields = JStr (callerId req)) /\
  (runHandler (getUserById env req) w = (Responded r, w') -> status r = JNum 200 ->
   exists fields,
     bodyProp r "user" = JObj fields /\ ("password" ∉ keys fields) /\
     assoc "id" fields = JStr (paramId req)).
Proof.
  assert (Hsafe : forall i x vs, exists fields,
            toSafeUser (Some (i, x)) vs = JObj fields /\
            ("password" ∉ keys fields) /\
            assoc "id" fields = JStr i /\
            (vs = false -> "vectorStorePath" ∉ keys fields)).
  { intros i x vs. unfold toSafeUser. eexists. split; [reflexivity|].
    set (safe := deleteKey "password" (toObject i x)).
    assert (Hpw : "password" ∉ keys safe) by apply keys_deleteKey.
    split; [|split].
    - intros Hin. apply keys_setProp in Hin.
      apply elem_of_cons in Hin as [Hin|Hin]; [discriminate|].
      destruct vs; cbn [negb] in Hin.
      + now apply Hpw.
      + apply keys_deleteKey_subset in Hin. now apply Hpw.
    - rewrite assoc_setProp_same. destruct vs; reflexivity.
    - intros ->. cbn [negb]. intros Hin. apply keys_setProp in Hin.
      apply elem_of_cons in Hin as [Hin|Hin]; [discriminate|].
      now apply keys_deleteKey in Hin. }
  split; [apply Hsafe|]. split; [|split].
  - intros Hfault Hd. unfold getMe. crun. unfold record in Hfault.
    rewrite Hfault. cbn [users cache trace]. now rewrite Hd.
  - unfold getMe. crun. intros Hrun Hst.
    destruct (dbFault env _ _); [simplify_eq; discriminate|].
    cbn [users cache trace] in Hrun.
    destruct (users w !! callerId req) as [x|]; [|simplify_eq; discriminate].
    simplify_eq. cbn [body].
    destruct (Hsafe (callerId req) x true) as (fields & Heq & Hpw & Hid & _).
    exists fields. split; [rewrite <- Heq; reflexivity | now split].
  - unfold getUserById. crun. intros Hrun Hst.
    destruct (dbFault env _ _); [simplify_eq; discriminate|].
    cbn [users cache trace] in Hrun.
    destruct (users w !! paramId req) as [x|]; [|simplify_eq; discriminate].
    destruct (notOwnedBy req x); [simplify_eq; discriminate|].
    destruct (notSelf req (paramId req)); [simplify_eq; discriminate|].
    simplify_eq.
    destruct (Hsafe (paramId req) x true) as (fields & Heq & Hpw & Hid & _).
    exists fields. split; [rewrite <- Heq; reflexivity | now split].
Qed.

(** X11: normalizeBoolean agrees with toBooleanOrUndefined wherever the
    latter recognises a flag, reads a number as [value !== 0] (so NaN counts
    as true), and falls back to the default, or to true without one, on
    everything else. *)
Theorem normalizeBoolean_extends_flag_parsing (v defaultValue : JsValue) :
  (forall b, toBooleanOrUndefined v = JBool b -> normalizeBoolean v defaultValue = b) /\
  (forall x, v = JNum x -> normalizeBoolean v defaultValue = negb (PrimFloat.eqb x 0)) /\
  normalizeBoolean (JNum PrimFloat.nan) defaultValue = true /\
  (toBooleanOrUndefined v = JUndefined -> (forall x, v <> JNum x) ->
   normalizeBoolean v defaultValue =
     match defaultValue with JUndefined => true | _ => truthy defaultValue end).
Proof.
  split; [|split; [|split]].
  - intros b. destruct v as [| |b0|x|s|fs]; cbn; try discriminate.
    + intros Heq. now injection Heq.
    + destruct (includes positiveForms _); [intros Heq; now injection Heq|].
      destruct (includes negativeForms _); [intros Heq; now injection Heq|discriminate].
  - intros x ->. reflexivity.
  - reflexivity.
  - intros Hund Hnum. destruct v as [| |b0|x|s|fs]; cbn in *; try reflexivity;
      try discriminate.
    + now destruct (Hnum x).
    + destruct (includes positiveForms _); [discriminate|].
      destruct (includes negativeForms _); [discriminate|reflexivity].
Qed.

End AccountGuards.

Section ProfileBindings.
Context `{JsRuntime} (env : Env).

Lemma setPath_bindings (k : string) (v : JsValue) (d d' : Doc.t) :
  k ∈ ["name"; "email"; "username"; "isActive"; "password"] ->
  setPath k v d = Some d' ->
  bindings d' = bindings d /\ (k <> "isActive" -> Doc.isActive d' = Doc.isActive d).
Proof.
  intros Hk Hset.
  repeat (apply elem_of_cons in Hk as [->|Hk]); [..|now apply elem_of_nil in Hk];
    unfold setPath in Hset; cbn in Hset;
    try (destruct (castString v) as [s|]; cbn in Hset; [|discriminate]);
    try (destruct v; try discriminate);
    injection Hset as <-; destruct d; split; try reflexivity; try (intros; congruence).
Qed.

Lemma applySet_bindings (updates : list (string * JsValue)) (d d' : Doc.t) :
  keys updates ⊆ ["name"; "email"; "username"; "isActive"; "password"] ->
  applySet updates d = Some d' ->
  bindings d' = bindings d /\
  ("isActive" ∉ keys updates -> Doc.isActive d' = Doc.isActive d).
Proof.
  revert d. induction updates as [|[k v] rest IH]; intros d Hkeys; cbn.
  - intros Heq. now simplify_eq.
  - assert (Hk : k ∈ ["name"; "email"; "username"; "isActive"; "password"]).
    { apply Hkeys. cbn. apply list_elem_of_here. }
    assert (Hrest : keys rest ⊆ ["name"; "email"; "username"; "isActive"; "password"]).
    { intros x Hx. apply Hkeys. cbn. now apply list_elem_of_further. }
    unfold immutablePath.
    destruct (String.eqb_spec k "resourceId") as [->|Hne].
    { repeat (apply elem_of_cons in Hk as [Hk|Hk]; [discriminate|]).
      now apply elem_of_nil in Hk. }
    destruct (setPath k v d) as [d1|] eqn:Hset; cbn; [|discriminate].
    intros Happ. destruct (IH d1 Hrest Happ) as [Hb Ha].
    destruct (setPath_bindings k v d d1 Hk Hset) as [Hb1 Ha1].
    split; [congruence|].
    intros Hnot. rewrite Ha, Ha1; [reflexivity| |].
    + intros ->. apply Hnot. apply list_elem_of_here.
    + intros Hin. apply Hnot. now apply list_elem_of_further.
Qed.

Lemma setTimestamps_bindings (c u : JsValue) (d : Doc.t) :
  bindings (setTimestamps c u d) = bindings d /\
  Doc.isActive (setTimestamps c u d) = Doc.isActive d.
Proof. now destruct d. Qed.

(** X12: no profile update changes what an account is bound to: after
    updateMe or updateUser the target's role, owner, resourceId,
    databaseUri, endpoints and vectorStorePath are what they were, and
    updateMe leaves its isActive flag alone as well. *)
Theorem profile_updates_keep_bindings (req : Request) (w w' : World) (res : HandlerResult)
    (target : jsstring) (d d' : Doc.t) :
  users w !! target = Some d ->
  users w' !! target = Some d' ->
  (runHandler (updateMe env req) w = (res, w') ->
   target = callerId req ->
   bindings d' = bindings d /\ Doc.isActive d' = Doc.isActive d) /\
  (runHandler (updateUser env req) w = (res, w') ->
   target = paramId req ->
   bindings d' = bindings d).
Proof.
  intros Hd Hd'.
  assert (Hgen : forall allowed,
            allowed ⊆ ["name"; "email"; "username"; "isActive"; "password"] ->
            UpdateRun env target allowed w res w' ->
            bindings d' = bindings d /\
            ("isActive" ∉ allowed -> Doc.isActive d' = Doc.isActive d)).
  { intros allowed Hallowed Hu.
    destruct Hu as [res pre Hpre Hres|res pre ups Hpre Hkeys Hres
                   |r pre ups d0 d1 Hpre Hkeys Hd0 Hset Hst].
    - cbn in Hd'. split; intros; congruence.
    - cbn in Hd'. split; intros; congruence.
    - cbn in Hd'. rewrite lookup_insert_eq in Hd'. simplify_eq.
      destruct (setTimestamps_bindings (Doc.createdAt d1) (now env) d1) as [Hb Ha].
      destruct (applySet_bindings ups d d1) as [Hb1 Ha1]; [set_solver|assumption|].
      split; [congruence|]. intros Hnot. rewrite Ha, Ha1; [reflexivity|set_solver]. }
  split.
  - intros Hrun ->. apply updateMe_run in Hrun.
    destruct (Hgen ["name"; "email"; "username"; "password"]) as [Hb Ha];
      [set_solver | exact Hrun |]. split; [exact Hb|].
    apply Ha. intros Hin.
    repeat (apply elem_of_cons in Hin as [Hin|Hin]; [discriminate|]).
    now apply elem_of_nil in Hin.
  - intros Hrun ->. apply updateUser_run in Hrun.
    destruct (Hgen ["name"; "email"; "username"; "isActive"; "password"]) as [Hb _];
      [set_solver | exact Hrun | exact Hb].
Qed.

(** X13: getUserById only looks the document up; it answers 200 with the
    safe form of a stored document to an admin who owns it (or when it names
    no owner) and to a member who is that document, and to nobody else among
    admins and members. *)
Theorem getUserById_guarded (req : Request) (w w' : World) (res : HandlerResult) :
  runHandler (getUserById env req) w = (res, w') ->
  w' = record w [EvFindById (paramId req)] /\
  (forall r, res = Responded r -> status r = JNum 200 ->
     exists d,
       users w !! paramId req = Some d /\
       r = json 200 [("user", toSafeUser (Some (paramId req, d)) true)] /\
       (callerRole req = ustr "admin" ->
        Doc.adminId d = None \/ Doc.adminId d = Some (callerId req)) /\
       (callerRole req = ustr "user" -> paramId req = callerId req)) /\
  (forall d,
     dbFault env (record w [EvFindById (paramId req)]) (EvFindById (paramId req)) = None ->
     users w !! paramId req = Some d ->
     (callerRole req = ustr "admin" /\
      (Doc.adminId d = None \/ Doc.adminId d = Some (callerId req)) \/
      callerRole req = ustr "user" /\ paramId req = callerId req) ->
     res = Responded (json 200 [("user", toSafeUser (Some (paramId req, d)) true)])).
Proof.
  unfold getUserById. crun. intros Hrun.
  split; [|split].
  - destruct (dbFault env _ _); [now simplify_eq|].
    cbn [users cache trace] in Hrun.
    repeat (case_match; simplify_eq); reflexivity.
  - intros r -> Hst.
    destruct (dbFault env _ _); [simplify_eq; discriminate|].
    cbn [users cache trace] in Hrun.
    destruct (users w !! paramId req) as [d|] eqn:Hd; [|simplify_eq; discriminate].
    destruct (notOwnedBy req d) eqn:Hown; [simplify_eq; discriminate|].
    destruct (notSelf req (paramId req)) eqn:Hself; [simplify_eq; discriminate|].
    simplify_eq.
    exists d. split; [reflexivity|]. split; [reflexivity|]. split.
    + intros Hadmin. unfold notOwnedBy, strEq in Hown.
      rewrite bool_decide_eq_true_2 in Hown by exact Hadmin. cbn in Hown.
      destruct (Doc.adminId d) as [a|]; [right|now left].
      apply negb_false_iff, bool_decide_eq_true_1 in Hown. now subst.
    + intros Huser. unfold notSelf, strEq in Hself.
      rewrite bool_decide_eq_true_2 in Hself by exact Huser. cbn in Hself.
      now apply negb_false_iff, bool_decide_eq_true_1 in Hself.
  - intros d Hfault Hd Hmay. unfold record in Hfault. rewrite Hfault in Hrun.
    cbn [users cache trace] in Hrun. rewrite Hd in Hrun.
    assert (Hown : notOwnedBy req d = false).
    { unfold notOwnedBy, strEq. destruct Hmay as [[Hrole Hadm]|[Hrole _]].
      - rewrite (bool_decide_eq_true_2 _ Hrole). cbn.
        destruct Hadm as [->| ->]; [reflexivity|].
        now rewrite bool_decide_eq_true_2.
      - rewrite bool_decide_eq_false_2; [reflexivity|].
        rewrite Hrole. intros Heq. vm_compute in Heq. discriminate. }
    assert (Hself : notSelf req (paramId req) = false).
    { unfold notSelf, strEq. destruct Hmay as [[Hrole _]|[Hrole Hid]].
      - rewrite bool_decide_eq_false_2; [reflexivity|].
        rewrite Hrole. intros Heq. vm_compute in Heq. discriminate.
      - rewrite (bool_decide_eq_true_2 _ Hrole). cbn.
        now rewrite bool_decide_eq_true_2. }
    rewrite Hown, Hself in Hrun. now simplify_eq.
Qed.

End ProfileBindings.

Section LoginGuards.
Context `{JsRuntime} (env : Env).


End LoginGuards.


Lemma update_touches_only_target_witness :
  exists res w' d',
    runHandler (@updateUser exampleRuntime exampleEnv renameRequest) exampleWorld = (res, w') /\
    users w' !! ustr "u2" = Some d' /\
    Doc.name d' = Some (ustr "Robert") /\
    users w' !! ustr "u1" = Some adminDoc.
Proof.
  destruct (runHandler (@updateUser exampleRuntime exampleEnv renameRequest) exampleWorld)
    as [res w'] eqn:Hrun.
  destruct (@update_touches_only_target exampleRuntime exampleEnv renameRequest (ustr "u2")
              exampleWorld w' res (or_intror (conj Hrun eq_refl))) as (Hothers & _ & _).
  destruct (Hothers (ustr "u1")) as [Hadmin _]; [discriminate|].
  vm_compute in Hrun. injection Hrun as _ <-.
  eexists _, _, _. split; [reflexivity|].
  split; [vm_compute; reflexivity|]. split; [vm_compute; reflexivity|].
  rewrite Hadmin. vm_compute. reflexivity.
Defined.

Lemma only_admins_create_users_witness :
  runHandler (@createUser exampleRuntime exampleEnv memberCreateRequest) exampleWorld =
    (Responded (json 403 (errorBody "Only administrators can create users")), exampleWorld).
Proof.
  apply (@only_admins_create_users exampleRuntime exampleEnv memberCreateRequest exampleWorld).
  discriminate.
Defined.

Lemma register_signs_after_save_witness :
  exists res w' payload,
    runHandler (@registerUser exampleRuntime exampleEnv registerRequest) exampleWorld
      = (res, w') /\
    EvSign payload ∈ trace w' /\
    is_Some (users w' !! ustr "u9").
Proof.
  destruct (runHandler (@registerUser exampleRuntime exampleEnv registerRequest) exampleWorld)
    as [res w'] eqn:Hrun.
  assert (Hsigned : exists payload, EvSign payload ∈ trace w').
  { pose proof Hrun as Hval. vm_compute in Hval. injection Hval as _ <-.
    eexists. cbn [trace].
    repeat first [apply list_elem_of_here | apply list_elem_of_further]. }
  destruct Hsigned as (payload & Hsigned).
  exists res, w', payload. split; [reflexivity|]. split; [exact Hsigned|].
  apply (@register_signs_after_save exampleRuntime exampleEnv registerRequest exampleWorld w'
           res (trace w') payload Hrun eq_refl Hsigned).
Defined.

Lemma profile_updates_keep_bindings_witness :
  exists res w' d',
    runHandler (@updateMe exampleRuntime exampleEnv emailChangeRequest) exampleWorld = (res, w') /\
    users w' !! ustr "u2" = Some d' /\
    Doc.email d' = Some (ustr "bob@acme.example") /\
    Doc.updatedAt d' = JStr (ustr "2024-05-01T10:00:00.000Z") /\
    bindings d' = bindings memberDoc.
Proof.
  destruct (runHandler (@updateMe exampleRuntime exampleEnv emailChangeRequest) exampleWorld)
    as [res w'] eqn:Hrun.
  assert (Hd' : exists d', users w' !! ustr "u2" = Some d' /\
                           Doc.email d' = Some (ustr "bob@acme.example") /\
                           Doc.updatedAt d' = JStr (ustr "2024-05-01T10:00:00.000Z")).
  { pose proof Hrun as Hval. vm_compute in Hval. injection Hval as _ <-.
    eexists. split; [vm_compute; reflexivity|]. split; reflexivity. }
  destruct Hd' as (d' & Hd' & Hemail & Hupdated).
  exists res, w', d'. split; [reflexivity|]. split; [exact Hd'|].
  split; [exact Hemail|]. split; [exact Hupdated|].
  destruct (@profile_updates_keep_bindings exampleRuntime exampleEnv emailChangeRequest
              exampleWorld w' res (ustr "u2") memberDoc d') as [Hme _].
  - vm_compute. reflexivity.
  - exact Hd'.
  - destruct (Hme Hrun eq_refl) as [Hb _]. exact Hb.
Defined.

Lemma getUserById_guarded_witness :
  exists w',
    runHandler (getUserById exampleEnv memberRequest) exampleWorld =
      (Responded (json 200 [("user", toSafeUser (Some (ustr "u2", memberDoc)) true)]), w') /\
    users w' = users exampleWorld.
Proof.
  destruct (runHandler (getUserById exampleEnv memberRequest) exampleWorld)
    as [res w'] eqn:Hrun.
  destruct (getUserById_guarded exampleEnv memberRequest exampleWorld w' res Hrun)
    as (-> & _ & Hanswer).
  rewrite (Hanswer memberDoc).
  - eexists. split; reflexivity.
  - reflexivity.
  - vm_compute. reflexivity.
  - left. split; [reflexivity|]. right. reflexivity.
Defined.


(** ** Account creation and tenant resources *)

Section AccountCreation.
Context `{JsRuntime} (env : Env).

Lemma setString_adminId (k : string) (v : option jsstring) (d : Doc.t) :
  k <> "adminId" -> Doc.adminId (setString k v d) = Doc.adminId d.
Proof.
  intros Hk. destruct d. unfold setString.
  repeat case_match; try reflexivity.
  match goal with Hx : String.eqb k "adminId" = true |- _ =>
    apply String.eqb_eq in Hx; contradiction end.
Qed.

Lemma setPath_adminId (k : string) (v : JsValue) (d d' : Doc.t) :
  k <> "adminId" -> setPath k v d = Some d' -> Doc.adminId d' = Doc.adminId d.
Proof.
  intros Hk. unfold setPath.
  destruct (String.eqb k "isActive").
  - destruct v; try discriminate. intros Heq. simplify_eq. now destruct d.
  - destruct (castString v) as [s|]; cbn; [|discriminate].
    intros Heq. simplify_eq. now apply setString_adminId.
Qed.

Lemma docSet_adminId (fields : list (string * JsValue)) (d : Doc.t) :
  "adminId" ∉ keys fields -> Doc.adminId (docSet fields d) = Doc.adminId d.
Proof.
  revert d. induction fields as [|[k v] rest IH]; intros d Hk; cbn; [reflexivity|].
  rewrite IH.
  - destruct (setPath k v d) as [d1|] eqn:Hset; cbn; [|reflexivity].
    apply (setPath_adminId k v); [|exact Hset].
    intros ->. apply Hk. cbn. apply list_elem_of_here.
  - intros Hin. apply Hk. cbn. now apply list_elem_of_further.
Qed.

Lemma setTimestamps_adminId (c u : JsValue) (d : Doc.t) :
  Doc.adminId (setTimestamps c u d) = Doc.adminId d /\
  Doc.createdAt (setTimestamps c u d) = c /\
  Doc.updatedAt (setTimestamps c u d) = u.
Proof. now destruct d. Qed.

(** X15: an account that createUser stores under the fresh id names the
    caller as its owner, and one that registerUser stores names no owner,
    unless provisioning itself sets adminId; so the creating admin passes
    the ownership guard of getUserById, updateUser and deleteUser on it.
    Either is stamped with the time of the save and added to the documents
    already there. *)
Theorem created_account_owner (req : Request) (w w' : World) (res : HandlerResult)
    (d : Doc.t) :
  users w !! newObjectId env = None ->
  users w' !! newObjectId env = Some d ->
  (runHandler (createUser env req) w = (res, w') ->
   exists username resources,
     provisionResourcesForUser env (newObjectId env) username = inr resources /\
     users w' = <[newObjectId env := d]> (users w) /\
     Doc.createdAt d = now env /\ Doc.updatedAt d = now env /\
     ("adminId" ∉ keys resources ->
      Doc.adminId d = Some (callerId req) /\
      forall req', callerId req' = callerId req -> notOwnedBy req' d = false)) /\
  (runHandler (registerUser env req) w = (res, w') ->
   exists username resources,
     provisionResourcesForUser env (newObjectId env) username = inr resources /\
     users w' = <[newObjectId env := d]> (users w) /\
     Doc.createdAt d = now env /\ Doc.updatedAt d = now env /\
     ("adminId" ∉ keys resources ->
      Doc.adminId d = None /\ forall req', notOwnedBy req' d = false)).
Proof.
  intros Hfresh Hd.
  assert (Hgen : forall shape, CreateRun env shape w res w' ->
            exists username resources fields,
              provisionResourcesForUser env (newObjectId env) username = inr resources /\
              shape fields /\
              d = setTimestamps (now env) (now env) (docSet resources (newUser fields)) /\
              users w' = <[newObjectId env := d]> (users w)).
  { intros shape Hrun.
    destruct Hrun as [res pre Hpre Hres|pre u e0 Hpre Hprov
                     |res pre u resources Hpre Hprov Hres
                     |res pre u resources fields post Hpre Hprov Hshape Hres Hpost];
      cbn [users record] in Hd; try congruence.
    rewrite lookup_insert_eq in Hd. injection Hd as <-.
    exists u, resources, fields. repeat split; assumption. }
  split; intros Hrun.
  - apply createUser_run, Hgen in Hrun.
    destruct Hrun as (u & resources & fields & Hprov & Hshape & -> & Husers).
    destruct Hshape as (name & email & username & hashed & isActive & ->).
    destruct (setTimestamps_adminId (now env) (now env)
                (docSet resources (newUser (createFields req name email username hashed
                                              isActive)))) as (Hadm & Hc & Hu).
    exists u, resources. split; [exact Hprov|]. split; [exact Husers|].
    split; [exact Hc|]. split; [exact Hu|].
    intros Hkeys.
    assert (Hown : Doc.adminId
                     (setTimestamps (now env) (now env)
                        (docSet resources (newUser (createFields req name email username
                                                      hashed isActive))))
                   = Some (callerId req)).
    { rewrite Hadm, docSet_adminId by exact Hkeys. reflexivity. }
    split; [exact Hown|].
    intros req' Hsame. unfold notOwnedBy. rewrite Hown, Hsame. unfold strEq.
    rewrite (bool_decide_eq_true_2 (callerId req = callerId req)) by reflexivity.
    now rewrite andb_false_r.
  - apply registerUser_run, Hgen in Hrun.
    destruct Hrun as (u & resources & fields & Hprov & Hshape & -> & Husers).
    destruct Hshape as (name & email & username & hashed & ->).
    destruct (setTimestamps_adminId (now env) (now env)
                (docSet resources (newUser (registerFields name email username hashed))))
      as (Hadm & Hc & Hu).
    exists u, resources. split; [exact Hprov|]. split; [exact Husers|].
    split; [exact Hc|]. split; [exact Hu|].
    intros Hkeys.
    assert (Hown : Doc.adminId
                     (setTimestamps (now env) (now env)
                        (docSet resources (newUser (registerFields name email username
                                                      hashed))))
                   = None).
    { rewrite Hadm, docSet_adminId by exact Hkeys. reflexivity. }
    split; [exact Hown|].
    intros req'. unfold notOwnedBy. rewrite Hown. now rewrite andb_false_r.
Qed.

Lemma findAll_username (us : gmap jsstring Doc.t) (id username : jsstring) (d : Doc.t) :
  us !! id = Some d ->
  Doc.username d = Some username ->
  exists found, head (findAll (mkQuery None (Some username) None None None) us) = Some found.
Proof.
  intros Hd Hname.
  assert (Hin : (id, d) ∈ findAll (mkQuery None (Some username) None None None) us).
  { unfold findAll. apply list_elem_of_In, filter_In. split.
    - apply list_elem_of_In, elem_of_map_to_list. exact Hd.
    - unfold matches. cbn. rewrite Hname.
      now rewrite bool_decide_eq_true_2. }
  destruct (findAll _ us) as [|found rest]; [now apply elem_of_nil in Hin|].
  now exists found.
Qed.

(** X16: a username some stored account already has is refused by createUser
    and by registerUser with 400 right after the two duplicate lookups:
    no password is hashed, nothing is provisioned and nothing is saved. *)
Theorem taken_username_refused (req : Request) (w : World) (email username name id : jsstring)
    (d : Doc.t) :
  callLowerTrim (assoc "email" (reqBody req)) = Normal email ->
  callTrim (assoc "username" (reqBody req)) = Normal username ->
  callTrim (assoc "name" (reqBody req)) = Normal name ->
  (forall w0 ev, dbFault env w0 ev = None) ->
  users w !! id = Some d ->
  Doc.username d = Some username ->
  let taken := mkQuery None (Some username) None None None in
  (callerRole req = ustr "admin" ->
   exists r,
     runHandler (createUser env req) w =
       (Responded r,
        record w [EvFindOne (mkQuery (Some email) None (Some (Some (callerId req))) None None);
                  EvFindOne taken]) /\
     status r = JNum 400) /\
  (exists r,
     runHandler (registerUser env req) w =
       (Responded r,
        record w [EvFindOne (mkQuery (Some email) None None (Some (ustr "admin")) None);
                  EvFindOne taken]) /\
     status r = JNum 400).
Proof.
  intros Hemail Husername Hname Hfault Hd Hstored taken.
  destruct (findAll_username (users w) id username d Hd Hstored) as (found & Hfound).
  split.
  - intros Hrole. unfold createUser. crun. unfold strEq.
    rewrite (bool_decide_eq_true_2 _ Hrole). cbn [negb].
    rewrite Hemail, Husername, Hname. cbn [users cache trace].
    rewrite !Hfault. cbn [users cache trace fst snd].
    destruct (head (findAll (mkQuery (Some email) None (Some (Some (callerId req))) None None)
                      (users w))) as [clash|].
    + rewrite (bool_decide_eq_true_2 (is_Some (Some clash))) by eauto.
      cbn [users cache trace]. repeat rewrite <- app_assoc. cbn [app].
      eexists. split; reflexivity.
    + rewrite (bool_decide_eq_false_2 (is_Some None)) by (intros [? ?]; discriminate).
      cbn [users cache trace]. rewrite Hfound.
      rewrite (bool_decide_eq_true_2 (is_Some (Some found))) by eauto.
      cbn [users cache trace]. repeat rewrite <- app_assoc. cbn [app].
      eexists. split; reflexivity.
  - unfold registerUser. crun.
    rewrite Hemail, Husername, Hname. cbn [users cache trace].
    rewrite !Hfault. cbn [users cache trace fst snd].
    destruct (head (findAll (mkQuery (Some email) None None (Some (ustr "admin")) None)
                      (users w))) as [clash|].
    + rewrite (bool_decide_eq_true_2 (is_Some (Some clash))) by eauto.
      cbn [users cache trace]. repeat rewrite <- app_assoc. cbn [app].
      eexists. split; reflexivity.
    + rewrite (bool_decide_eq_false_2 (is_Some None)) by (intros [? ?]; discriminate).
      cbn [users cache trace]. rewrite Hfound.
      rewrite (bool_decide_eq_true_2 (is_Some (Some found))) by eauto.
      cbn [users cache trace]. repeat rewrite <- app_assoc. cbn [app].
      eexists. split; reflexivity.
Qed.

(** X17: getUserResources looks at the route's id only: it resolves that
    tenant with a forced refresh, answers 200 with the context, or the
    error's statusCode (500 without one) with its message, and the answer
    is the same whoever the caller is. *)
Theorem resources_read_ignores_caller (req req' : Request) (w : World) :
  exists r,
    runHandler (getUserResources env req) w =
      (Responded r, record w [EvGetContext (paramId req) true]) /\
    (forall ctx, getUserTenantContext env (paramId req) true = inr ctx ->
       r = json 200 [("tenant", contextObject ctx)]) /\
    (forall e, getUserTenantContext env (paramId req) true = inl e ->
       status r = jsOr (errProp e "statusCode") (JNum 500) /\
       bodyProp r "error" =
         jsOr (errProp e "message") (JStr (ustr "Failed to load tenant resources"))) /\
    (paramId req' = paramId req ->
     runHandler (getUserResources env req') w = runHandler (getUserResources env req) w).
Proof.
  unfold getUserResources. crun.
  destruct (getUserTenantContext env (paramId req) true) as [e|ctx] eqn:Hctx;
    cbn [users cache trace]; eexists; (split; [reflexivity|]).
  - split; [intros; discriminate|]. split.
    + intros e0 Heq. injection Heq as <-. split; reflexivity.
    + intros ->. now rewrite Hctx.
  - split; [intros c Heq; now injection Heq as <-|]. split; [intros; discriminate|].
    intros ->. now rewrite Hctx.
Qed.

End AccountCreation.

Lemma created_account_owner_witness :
  exists res w' d,
    runHandler (@createUser exampleRuntime exampleEnv createRequest) exampleWorld = (res, w') /\
    users w' !! ustr "u9" = Some d /\
    Doc.adminId d = Some (ustr "u1") /\
    notOwnedBy memberRequest d = false.
Proof.
  destruct (runHandler (@createUser exampleRuntime exampleEnv createRequest) exampleWorld)
    as [res w'] eqn:Hrun.
  assert (Hd : exists d, users w' !! ustr "u9" = Some d).
  { pose proof Hrun as Hval. vm_compute in Hval. injection Hval as _ <-.
    eexists. vm_compute. reflexivity. }
  destruct Hd as (d & Hd).
  exists res, w', d. split; [reflexivity|]. split; [exact Hd|].
  destruct (@created_account_owner exampleRuntime exampleEnv createRequest exampleWorld w'
              res d) as [Hcreate _].
  - vm_compute. reflexivity.
  - exact Hd.
  - destruct (Hcreate Hrun) as (username & resources & Hprov & _ & _ & _ & Howner).
    injection Hprov as <-.
    assert (Hkeys : "adminId" ∉ keys exampleResources).
    { intros Hin. repeat (apply elem_of_cons in Hin as [Hin|Hin]; [discriminate|]).
      now apply elem_of_nil in Hin. }
    destruct (Howner Hkeys) as [Hadmin Hguard].
    split; [exact Hadmin | now apply Hguard].
Defined.

Lemma taken_username_refused_witness :
  exists r w',
    runHandler (@createUser exampleRuntime exampleEnv takenUsernameRequest) exampleWorld
      = (Responded r, w') /\
    status r = JNum 400 /\
    users w' = users exampleWorld.
Proof.
  destruct (@taken_username_refused exampleRuntime exampleEnv takenUsernameRequest exampleWorld
              (ustr "bobby@acme.example") (ustr "bob") (ustr "Bobby") (ustr "u2") memberDoc)
    as [Hcreate _]; try (vm_compute; reflexivity).
  destruct (Hcreate eq_refl) as (r & Hrun & Hstatus).
  eexists r, _. split; [exact Hrun|]. split; [exact Hstatus | reflexivity].
Defined.

(** ** The duplicate-username script *)

Section RenamePlan.







Lemma renamesFrom_cons (key : option jsstring) (index : nat) (user : Dup.account)
    (rest : list Dup.account) :
  renamesFrom key index (user :: rest) =
    (if (0 <? index)%nat
     then [Rename.mk (Dup.id user) key
                    (usernameText key ++ ustr "_" ++ decimal (N.of_nat (index + 1)))
                    (Dup.email user)]
     else [])
    ++ renamesFrom key (S index) rest.
Proof. reflexivity. Qed.



Lemma ustr_inj (s t : string) : ustr s = ustr t -> s = t.
Proof.
  unfold ustr. intros Heq.
  rewrite <- (String.string_of_list_ascii_of_string s),
          <- (String.string_of_list_ascii_of_string t).
  f_equal. revert Heq.
  generalize (String.list_ascii_of_string s) (String.list_ascii_of_string t).
  intros l. induction l as [|a l IH]; intros [|b l']; cbn; try discriminate; [reflexivity|].
  intros Heq. injection Heq as Hab Hrest. f_equal; [|now apply IH].
  rewrite <- (Ascii.ascii_N_embedding a), <- (Ascii.ascii_N_embedding b). now rewrite Hab.
Qed.

Lemma decimal_inj (m n : N) : decimal m = decimal n -> m = n.
Proof.
  unfold decimal. intros Heq. apply ustr_inj in Heq.
  assert (Hnil : forall k, N.to_uint k <> Decimal.Nil).
  { intros [|p]; cbn; [discriminate|]. apply DecimalPos.Unsigned.to_uint_nonnil. }
  apply (f_equal NilZero.uint_of_string) in Heq.
  rewrite !NilZero.usu in Heq by apply Hnil.
  injection Heq as Heq.
  rewrite <- (DecimalN.Unsigned.of_to m), <- (DecimalN.Unsigned.of_to n). now rewrite Heq.
Qed.

Lemma digits_no_underscore (d : Decimal.uint) :
  0x5F ∉ ustr (NilEmpty.string_of_uint d).
Proof.
  induction d; cbn; intros Hin;
    try (apply elem_of_cons in Hin as [Hin|Hin]; [discriminate|now apply IHd]).
  now apply elem_of_nil in Hin.
Qed.

Lemma decimal_no_underscore (n : N) : 0x5F ∉ decimal n.
Proof.
  unfold decimal, NilZero.string_of_uint.
  destruct (N.to_uint n) eqn:Hd; try (rewrite <- Hd; apply digits_no_underscore).
  cbn. intros Hin. apply elem_of_cons in Hin as [Hin|Hin]; [discriminate|].
  now apply elem_of_nil in Hin.
Qed.

Lemma separator_unique (c : N) (a b x y : jsstring) :
  c ∉ x -> c ∉ y -> a ++ c :: x = b ++ c :: y -> a = b /\ x = y.
Proof.
  intros Hx Hy. revert b. induction a as [|a0 a IH]; intros [|b0 b]; cbn; intros Heq.
  - injection Heq as ->. now split.
  - injection Heq as <- ->. exfalso. apply Hx. apply elem_of_app. right. apply list_elem_of_here.
  - injection Heq as -> <-. exfalso. apply Hy. apply elem_of_app. right. apply list_elem_of_here.
  - injection Heq as -> Heq. destruct (IH b Heq) as [-> ->]. now split.
Qed.

Lemma suggested_inj (k k' : jsstring) (m n : N) :
  k ++ ustr "_" ++ decimal m = k' ++ ustr "_" ++ decimal n -> k = k' /\ m = n.
Proof.
  change (ustr "_") with [0x5F]. cbn [app]. intros Heq.
  apply separator_unique in Heq as [-> Hd]; try apply decimal_no_underscore.
  split; [reflexivity | now apply decimal_inj].
Qed.

Lemma renamesFrom_names (key : option jsstring) (index : nat) (l : list Dup.account)
    (name : jsstring) :
  name ∈ map Rename.newUsername (renamesFrom key index l) ->
  exists j, (index <= j)%nat /\
            name = usernameText key ++ ustr "_" ++ decimal (N.of_nat (j + 1)).
Proof.
  revert index. induction l as [|u rest IH]; intros index.
  - intros Hin. now apply elem_of_nil in Hin.
  - rewrite renamesFrom_cons, map_app. intros Hin. apply elem_of_app in Hin as [Hin|Hin].
    + destruct (0 <? index)%nat; cbn [map Rename.newUsername] in Hin;
        [|now apply elem_of_nil in Hin].
      apply list_elem_of_singleton in Hin. exists index. split; [lia | exact Hin].
    + apply IH in Hin as (j & Hj & ->). exists j. split; [lia | reflexivity].
Qed.

Lemma renamesFrom_NoDup (key : option jsstring) (index : nat) (l : list Dup.account) :
  NoDup (map Rename.newUsername (renamesFrom key index l)).
Proof.
  revert index. induction l as [|u rest IH]; intros index; [constructor|].
  rewrite renamesFrom_cons, map_app. apply NoDup_app. split; [|split; [|apply IH]].
  - destruct (0 <? index)%nat; cbn [map]; [|constructor].
    apply NoDup_singleton.
  - intros name Hhere Hlater.
    destruct (0 <? index)%nat; cbn [map Rename.newUsername] in Hhere;
      [|now apply elem_of_nil in Hhere].
    apply list_elem_of_singleton in Hhere. subst name.
    apply renamesFrom_names in Hlater as (j & Hj & Heq).
    apply suggested_inj in Heq as [_ Heq]. lia.
Qed.

(** X19: the usernames the script suggests are pairwise distinct, across
    groups whose usernames render differently as well as within a group, and
    none equals the username it replaces; but a suggestion can be a username
    that another group keeps: with groups for [k] and for [k_2], the second
    account of the first group is given the name the oldest account of the
    second group keeps. *)
Theorem suggested_usernames_distinct (duplicates : list Dup.t) :
  NoDup (map (fun dup => usernameText (Dup._id dup)) duplicates) ->
  NoDup (map Rename.newUsername (planRenames duplicates)) /\
  Forall (fun r => Rename.newUsername r <> usernameText (Rename.oldUsername r))
         (planRenames duplicates) /\
  (forall (k : jsstring) (a b : Dup.account) (other : Dup.t),
     Dup._id other = Some (k ++ ustr "_2") ->
     exists r,
       r ∈ planRenames [Dup.mk (Some k) [a; b]; other] /\
       Rename.oldUsername r = Some k /\
       Some (Rename.newUsername r) = Dup._id other).
Proof.
  intros Hkeys. split; [|split].
  - unfold planRenames.
    induction duplicates as [|dup rest IH]; cbn [flat_map map] in *; [constructor|].
    apply NoDup_cons in Hkeys as [Hfresh Hrest].
    rewrite map_app. apply NoDup_app. split; [apply renamesFrom_NoDup|].
    split; [|now apply IH].
    intros name Hhere Hlater.
    apply renamesFrom_names in Hhere as (j & _ & ->).
    apply Hfresh. clear IH Hfresh Hrest.
    induction rest as [|dup' rest IH]; cbn [flat_map map] in *;
      [now apply elem_of_nil in Hlater|].
    rewrite map_app in Hlater. apply elem_of_app in Hlater as [Hin|Hin].
    + apply renamesFrom_names in Hin as (j' & _ & Heq).
      apply suggested_inj in Heq as [-> _]. apply list_elem_of_here.
    + apply list_elem_of_further. now apply IH.
  - clear Hkeys. unfold planRenames.
    induction duplicates as [|dup rest IH]; cbn [flat_map]; [constructor|].
    apply Forall_app. split; [|exact IH].
    generalize (sortByDate (Dup.accounts dup)) 0%nat. intros l.
    induction l as [|u l' IHl]; intros i; [constructor|].
    rewrite renamesFrom_cons.
    destruct (0 <? i)%nat; cbn [app]; [constructor|]; try apply IHl.
    cbn [Rename.newUsername Rename.oldUsername]. intros Heq.
    apply (f_equal length) in Heq.
    rewrite !length_app in Heq. pose proof (decimal_length (N.of_nat (i + 1))). lia.
  - intros k a b other Hother.
    unfold planRenames. cbn [flat_map Dup._id Dup.accounts].
    assert (Hsecond : exists first second, sortByDate [a; b] = [first; second]).
    { unfold sortByDate. cbn. destruct (_ <=? _)%Z; eauto. }
    destruct Hsecond as (first & second & ->).
    rewrite !renamesFrom_cons. cbn [Nat.ltb Nat.leb app].
    eexists. split; [apply list_elem_of_here|].
    cbn [Rename.oldUsername Rename.newUsername].
    split; [reflexivity|]. rewrite Hother. reflexivity.
Qed.

End RenamePlan.


Lemma suggested_usernames_distinct_witness :
  map Rename.newUsername (planRenames [annGroup; ann2Group])
    = [ustr "ann_2"; ustr "ann_3"; ustr "ann_2_2"] /\
  NoDup (map Rename.newUsername (planRenames [annGroup; ann2Group])).
Proof.
  split; [vm_compute; reflexivity|].
  apply (suggested_usernames_distinct [annGroup; ann2Group]).
  apply (bool_decide_unpack _). vm_compute. exact I.
Defined.
